(** * Dashboard Inovasi Daerah: the filter-and-derive pipeline

    A shallow embedding of [dashboard_inovasi_final_fix.py]: the loader
    [load_data] with its nested [categorize_admin], the filter engine
    [apply_filters], the map search, the region lookup [get_nearest_area]
    and the Gantt range block; and, of the page around them, the top of
    the script, the metric and the sample table, the organisation names of
    section 2, the comparison of regions, the map with its marker colours,
    the combinations sent for advice and the table to download.

    Modelling conventions.
    - A pandas cell is a [cell]: a float (an exact rational, [Num]), a text
      ([Str]), a timestamp in nanoseconds since the epoch ([Date]) or one of
      the two missing values [NaN] and [NaT].  Floats are idealised as
      rationals: every comparison the script makes is then exact.
    - A row is its index label and a finite map from column names to cells;
      a [DataFrame] is its column list and its rows in order.
    - Python text is modelled as a [string] of bytes.  Case conversion and
      white space are those of ASCII: on ASCII text ([PyStr.is_ascii]) the
      text operations are Python's; beyond ASCII Python also lowers, raises
      and strips code points the model leaves alone, so what turns on the
      case or on the stripped blanks of a text is stated for ASCII text.
    - Column names are distinct: a row is a map from names to cells.  A
      sheet two of whose header names are equal once stripped is outside
      the model (pandas keeps both columns and the loader then fails in
      ways the model does not have); what is stated of the page as a
      whole is stated for sheets without such names.
    - What pandas and [re] do beyond the script (parsing a number or a date
      out of text, printing a float, matching a pattern with regular
      expression operators) is a parameter of the development.
    - pandas is read as the script itself reads it: [astype(str)] writes a
      missing value as the text "nan" (which is why [load_data] replaces
      that text by a missing value afterwards), and a split with
      [expand=True] has as many columns as its longest row.
    - Timestamps are unbounded integers: the end of the [datetime64[ns]]
      range (year 2262) is outside the model.
    - A sort is an insertion sort; where pandas does not fix the order of
      rows with equal keys, nothing is stated on that order.
    - A widget returns what the user chose; the option lists the widgets
      are given are not modelled, except those of the region box of
      section 5.5. *)

From Stdlib Require Import ZArith QArith Qabs Lqa Ascii String List Permutation Sorted Lia.
From stdpp Require Import base option list gmap strings.
Import ListNotations.

Local Close Scope Q_scope.
Local Open Scope string_scope.
Local Open Scope list_scope.

(** ** Python text operations (ASCII) *)

Module PyStr.

Definition code (a : ascii) : nat := nat_of_ascii a.

(** Text within ASCII: every byte is below 128.  The operations below
    are those of Python's [str] on such text. *)
Fixpoint is_ascii (s : string) : bool :=
  match s with
  | EmptyString => true
  | String a s' => (code a <? 128)%nat && is_ascii s'
  end.

Definition is_upper (a : ascii) : bool := (65 <=? code a)%nat && (code a <=? 90)%nat.
Definition is_lower (a : ascii) : bool := (97 <=? code a)%nat && (code a <=? 122)%nat.
Definition is_cased (a : ascii) : bool := is_upper a || is_lower a.

(** [str.isspace] on the ASCII range: TAB..CR, FS..US and the space. *)
Definition is_space (a : ascii) : bool :=
  ((9 <=? code a)%nat && (code a <=? 13)%nat)
  || ((28 <=? code a)%nat && (code a <=? 32)%nat).

Definition lower_char (a : ascii) : ascii :=
  if is_upper a then ascii_of_nat (code a + 32) else a.
Definition upper_char (a : ascii) : ascii :=
  if is_lower a then ascii_of_nat (code a - 32) else a.

(** [s.lower()] on ASCII text: A..Z are lowered, every other byte is
    kept (Python lowers the cased code points beyond ASCII as well). *)
Fixpoint lower (s : string) : string :=
  match s with
  | EmptyString => EmptyString
  | String a s' => String (lower_char a) (lower s')
  end.

(** [s.startswith(p)] *)
Fixpoint startswith (p s : string) : bool :=
  match p, s with
  | EmptyString, _ => true
  | String _ _, EmptyString => false
  | String a p', String b s' => Ascii.eqb a b && startswith p' s'
  end.

(** [p in s] *)
Fixpoint contains (p s : string) : bool :=
  startswith p s
  || match s with
     | EmptyString => false
     | String _ s' => contains p s'
     end.

(** [s.split(sep, 1)]: the text before the first [sep] and, when there
    is a [sep], the text after it. *)
Fixpoint split_once (sep : ascii) (s : string) : string * option string :=
  match s with
  | EmptyString => (EmptyString, None)
  | String a s' =>
      if Ascii.eqb a sep then (EmptyString, Some s')
      else let '(l, r) := split_once sep s' in (String a l, r)
  end.

(** [s.split(sep)[0]] *)
Definition before_first (sep : ascii) (s : string) : string :=
  fst (split_once sep s).

Fixpoint lstrip (s : string) : string :=
  match s with
  | EmptyString => EmptyString
  | String a s' => if is_space a then lstrip s' else s
  end.

Fixpoint rstrip (s : string) : string :=
  match s with
  | EmptyString => EmptyString
  | String a s' =>
      match rstrip s' with
      | EmptyString => if is_space a then EmptyString else String a EmptyString
      | r => String a r
      end
  end.

(** [s.strip()] on ASCII text: the ASCII blanks are stripped (Python
    strips the blanks beyond ASCII, such as U+00A0, as well). *)
Definition strip (s : string) : string := rstrip (lstrip s).

(** [s.title()] on ASCII text: a character that follows a cased
    character is lowered, any other is raised; the cased characters are
    the ASCII letters (Python counts the letters beyond ASCII as cased
    too). *)
Fixpoint title_from (previous_is_cased : bool) (s : string) : string :=
  match s with
  | EmptyString => EmptyString
  | String a s' =>
      String (if previous_is_cased then lower_char a else upper_char a)
             (title_from (is_cased a) s')
  end.

Definition title (s : string) : string := title_from false s.

(** Truth value of a text: non-empty. *)
Definition truthy (s : string) : bool :=
  match s with EmptyString => false | _ => true end.

(** Membership of a text in a Python list. *)
Definition mem (s : string) (l : list string) : bool :=
  existsb (String.eqb s) l.

(** [s.upper()] on ASCII text *)
Fixpoint upper (s : string) : string :=
  match s with
  | EmptyString => EmptyString
  | String a s' => String (upper_char a) (upper s')
  end.

(** [s.replace(a, b)] for single characters *)
Fixpoint replace_char (a b : ascii) (s : string) : string :=
  match s with
  | EmptyString => EmptyString
  | String c s' => String (if Ascii.eqb c a then b else c) (replace_char a b s')
  end.

(** [s[n:]] *)
Fixpoint drop (n : nat) (s : string) : string :=
  match n, s with
  | S n', String _ s' => drop n' s'
  | _, _ => s
  end.

(** [re.search] of a pattern [prefix([^)]+)\)] whose [prefix] is plain
    text: group 1 of the leftmost match.  At a position where [prefix]
    starts, the group is the text up to the next ")", which must exist
    and leave the group non-empty; otherwise the search moves on. *)
Fixpoint search_bracket (prefix s : string) : option string :=
  match (if startswith prefix s then
           match split_once ")" (drop (String.length prefix) s) with
           | (String a g, Some _) => Some (String a g)
           | _ => None
           end
         else None) with
  | Some g => Some g
  | None =>
      match s with
      | EmptyString => None
      | String _ s' => search_bracket prefix s'
      end
  end.

End PyStr.

(** ** Cells *)

Inductive cell : Type :=
| NaN
| NaT
| Num (q : Q)
| Str (s : string)
| Date (t : Z).

(** [pd.isna] *)
Definition isna (c : cell) : bool :=
  match c with NaN | NaT => true | _ => false end.

Definition of_float (o : option Q) : cell :=
  match o with Some q => Num q | None => NaN end.

Definition of_timestamp (o : option Z) : cell :=
  match o with Some t => Date t | None => NaT end.

(** The labels the script writes. *)
Definition LAINNYA : string := "Lainnya".
Definition DINAS_PENDIDIKAN : string := "Dinas Pendidikan".
Definition ADMIN_IGA_2025 : string := "Admin IGA 2025".
Definition IGA_SENTINEL : string := "iga2025.provinsi.jawa.timur".
Definition SCHOOL_KEYWORDS : list string := ["sma"; "smk"; "slb"].

(** ** Frames *)

Record Row : Type := mkRow { label : nat; cells : gmap string cell }.

Record DataFrame : Type := mkFrame { columns : list string; rows : list Row }.

(** [row[c]]; a column the row does not carry reads as missing. *)
Definition get (c : string) (r : Row) : cell := default NaN (cells r !! c).

Definition set (c : string) (v : cell) (r : Row) : Row :=
  mkRow (label r) (<[c := v]> (cells r)).

(** [c in df.columns] *)
Definition has_column (c : string) (df : DataFrame) : bool :=
  PyStr.mem c (columns df).

(** [df[c]] as a Series, in row order. *)
Definition column (c : string) (df : DataFrame) : list cell :=
  map (get c) (rows df).

(** [pd.DataFrame()] *)
Definition empty_frame : DataFrame := mkFrame [] [].

(** [df.empty]: some axis has length 0. *)
Definition is_empty (df : DataFrame) : bool :=
  match columns df, rows df with
  | [], _ | _, [] => true
  | _, _ => false
  end.

(** [df[c] = f(row)] for every row; a new column goes last. *)
Definition assign (c : string) (f : Row -> cell) (df : DataFrame) : DataFrame :=
  mkFrame (if has_column c df then columns df else columns df ++ [c])
          (map (fun r => set c (f r) r) (rows df)).

(** Boolean indexing [df[mask]]: the rows whose mask entry is true. *)
Fixpoint take_mask (mask : list bool) (l : list Row) : list Row :=
  match mask, l with
  | b :: mask', r :: l' => if b then r :: take_mask mask' l' else take_mask mask' l'
  | _, _ => []
  end.

Definition getitem_mask (mask : list bool) (df : DataFrame) : DataFrame :=
  mkFrame (columns df) (take_mask mask (rows df)).

(** [df.head(n)] *)
Definition head (n : nat) (df : DataFrame) : DataFrame :=
  mkFrame (columns df) (firstn n (rows df)).

(** [df.dropna(subset=cs)] *)
Definition dropna (cs : list string) (df : DataFrame) : DataFrame :=
  mkFrame (columns df)
          (List.filter (fun r => forallb (fun c => negb (isna (get c r))) cs) (rows df)).

(** Equality of two cells as [drop_duplicates] sees it (missing values
    are equal to themselves). *)
Definition cell_eqb (a b : cell) : bool :=
  match a, b with
  | NaN, NaN | NaT, NaT => true
  | Num p, Num q => Qeq_bool p q
  | Str s, Str t => String.eqb s t
  | Date s, Date t => Z.eqb s t
  | _, _ => false
  end.

Definition row_eqb (cs : list string) (r1 r2 : Row) : bool :=
  forallb (fun c => cell_eqb (get c r1) (get c r2)) cs.

(** [df.drop_duplicates()]: a row equal, on every column, to an earlier
    row is dropped; [kept] is the reversed list of the rows kept so far. *)
Fixpoint drop_duplicates_from (cs : list string) (kept : list Row) (l : list Row) : list Row :=
  match l with
  | [] => rev kept
  | r :: l' =>
      if existsb (row_eqb cs r) kept then drop_duplicates_from cs kept l'
      else drop_duplicates_from cs (r :: kept) l'
  end.

Definition drop_duplicates (df : DataFrame) : DataFrame :=
  mkFrame (columns df) (drop_duplicates_from (columns df) [] (rows df)).

(** ** Exceptions and notices *)

Inductive exn : Type :=
| KeyError (key : string)
| TypeError
| ValueError
| ReError (pattern : string).

(** What [st.error], [st.warning], [st.info] and [st.success] show. *)
Inductive message : Type :=
| LoadFailed (e : string)              (* "Gagal memuat file: {e}" *)
| EmptyData                            (* "Data kosong atau tidak terbaca." *)
| DuplicatesRemoved (removed left : nat)
| NoDuplicates
| Loaded (nrows ncols : nat)
| Tips                                 (* "Tips: Klik grafik untuk interaksi. ..." *)
| DataUnavailable                      (* "Data belum tersedia atau gagal dimuat." *)
| UploadHint
| NothingMatchesFilter.

Inductive notice : Type :=
| StError (m : message)
| StWarning (m : message)
| StInfo (m : message)
| StSuccess (m : message).

(** A sheet as [pd.read_excel] returns it: the header as read and the
    body, a list of cells per row, labelled 0, 1, ... *)
Record Sheet : Type := mkSheet { header : list string; body : list (list cell) }.

(** ** The decimal fragment of pandas' number syntax

    Used where a concrete reading of [pd.to_numeric] on text is needed:
    optional blanks, an optional ASCII sign, digits with an optional
    fraction.  Any other text is not a number of this fragment. *)

Module Decimal.

Definition digit (a : ascii) : option Z :=
  let n := PyStr.code a in
  if (48 <=? n)%nat && (n <=? 57)%nat then Some (Z.of_nat (n - 48)) else None.

(** Digits read left to right into [acc]; the rest of the text after
    them, and how many were read. *)
Fixpoint digits (acc : Z) (n : nat) (s : string) : Z * nat * string :=
  match s with
  | EmptyString => (acc, n, EmptyString)
  | String a s' =>
      match digit a with
      | Some d => digits (10 * acc + d) (S n) s'
      | None => (acc, n, s)
      end
  end.

Definition unsigned (s : string) : option Q :=
  let '(i, ni, rest) := digits 0 0 s in
  match rest with
  | EmptyString => if (0 <? ni)%nat then Some (inject_Z i) else None
  | String "." rest' =>
      let '(f, nf, rest'') := digits 0 0 rest' in
      match rest'' with
      | EmptyString =>
          if (0 <? ni + nf)%nat
          then Some (Qred (Qmake (i * 10 ^ Z.of_nat nf + f) (Z.to_pos (10 ^ Z.of_nat nf))))
          else None
      | _ => None
      end
  | _ => None
  end.

Definition parse (s : string) : option Q :=
  match PyStr.strip s with
  | String "-" s' => option_map Qopp (unsigned s')
  | String "+" s' => unsigned s'
  | s' => unsigned s'
  end.

End Decimal.

(** A pattern without regular-expression operators matches as plain text. *)
Definition plain_char (a : ascii) : bool :=
  PyStr.is_cased a
  || ((48 <=? PyStr.code a)%nat && (PyStr.code a <=? 57)%nat)
  || Ascii.eqb a " ".

Fixpoint plain_pattern (p : string) : bool :=
  match p with
  | EmptyString => true
  | String a p' => plain_char a && plain_pattern p'
  end.

(** ** The interpreter state: objects and what the page shows

    Frames live in a heap and are named by their location; [shown] is the
    list of notices written to the page so far.  A computation returns a
    value or raises, and the state survives a raise. *)

Definition loc : Type := nat.

Record world : Type := mkWorld { heap : list DataFrame; shown : list notice }.

Definition Py (A : Type) : Type := world -> (exn + A) * world.

#[export] Instance Py_ret : MRet Py := fun A a w => (inr a, w).

#[export] Instance Py_bind : MBind Py := fun A B k m w =>
  match m w with
  | (inl e, w') => (inl e, w')
  | (inr a, w') => k a w'
  end.

Definition raise {A : Type} (e : exn) : Py A := fun w => (inl e, w).

Definition lift {A : Type} (r : exn + A) : Py A :=
  match r with inl e => raise e | inr a => mret a end.

(** [st.error], [st.warning], [st.info], [st.success] *)
Definition st (n : notice) : Py unit :=
  fun w => (inr tt, mkWorld (heap w) (shown w ++ [n])).

(** A new object; nothing that exists is touched. *)
Definition alloc (d : DataFrame) : Py loc :=
  fun w => (inr (length (heap w)), mkWorld (heap w ++ [d]) (shown w)).

Definition deref (l : loc) : Py DataFrame :=
  fun w => (inr (default empty_frame (heap w !! l)), w).

(** [df.copy()] *)
Definition copy (l : loc) : Py loc := d ← deref l; alloc d.

(** [df[mask]] on an object: a new frame. *)
Definition getitem (l : loc) (mask : list bool) : Py loc :=
  d ← deref l; alloc (getitem_mask mask d).

(** [df[c]]: the Series of a column, [KeyError] when there is none. *)
Definition getcol (c : string) (d : DataFrame) : exn + list cell :=
  if has_column c d then inr (column c d) else inl (KeyError c).

(** Element-wise operations on a Series. *)
Fixpoint series_map {A : Type} (f : cell -> exn + A) (ser : list cell) : exn + list A :=
  match ser with
  | [] => inr []
  | c :: ser' =>
      match f c with
      | inl e => inl e
      | inr a =>
          match series_map f ser' with
          | inl e => inl e
          | inr l => inr (a :: l)
          end
      end
  end.

(** [c >= t] for an integer [t]: a missing value compares false, a text
    or a timestamp cannot be compared with a number. *)
Definition cell_ge (t : Z) (c : cell) : exn + bool :=
  match c with
  | Num q => inr (Qle_bool (inject_Z t) q)
  | NaN => inr false
  | NaT | Str _ | Date _ => inl TypeError
  end.

(** [c in values] for a list of texts *)
Definition cell_isin (values : list string) (c : cell) : bool :=
  match c with
  | Str s => PyStr.mem s values
  | _ => false
  end.

(** [c == s] for a text [s] *)
Definition cell_eq_str (s : string) (c : cell) : bool :=
  match c with
  | Str s' => String.eqb s' s
  | _ => false
  end.

(** A list argument that may be [None], which is as false as the empty
    list. *)
Definition selection (o : option (list string)) : list string := default [] o.

(** The module globals [apply_filters] looks up by name: each is unbound
    ([None]) or bound to a value; [daerah_col] may be bound to [None]. *)
Record globals : Type := mkGlobals {
  search_astacipta : option string;
  daerah_col : option (option string);
  daerah_selected : option string
}.

(** At the one call of [apply_filters] in the script none of the three
    names has been assigned yet: [daerah_col] and [daerah_selected] are set
    further down, [search_astacipta] nowhere. *)
Definition globals_at_call : globals := mkGlobals None None None.

(** The arguments of [apply_filters]. *)
Record filter_args : Type := mkArgs {
  min_kematangan : Z;
  jenis_selected : list string;
  opd_selected : list string;
  kategori_selected : option (list string);
  urusan_selected : option (list string)
}.

(** The filter dimensions, one per [if] block of [apply_filters]. *)
Inductive dimension : Type :=
| Kematangan
| Jenis
| AdminOPDGrouped
| KategoriAdminOPD
| UrusanUtama
| AstaCipta
| Daerah.

(** The blocks in the order the source runs them. *)
Definition source_order : list dimension :=
  [Kematangan; Jenis; AdminOPDGrouped; KategoriAdminOPD; UrusanUtama; AstaCipta; Daerah].

(** The reference table of regions, [map_jatim.csv]: a name and numeric
    coordinates per row, labelled 0, 1, ... by [pd.read_csv]. *)
Record ref_row : Type := mkRef { kabupaten : string; ref_lat : Q; ref_lon : Q }.

Definition UNIDENTIFIED : string :=
  "Wilayah Jawa Timur (tidak teridentifikasi spesifik)".

Definition default_threshold : Q := (1 # 100)%Q.

(** [diff.idxmin()]: the label of the first least entry; [best] is the
    label and value of the least entry so far, [i] the next label. *)
Fixpoint idxmin_from (best : nat * Q) (i : nat) (diff : list Q) : nat * Q :=
  match diff with
  | [] => best
  | d :: diff' =>
      idxmin_from (if Qlt_le_dec d (snd best) then (i, d) else best) (S i) diff'
  end.

Definition idxmin (diff : list Q) : exn + (nat * Q) :=
  match diff with
  | [] => inl ValueError
  | d :: diff' => inr (idxmin_from (0, d) 1 diff')
  end.

(** The Manhattan distance of a reference row to a point. *)
Definition manhattan (lat lon : Q) (e : ref_row) : Q :=
  (Qabs (ref_lat e - lat) + Qabs (ref_lon e - lon))%Q.

Definition get_nearest_area (lat lon : Q) (df_ref : list ref_row) (threshold : Q) : exn + string :=
  let diff := map (manhattan lat lon) df_ref in
  match idxmin diff with
  | inl e => inl e
  | inr (idx, d) =>
      if Qlt_le_dec d threshold
      then inr (default EmptyString (kabupaten <$> df_ref !! idx))
      else inr UNIDENTIFIED
  end.

(** Calendar dates as timestamps (proleptic Gregorian, midnight UTC). *)
Module Calendar.

Local Open Scope Z_scope.

Definition ns_per_day : Z := 86400 * 1000000000.

(** Days from 1970-01-01 to year [y], month [m], day [d]. *)
Definition days_from_civil (y m d : Z) : Z :=
  let y' := if m <=? 2 then y - 1 else y in
  let era := y' / 400 in
  let yoe := y' - era * 400 in
  let mp := (m + 9) mod 12 in
  let doy := (153 * mp + 2) / 5 + d - 1 in
  let doe := yoe * 365 + yoe / 4 - yoe / 100 + doy in
  era * 146097 + doe - 719468.

Definition civil_from_days (z : Z) : Z * Z * Z :=
  let z := z + 719468 in
  let era := z / 146097 in
  let doe := z - era * 146097 in
  let yoe := (doe - doe / 1460 + doe / 36524 - doe / 146096) / 365 in
  let doy := doe - (365 * yoe + yoe / 4 - yoe / 100) in
  let mp := (5 * doy + 2) / 153 in
  let d := doy - (153 * mp + 2) / 5 + 1 in
  let m := if mp <? 10 then mp + 3 else mp - 9 in
  let y := yoe + era * 400 in
  (if m <=? 2 then y + 1 else y, m, d).

Definition timestamp (y m d : Z) : Z := days_from_civil y m d * ns_per_day.

Definition date_of (t : Z) : Z * Z * Z := civil_from_days (t / ns_per_day).

(** [pd.Timedelta(days=n)] *)
Definition timedelta_days (n : Z) : Z := n * ns_per_day.

End Calendar.

(** [sort_values] on a key: rows are inserted in key order. *)
Fixpoint insert_by (key : Row -> Z) (r : Row) (l : list Row) : list Row :=
  match l with
  | [] => [r]
  | x :: l' => if (key r <=? key x)%Z then r :: l else x :: insert_by key r l'
  end.

Fixpoint sort_by (key : Row -> Z) (l : list Row) : list Row :=
  match l with
  | [] => []
  | r :: l' => insert_by key r (sort_by key l')
  end.

Definition timestamp_of (c : cell) : Z :=
  match c with Date t => t | _ => 0%Z end.

(** Stand-ins for the library parameters of the development, used to run
    it on examples: numbers are read from text with [Decimal.parse], no
    text is a date, and patterns with regular-expression operators are
    not compiled. *)
Module Standin.

Definition numeric_of (c : cell) : option Q :=
  match c with Str s => Decimal.parse s | _ => None end.

Definition datetime_of (_ : bool) (_ : cell) : option Z := None.

Definition repr (_ : cell) : string := EmptyString.

Definition re_compile (_ : string) : option (string -> bool) := None.

End Standin.

(** ** The script *)

Section Dashboard.

(** Library behaviour the script relies on but does not define:
    - [numeric_of]: [pd.to_numeric(..., errors='coerce')] on a cell that
      is neither a float nor missing ([None]: not a number);
    - [datetime_of dayfirst]: [pd.to_datetime(..., errors='coerce')] on a
      cell that is neither a timestamp nor missing;
    - [repr]: [str] of a float or a timestamp;
    - [re_compile]: a pattern with regular-expression operators compiled
      with [re.IGNORECASE] ([None]: [re.error]), as a search predicate. *)
Variable numeric_of : cell -> option Q.
Variable datetime_of : bool -> cell -> option Z.
Variable repr : cell -> string.
Variable re_compile : string -> option (string -> bool).

Definition to_numeric (c : cell) : cell :=
  match c with
  | Num q => Num q
  | NaN | NaT => NaN
  | _ => of_float (numeric_of c)
  end.

Definition to_datetime (dayfirst : bool) (c : cell) : cell :=
  match c with
  | Date t => Date t
  | NaN | NaT => NaT
  | _ => of_timestamp (datetime_of dayfirst c)
  end.

(** [str(c)], which is also what [astype(str)] writes: a missing float
    becomes the text "nan" (the loader undoes exactly this below). *)
Definition astype_str (c : cell) : string :=
  match c with
  | Str s => s
  | NaN => "nan"
  | NaT => "NaT"
  | _ => repr c
  end.

(** [ser.str.contains(pat, case=False, na=False)] on texts: the pattern
    is compiled first. *)
Definition str_contains (pat : string) : exn + (string -> bool) :=
  if plain_pattern pat
  then inr (fun s => PyStr.contains (PyStr.lower pat) (PyStr.lower s))
  else match re_compile pat with
       | Some f => inr f
       | None => inl (ReError pat)
       end.

(** *** [load_data] *)

Definition categorize_admin (admin : cell) : string :=
  if isna admin then LAINNYA
  else
    let admin_lower := PyStr.lower (astype_str admin) in
    if existsb (fun x => PyStr.contains x admin_lower) SCHOOL_KEYWORDS
    then DINAS_PENDIDIKAN
    else if PyStr.contains IGA_SENTINEL admin_lower
    then ADMIN_IGA_2025
    else PyStr.title (PyStr.strip (PyStr.before_first "." (astype_str admin))).

Definition date_cols : list string :=
  ["Tanggal Input"; "Tanggal Penerapan"; "Tanggal Pengembangan"].

Definition cat_cols : list string :=
  ["Jenis"; "Bentuk Inovasi"; "Admin OPD"; "Kategori Admin OPD";
   "Urusan Utama"; "Asta Cipta"; "Daerah"].

(** [astype(str).replace(['nan', 'NaN', 'None'], np.nan)] on a cell *)
Definition normalize_text (c : cell) : cell :=
  let s := astype_str c in
  if PyStr.mem s ["nan"; "NaN"; "None"] then NaN else Str s.

(** [df.columns = names] on the sheet as read: from here on rows are
    read by column name.  The names are taken to be distinct: of two
    columns of one name a row keeps one cell, where pandas keeps both
    and an access by that name gives a frame, not a column. *)
Definition frame_of_sheet (names : list string) (sh : Sheet) : DataFrame :=
  mkFrame names
          (imap (fun i cs => mkRow i (list_to_map (zip names cs))) (body sh)).

Definition sheet_empty (sh : Sheet) : bool :=
  match header sh, body sh with
  | [], _ | _, [] => true
  | _, _ => false
  end.

(** [astype(str).str.split(',', n=1, expand=True)] of a row's
    "Koordinat": column 0 and, where the text has a comma, column 1. *)
Definition coords_of (r : Row) : string * option string :=
  PyStr.split_once "," (astype_str (get "Koordinat" r)).

(** The number of columns of the expanded split: that of the longest
    split, none for no rows. *)
Definition coords_width (df : DataFrame) : nat :=
  match rows df with
  | [] => 0
  | _ => if existsb (fun r => bool_decide (is_Some (snd (coords_of r)))) (rows df)
         then 2 else 1
  end.

Definition split_coordinates (df : DataFrame) : exn + DataFrame :=
  let width := coords_width df in
  if (1 <=? width)%nat then
    let df := assign "lat" (fun r => to_numeric (Str (fst (coords_of r)))) df in
    if (2 <=? width)%nat then
      inr (assign "lon"
             (fun r => to_numeric (match snd (coords_of r) with
                                   | Some s => Str s
                                   | None => NaN
                                   end)) df)
    else inl (KeyError "1")
  else inl (KeyError "0").

Definition coerce_column (c : string) (f : cell -> cell) (df : DataFrame) : DataFrame :=
  if has_column c df then assign c (fun r => f (get c r)) df else df.

(** [read] is the outcome of the [try] block: the text of the exception
    raised by [pd.ExcelFile] or [pd.read_excel], or the sheet read. *)
Definition load_data (read : string + Sheet) : Py DataFrame :=
  match read with
  | inl e => _ ← st (StError (LoadFailed e)); mret empty_frame
  | inr sh =>
      if sheet_empty sh then _ ← st (StWarning EmptyData); mret empty_frame
      else
        let df := frame_of_sheet (map PyStr.strip (header sh)) sh in
        let before := length (rows df) in
        let df := drop_duplicates df in
        let after := length (rows df) in
        _ ← st (if (before =? after)%nat then StSuccess NoDuplicates
                else StInfo (DuplicatesRemoved (before - after) after));
        let df := coerce_column "Kematangan" to_numeric df in
        let df := fold_left (fun df col => coerce_column col (to_datetime true) df)
                            date_cols df in
        df ← (if has_column "Koordinat" df then lift (split_coordinates df)
              else mret (coerce_column "lon" to_numeric
                           (coerce_column "lat" to_numeric df)));
        let df := fold_left (fun df c => coerce_column c normalize_text df)
                            cat_cols df in
        let df := if has_column "Admin OPD" df
                  then assign "Admin OPD Grouped"
                              (fun r => Str (categorize_admin (get "Admin OPD" r))) df
                  else df in
        _ ← st (StSuccess (Loaded (length (rows df)) (length (columns df))));
        mret df
  end.

(** *** [apply_filters] *)

Definition selected (sel : list string) : bool :=
  match sel with [] => false | _ => negb (PyStr.mem "All" sel) end.

(** One [if] block of [apply_filters], run on the object [df_filtered]
    is bound to; the result is what [df_filtered] is bound to next. *)
Definition run_dimension (g : globals) (a : filter_args) (dim : dimension)
    (df_filtered : loc) : Py loc :=
  d ← deref df_filtered;
  match dim with
  | Kematangan =>
      if has_column "Kematangan" d then
        mask ← lift (series_map (cell_ge (min_kematangan a)) (column "Kematangan" d));
        getitem df_filtered mask
      else mret df_filtered
  | Jenis =>
      if has_column "Jenis" d && selected (jenis_selected a) then
        getitem df_filtered (map (cell_isin (jenis_selected a)) (column "Jenis" d))
      else mret df_filtered
  | AdminOPDGrouped =>
      if has_column "Admin OPD Grouped" d && selected (opd_selected a) then
        getitem df_filtered
                (map (cell_isin (opd_selected a)) (column "Admin OPD Grouped" d))
      else mret df_filtered
  | KategoriAdminOPD =>
      if selected (selection (kategori_selected a))
         && has_column "Kategori Admin OPD" d then
        getitem df_filtered
                (map (cell_isin (selection (kategori_selected a)))
                     (column "Kategori Admin OPD" d))
      else mret df_filtered
  | UrusanUtama =>
      if selected (selection (urusan_selected a))
         && has_column "Urusan Utama" d then
        getitem df_filtered
                (map (cell_isin (selection (urusan_selected a)))
                     (column "Urusan Utama" d))
      else mret df_filtered
  | AstaCipta =>
      match search_astacipta g with
      | Some query =>
          if PyStr.truthy query then
            ser ← lift (getcol "Asta Cipta" d);
            found ← lift (str_contains query);
            getitem df_filtered (map (fun c => found (astype_str c)) ser)
          else mret df_filtered
      | None => mret df_filtered
      end
  | Daerah =>
      match daerah_col g, daerah_selected g with
      | Some (Some col), Some sel =>
          if PyStr.truthy col && negb (String.eqb sel "All") then
            ser ← lift (getcol col d);
            getitem df_filtered (map (cell_eq_str sel) ser)
          else mret df_filtered
      | _, _ => mret df_filtered
      end
  end.

Fixpoint run_dimensions (g : globals) (a : filter_args) (order : list dimension)
    (df_filtered : loc) : Py loc :=
  match order with
  | [] => mret df_filtered
  | dim :: order' =>
      df_filtered ← run_dimension g a dim df_filtered;
      run_dimensions g a order' df_filtered
  end.

(** [apply_filters] with its blocks run in a given order. *)
Definition apply_filters_in (order : list dimension) (g : globals) (df : loc)
    (a : filter_args) : Py loc :=
  df_filtered ← copy df;
  run_dimensions g a order df_filtered.

Definition apply_filters (g : globals) (df : loc) (a : filter_args) : Py loc :=
  apply_filters_in source_order g df a.

(** The frame a run leaves as its result, if it did not raise. *)
Definition view (r : (exn + loc) * world) : option DataFrame :=
  match r with
  | (inr l, w) => heap w !! l
  | (inl _, _) => None
  end.

(** *** The map search (section 6 of the page) *)

Definition search_cols : list string :=
  ["Judul Inovasi"; "Urusan Utama"; "Urusan lain yang beririsan"].

(** [map_df] as the search and the region filter leave it. *)
Definition map_df_filtered (df_filtered : DataFrame) (search_keyword : string)
    (daerah_col : option string) (daerah_selected : string) : exn + DataFrame :=
  let map_df :=
    if has_column "lat" df_filtered && has_column "lon" df_filtered
    then dropna ["lat"; "lon"] df_filtered
    else empty_frame in
  if is_empty map_df then inr map_df
  else
    match
      (if PyStr.truthy (PyStr.strip search_keyword) then
         match List.filter (fun col => has_column col map_df) search_cols with
         | [] => inr map_df
         | cols =>
             match str_contains search_keyword with
             | inl e => inl e
             | inr found =>
                 inr (getitem_mask
                        (map (fun r => existsb (fun col => found (astype_str (get col r))) cols)
                             (rows map_df))
                        map_df)
             end
         end
       else inr map_df)
    with
    | inl e => inl e
    | inr map_df =>
        match
          (match daerah_col with
           | Some col =>
               if PyStr.truthy col && negb (String.eqb daerah_selected "All") then
                 match getcol col map_df with
                 | inl e => inl e
                 | inr ser => inr (getitem_mask (map (cell_eq_str daerah_selected) ser) map_df)
                 end
               else inr map_df
           | None => inr map_df
           end)
        with
        | inl e => inl e
        | inr map_df => inr map_df
        end
    end.

(** [map_df] as the map draws it: at most 600 rows. *)
Definition map_df (df_filtered : DataFrame) (search_keyword : string)
    (daerah_col : option string) (daerah_selected : string) : exn + DataFrame :=
  match map_df_filtered df_filtered search_keyword daerah_col daerah_selected with
  | inl e => inl e
  | inr map_df => inr (head 600 map_df)
  end.

(** *** The Gantt ranges (section 7 of the page) *)

Definition fillna (c other : cell) : cell := if isna c then other else c.

(** [Start + pd.Timedelta(days=30)] *)
Definition add_timedelta (c : cell) (delta : Z) : cell :=
  match c with
  | Date t => Date (t + delta)
  | _ => NaT
  end.

Definition gantt_df (df_filtered : DataFrame) : DataFrame :=
  let gantt_df := coerce_column "Kematangan" to_numeric df_filtered in
  let gantt_df :=
    assign "Start" (fun r => to_datetime false (get "Tanggal Input" r)) gantt_df in
  let gantt_df := assign "End" (fun _ => NaT) gantt_df in
  let gantt_df :=
    if has_column "Tanggal Penerapan" gantt_df
    then assign "End" (fun r => to_datetime false (get "Tanggal Penerapan" r)) gantt_df
    else gantt_df in
  let gantt_df :=
    if has_column "Tanggal Pengembangan" gantt_df
    then assign "End"
                (fun r => fillna (get "End" r)
                                 (to_datetime false (get "Tanggal Pengembangan" r)))
                gantt_df
    else gantt_df in
  assign "End"
         (fun r => if negb (isna (get "Start" r)) && isna (get "End" r)
                   then add_timedelta (get "Start" r) (Calendar.timedelta_days 30)
                   else get "End" r)
         gantt_df.

(** The rows the timeline plots: [None] when there is no "Tanggal Input"
    column (nothing is plotted); a [KeyError] when rows remain and there
    is no "Judul Inovasi" to label them, or no "Kematangan" for the
    caption, which is written before the chart is drawn. *)
Definition gantt_plot_df (df_filtered : DataFrame) : option (exn + DataFrame) :=
  if has_column "Tanggal Input" df_filtered then
    let plot := dropna ["Start"; "End"] (gantt_df df_filtered) in
    if is_empty plot then Some (inr plot)
    else
      match getcol "Judul Inovasi" plot with
      | inl e => Some (inl e)
      | inr _ =>
          let plot := assign "Task" (fun r => Str (astype_str (get "Judul Inovasi" r))) plot in
          let plot := mkFrame (columns plot)
                              (sort_by (fun r => timestamp_of (get "Start" r)) (rows plot)) in
          match getcol "Kematangan" plot with
          | inl e => Some (inl e)
          | inr _ => Some (inr plot)
          end
      end
  else None.

(** *** The top of the script: load, filter, or stop *)

Inductive outcome : Type :=
| Stopped
| Continues (df df_filtered : loc).

(** What the sidebar widgets return. *)
Definition widget_args (d : DataFrame) (chosen : filter_args) : filter_args :=
  mkArgs (min_kematangan chosen)
         (if has_column "Jenis" d then jenis_selected chosen else ["All"])
         (if has_column "Admin OPD Grouped" d then opd_selected chosen else ["All"])
         (if has_column "Kategori Admin OPD" d then kategori_selected chosen
          else Some ["All"])
         (if has_column "Urusan Utama" d then urusan_selected chosen else Some ["All"]).

(** The load, the sidebar, the tips shown under it, and the two checks
    with the call of [apply_filters] between them. *)
Definition script (read : string + Sheet) (chosen : filter_args) : Py outcome :=
  d ← load_data read;
  df ← alloc d;
  let a := widget_args d chosen in
  _ ← st (StInfo Tips);
  if is_empty d then
    _ ← st (StWarning DataUnavailable);
    _ ← st (StInfo UploadHint);
    mret Stopped
  else
    df_filtered ← apply_filters globals_at_call df a;
    d' ← deref df_filtered;
    if is_empty d' then
      _ ← st (StWarning NothingMatchesFilter);
      mret Stopped
    else mret (Continues df df_filtered).

(** *** What the filter blocks mean

    Stated over the column list of the frame, which no block changes. *)

Definition has (c : string) (cols : list string) : bool := PyStr.mem c cols.

(** A maturity cell that is a number not below the threshold. *)
Definition maturity_ge (t : Z) (c : cell) : bool :=
  match c with
  | Num q => Qle_bool (inject_Z t) q
  | _ => false
  end.

(** The row test of a dimension; a dimension that is not applied lets
    every row pass. *)
Definition passes (g : globals) (a : filter_args) (cols : list string)
    (dim : dimension) (r : Row) : bool :=
  match dim with
  | Kematangan =>
      if has "Kematangan" cols
      then maturity_ge (min_kematangan a) (get "Kematangan" r) else true
  | Jenis =>
      if has "Jenis" cols && selected (jenis_selected a)
      then cell_isin (jenis_selected a) (get "Jenis" r) else true
  | AdminOPDGrouped =>
      if has "Admin OPD Grouped" cols && selected (opd_selected a)
      then cell_isin (opd_selected a) (get "Admin OPD Grouped" r) else true
  | KategoriAdminOPD =>
      if selected (selection (kategori_selected a)) && has "Kategori Admin OPD" cols
      then cell_isin (selection (kategori_selected a)) (get "Kategori Admin OPD" r)
      else true
  | UrusanUtama =>
      if selected (selection (urusan_selected a)) && has "Urusan Utama" cols
      then cell_isin (selection (urusan_selected a)) (get "Urusan Utama" r)
      else true
  | AstaCipta =>
      match search_astacipta g with
      | Some query =>
          if PyStr.truthy query then
            match str_contains query with
            | inr found => found (astype_str (get "Asta Cipta" r))
            | inl _ => true
            end
          else true
      | None => true
      end
  | Daerah =>
      match daerah_col g, daerah_selected g with
      | Some (Some col), Some sel =>
          if PyStr.truthy col && negb (String.eqb sel "All")
          then cell_eq_str sel (get col r) else true
      | _, _ => true
      end
  end.

(** The exception a dimension raises whatever the rows are: a column it
    reads is not there, or its pattern does not compile. *)
Definition raises (g : globals) (cols : list string) (dim : dimension) : option exn :=
  match dim with
  | AstaCipta =>
      match search_astacipta g with
      | Some query =>
          if PyStr.truthy query then
            if has "Asta Cipta" cols then
              match str_contains query with
              | inr _ => None
              | inl e => Some e
              end
            else Some (KeyError "Asta Cipta")
          else None
      | None => None
      end
  | Daerah =>
      match daerah_col g, daerah_selected g with
      | Some (Some col), Some sel =>
          if PyStr.truthy col && negb (String.eqb sel "All")
          then if has col cols then None else Some (KeyError col)
          else None
      | _, _ => None
      end
  | _ => None
  end.

Definition blocked (g : globals) (cols : list string) (order : list dimension) : bool :=
  existsb (fun dim => bool_decide (is_Some (raises g cols dim))) order.

(** The rows that pass every dimension of [order]. *)
Definition passing (g : globals) (a : filter_args) (order : list dimension)
    (d : DataFrame) : DataFrame :=
  mkFrame (columns d)
          (List.filter (fun r => forallb (fun dim => passes g a (columns d) dim r) order)
                       (rows d)).

(** A float column: every cell is a number or the missing float. *)
Definition numeric_cell (c : cell) : Prop :=
  match c with NaN | Num _ => True | _ => False end.

Definition numeric_column (c : string) (d : DataFrame) : Prop :=
  Forall (fun r => numeric_cell (get c r)) (rows d).

(** [w'] has every object of [w], unchanged, and shows the same page. *)
Definition extends (w w' : world) : Prop :=
  (exists fresh, heap w' = heap w ++ fresh) /\ shown w' = shown w.

(** *** Text, as the claims speak of it *)

(** [p] occurs in [s]. *)
Definition substring (p s : string) : Prop :=
  exists before after, s = before +:+ p +:+ after.

(** [s] has no character [sep]. *)
Definition free_of (sep : ascii) (s : string) : Prop :=
  PyStr.contains (String sep EmptyString) s = false.

(** *** The Gantt ranges, as the Gantt block computes them *)

Definition parsed_input (r : Row) : cell :=
  to_datetime false (get "Tanggal Input" r).

Definition parsed_application (d : DataFrame) (r : Row) : cell :=
  if has_column "Tanggal Penerapan" d
  then to_datetime false (get "Tanggal Penerapan" r) else NaT.

Definition parsed_development (d : DataFrame) (r : Row) : cell :=
  if has_column "Tanggal Pengembangan" d
  then to_datetime false (get "Tanggal Pengembangan" r) else NaT.

Definition parsed_end (d : DataFrame) (r : Row) : cell :=
  match parsed_application d r with
  | Date t => Date t
  | _ =>
      match parsed_development d r with
      | Date t => Date t
      | _ =>
          match parsed_input r with
          | Date s => Date (s + Calendar.timedelta_days 30)
          | _ => NaT
          end
      end
  end.

(** *** The Gantt ranges, as the claims speak of them

    The dates of a record are the cells of its date columns: on the
    page these are timestamps or [NaT], the loader having parsed them. *)

Definition timestamp_cell (c : cell) : Prop := c = NaT \/ exists t, c = Date t.

Definition dates_typed (d : DataFrame) : Prop :=
  forall c, In c date_cols -> has_column c d = true ->
            Forall (fun r => timestamp_cell (get c r)) (rows d).

Definition input_date (r : Row) : cell := get "Tanggal Input" r.

Definition application_date (d : DataFrame) (r : Row) : cell :=
  if has_column "Tanggal Penerapan" d then get "Tanggal Penerapan" r else NaT.

Definition development_date (d : DataFrame) (r : Row) : cell :=
  if has_column "Tanggal Pengembangan" d then get "Tanggal Pengembangan" r else NaT.

(** The fallback chain: the application date, else the development
    date, else 30 days after the start. *)
Definition resolved_end (d : DataFrame) (r : Row) : cell :=
  match application_date d r with
  | Date t => Date t
  | _ =>
      match development_date d r with
      | Date t => Date t
      | _ =>
          match input_date r with
          | Date s => Date (s + Calendar.timedelta_days 30)
          | _ => NaT
          end
      end
  end.

(** *** Example data *)

Definition row_of (i : nat) (l : list (string * cell)) : Row :=
  mkRow i (list_to_map l).

(** A sheet whose "Koordinat" cells, one blank and one a text, have no
    comma. *)
Definition sheet_without_comma : Sheet :=
  mkSheet ["Judul Inovasi"; "Koordinat"]
          [[Str "Inovasi A"; NaN]; [Str "Inovasi B"; Str "abc"]].

(** A sheet with the two coordinate texts of the specification (the
    sign written as the ASCII hyphen) and a text without a comma. *)
Definition sheet_of_coordinates : Sheet :=
  mkSheet ["Koordinat"] [[Str "-7.25,112.75"]; [Str "abc,112.75"]; [Str "-7.25"]].

(** A frame whose second row has no "Asta Cipta". *)
Definition frame_asta_cipta : DataFrame :=
  mkFrame ["Asta Cipta"]
          [row_of 0 [("Asta Cipta", Str "Pendidikan")];
           row_of 1 [("Asta Cipta", NaN)]].

(** A frame on the map whose second row has no "Urusan Utama". *)
Definition frame_on_map : DataFrame :=
  mkFrame ["Urusan Utama"; "lat"; "lon"]
          [row_of 0 [("Urusan Utama", Str "Kesehatan");
                     ("lat", Num (-29 # 4)); ("lon", Num (451 # 4))];
           row_of 1 [("Urusan Utama", NaN);
                     ("lat", Num (-7 # 1)); ("lon", Num (112 # 1))]].

(** A frame with maturities 80, null and 30, and kinds. *)
Definition frame_maturity : DataFrame :=
  mkFrame ["Kematangan"; "Jenis"]
          [row_of 0 [("Kematangan", Num (80 # 1)); ("Jenis", Str "Digital")];
           row_of 1 [("Kematangan", NaN); ("Jenis", Str "Digital")];
           row_of 2 [("Kematangan", Num (30 # 1)); ("Jenis", Str "Non Digital")]].

(** A frame with one record entered on 2024-01-10 and one without a
    date. *)
Definition frame_dates : DataFrame :=
  mkFrame ["Judul Inovasi"; "Kematangan"; "Tanggal Input"]
          [row_of 0 [("Judul Inovasi", Str "A"); ("Kematangan", Num (80 # 1));
                     ("Tanggal Input", Date (Calendar.timestamp 2024 1 10))];
           row_of 1 [("Judul Inovasi", Str "B"); ("Kematangan", Num (30 # 1));
                     ("Tanggal Input", NaT)]].

Definition gazetteer : list ref_row :=
  [mkRef "Kota Surabaya" (-29 # 4) (451 # 4);
   mkRef "Kota Malang" (-797 # 100) (11263 # 100)].

(** Minimum maturity 50 and kind "Digital", the other dimensions unset. *)
Definition args_digital_50 : filter_args :=
  mkArgs 50 ["Digital"] ["All"] (Some ["All"]) (Some ["All"]).

(** Every dimension at its default. *)
Definition args_default : filter_args :=
  mkArgs 0 ["All"] ["All"] (Some ["All"]) (Some ["All"]).

(** A state whose only object is [d], at location 0, on a blank page. *)
Definition world_of (d : DataFrame) : world := mkWorld [d] [].

(** A frame with rows and a "Koordinat" column none of whose texts has a
    comma. *)
Definition comma_free (d : DataFrame) : Prop :=
  rows d <> []
  /\ has_column "Koordinat" d = true
  /\ Forall (fun r => snd (coords_of r) = None) (rows d).

(** *** The category and the short name of an organisation (section 2) *)

Definition kategori_mapping (x : cell) : string :=
  let x_str := astype_str x in
  if PyStr.mem (PyStr.upper x_str) ["SMA"; "SMK"; "SLB"] then "Dinas Pendidikan"
  else if String.eqb (PyStr.lower x_str) "admin.jawa.timur" then "Admin IGA"
  else PyStr.title x_str.

Definition nama_pendek (x : cell) : string :=
  let x_str := astype_str x in
  let bracket :=
    if PyStr.contains "(Jatimprov." x_str
    then PyStr.search_bracket "(Jatimprov." x_str
    else if PyStr.contains "(Iga2024." x_str
    then PyStr.search_bracket "(Iga2024." x_str
    else None in
  match bracket with
  | Some inner => PyStr.title (PyStr.replace_char "." " " inner)
  | None =>
      if PyStr.contains "(" x_str
      then PyStr.title (PyStr.strip (PyStr.before_first "(" x_str))
      else PyStr.title x_str
  end.

(** *** [load_data], stage by stage *)

(** The frame when the coordinate block is reached. *)
Definition loaded_before_coordinates (sh : Sheet) : DataFrame :=
  fold_left (fun df col => coerce_column col (to_datetime true) df) date_cols
            (coerce_column "Kematangan" to_numeric
               (drop_duplicates (frame_of_sheet (map PyStr.strip (header sh)) sh))).

(** The coordinate block. *)
Definition coordinate_step (df : DataFrame) : exn + DataFrame :=
  if has_column "Koordinat" df then split_coordinates df
  else inr (coerce_column "lon" to_numeric (coerce_column "lat" to_numeric df)).

(** The blocks after it. *)
Definition finish_load (df : DataFrame) : DataFrame :=
  let df := fold_left (fun df c => coerce_column c normalize_text df) cat_cols df in
  if has_column "Admin OPD" df
  then assign "Admin OPD Grouped"
              (fun r => Str (categorize_admin (get "Admin OPD" r))) df
  else df.

(** What the loader says about duplicates. *)
Definition duplicates_notice (sh : Sheet) : notice :=
  let df := frame_of_sheet (map PyStr.strip (header sh)) sh in
  let before := length (rows df) in
  let after := length (rows (drop_duplicates df)) in
  if (before =? after)%nat then StSuccess NoDuplicates
  else StInfo (DuplicatesRemoved (before - after) after).

(** A categorical cell as the loader leaves it: missing, or a text other
    than the three the loader turns into a missing value. *)
Definition normalized_text (c : cell) : Prop :=
  c = NaN \/ exists s, c = Str s /\ PyStr.mem s ["nan"; "NaN"; "None"] = false.

(** *** The comparison of regions (section 5.5)

    The columns the section reads as latitude and longitude: the loop
    over [df_filtered.columns] keeps the last column whose lower-cased
    name has the marker. *)
Definition last_column (p : string -> bool) (cols : list string) : option string :=
  fold_left (fun found c => if p (PyStr.lower c) then Some c else found) cols None.

Definition lat_col (df_filtered : DataFrame) : option string :=
  last_column (PyStr.contains "lat") (columns df_filtered).

Definition lon_col (df_filtered : DataFrame) : option string :=
  last_column (fun c => PyStr.contains "lon" c || PyStr.contains "lng" c)
              (columns df_filtered).

(** [get_nearest_area(x[lat_col], x[lon_col], df_ref)] on the cells of a
    row: the subtraction from the float column of the reference table is
    defined for numbers only.  The rows this is applied to have no null
    coordinate ([df_geo] is made by [dropna]). *)
Definition region_of (df_ref : list ref_row) (lat lon : cell) : exn + string :=
  match lat, lon with
  | Num a, Num b => get_nearest_area a b df_ref default_threshold
  | _, _ => inl TypeError
  end.

(** [df[c] = df.apply(f, axis=1)] on the rows, in order; the first
    exception ends it. *)
Fixpoint assign_each (c : string) (f : Row -> exn + cell) (l : list Row) : exn + list Row :=
  match l with
  | [] => inr []
  | r :: l' =>
      match f r with
      | inl e => inl e
      | inr v =>
          match assign_each c f l' with
          | inl e => inl e
          | inr l'' => inr (set c v r :: l'')
          end
      end
  end.

(** [df["Daerah"] = df.apply(..., axis=1)] on a frame with rows: the
    region of each row, in order. *)
Definition regions_assigned (lat_col lon_col : string) (df : DataFrame)
    (df_ref : list ref_row) : exn + DataFrame :=
  match assign_each "Daerah"
          (fun x => match region_of df_ref (get lat_col x) (get lon_col x) with
                    | inl e => inl e
                    | inr s => inr (Str s)
                    end)
          (rows df)
  with
  | inl e => inl e
  | inr l => inr (mkFrame (if has_column "Daerah" df then columns df
                           else columns df ++ ["Daerah"]) l)
  end.

(** [map_coordinates_to_region].  On a frame without rows [df.apply]
    calls nothing and gives a copy of the frame back, and the assignment
    of a frame to the one column "Daerah" raises [ValueError] unless
    that frame has a single column. *)
Definition map_coordinates_to_region (lat_col lon_col : string) (df : DataFrame)
    (df_ref : list ref_row) : exn + DataFrame :=
  match rows df with
  | [] =>
      if (length (columns df) =? 1)%nat
      then inr (mkFrame (if has_column "Daerah" df then columns df
                         else columns df ++ ["Daerah"]) [])
      else inl ValueError
  | _ :: _ => regions_assigned lat_col lon_col df df_ref
  end.

(** [sorted] on texts: by code point. *)
Fixpoint insert_text (s : string) (l : list string) : list string :=
  match l with
  | [] => [s]
  | x :: l' => if String.leb s x then s :: l else x :: insert_text s l'
  end.

Definition sorted_texts (l : list string) : list string := fold_right insert_text [] l.

(** [unique] on texts: each text once, in the order of first appearance. *)
Fixpoint unique (l : list string) : list string :=
  match l with
  | [] => []
  | x :: l' => x :: List.filter (fun y => negb (String.eqb y x)) (unique l')
  end.

(** The texts of a column without its null cells. *)
Definition texts (ser : list cell) : list string :=
  flat_map (fun c => match c with Str s => [s] | _ => [] end) ser.

(** The options of the region box, and the rows of the region chosen. *)
Definition daerah_tersedia (df_geo : DataFrame) : list string :=
  sorted_texts (unique (texts (column "Daerah" df_geo))).

Definition df_selected (df_geo : DataFrame) (selected_daerah : string) : DataFrame :=
  getitem_mask (map (cell_eq_str selected_daerah) (column "Daerah" df_geo)) df_geo.

(** *** The frame of the page after section 2

    [df_filtered.assign(...)]: both new columns are computed from "Admin
    OPD"; "Kategori Admin OPD" is overwritten when the sheet had it. *)
Definition with_short_names (df_filtered : DataFrame) : DataFrame :=
  if has_column "Admin OPD" df_filtered then
    assign "Nama Pendek OPD" (fun r => Str (nama_pendek (get "Admin OPD" r)))
      (assign "Kategori Admin OPD" (fun r => Str (kategori_mapping (get "Admin OPD" r)))
              df_filtered)
  else df_filtered.

(** *** The region column of the map (section 6)

    The first candidate that is a column of the view; the loop stops at
    it. *)
Definition daerah_candidates : list string :=
  ["Daerah"; "Kabupaten/Kota"; "Provinsi"; "Nama Daerah"].

Definition daerah_col_of (df_filtered : DataFrame) : option string :=
  List.find (fun col_candidate => has_column col_candidate df_filtered) daerah_candidates.

(** A record is a hit of the search when one of the three searched
    columns the view has holds a text the keyword is found in. *)
Definition keyword_hit (found : string -> bool) (d : DataFrame) (r : Row) : bool :=
  existsb (fun col => has_column col d && found (astype_str (get col r))) search_cols.

(** What the search asks of a record: nothing for a blank keyword or a
    view with none of the searched columns. *)
Definition search_ok (d : DataFrame) (search_keyword : string) (r : Row) : Prop :=
  PyStr.truthy (PyStr.strip search_keyword) = true ->
  (exists col, In col search_cols /\ has_column col d = true) ->
  exists found, str_contains search_keyword = inr found /\ keyword_hit found d r = true.

(** What the region box asks of a record: nothing when the view has no
    region column or "All" is chosen. *)
Definition region_ok (d : DataFrame) (daerah_selected : string) (r : Row) : Prop :=
  forall col, daerah_col_of d = Some col -> daerah_selected <> "All" ->
              get col r = Str daerah_selected.

(** [row.get(c, default)] on a row of [df]: the cell when [c] is a
    column, the default otherwise; then [str]. *)
Definition row_get_str (df : DataFrame) (c default : string) (row : Row) : string :=
  if has_column c df then astype_str (get c row) else default.

(** The colour of a record on the map. *)
Definition marker_color (map_df : DataFrame) (row : Row) : string :=
  let jenis := PyStr.lower (row_get_str map_df "Jenis" "" row) in
  if PyStr.contains "digital" jenis then "green"
  else if PyStr.contains "non" jenis then "orange"
  else "gray".

(** *** The combinations sent for advice (section 6.5)

    [itertools.combinations(iterable, r)]: the sub-sequences of length
    [r], in lexicographic order of positions. *)
Fixpoint combinations {A : Type} (iterable : list A) (r : nat) {struct iterable}
    : list (list A) :=
  match r, iterable with
  | O, _ => [[]]
  | S _, [] => []
  | S r', x :: rest => map (cons x) (combinations rest r') ++ combinations rest r
  end.

(** What the section does with a selection. *)
Inductive collaboration : Type :=
| NothingSelected               (* the hint to pick at least two *)
| TooFew                        (* the warning: at least 2 *)
| TooMany                       (* the warning: at most 5 *)
| Analysed (all_combinations : list (list string)).

Definition all_combinations (selected_inovasi : list string) : list (list string) :=
  flat_map (combinations selected_inovasi)
           (seq 2 (length selected_inovasi + 1 - 2)).

Definition collaborations (selected_inovasi : list string) (max_comb : nat)
    : collaboration :=
  match selected_inovasi with
  | [] => NothingSelected
  | _ =>
      if (length selected_inovasi <? 2)%nat then TooFew
      else if (5 <? length selected_inovasi)%nat then TooMany
      else Analysed (firstn max_comb (all_combinations selected_inovasi))
  end.

(** *** The sample table (section 1) *)

Definition sample_cols : list string :=
  ["Judul Inovasi"; "Admin OPD"; "Kematangan"; "Tahapan Inovasi"].

(** [df[cols]]: the frame of the columns [cols] alone. *)
Definition getitem_cols (cols : list string) (df : DataFrame) : DataFrame :=
  mkFrame cols
          (map (fun r => mkRow (label r) (list_to_map (map (fun c => (c, get c r)) cols)))
               (rows df)).

(** The order of [sort_values(ascending=False)] on a float column: the
    larger number first, the missing values last. *)
Definition cell_before (a b : cell) : bool :=
  match a, b with
  | Num p, Num q => Qle_bool q p
  | Num _, _ => true
  | _, Num _ => false
  | _, _ => true
  end.

(** [sort_values(by=c, ascending=False)] on a float column.  Rows with
    equal values are left in the order an insertion sort gives; pandas
    does not fix their order, and nothing is stated on it. *)
Fixpoint insert_desc (c : string) (r : Row) (l : list Row) : list Row :=
  match l with
  | [] => [r]
  | x :: l' =>
      if cell_before (get c r) (get c x) then r :: l else x :: insert_desc c r l'
  end.

Definition sort_values_desc (c : string) (l : list Row) : list Row :=
  fold_right (insert_desc c) [] l.

(** The table under the metric: [None] is the warning shown for an empty
    view; the rows are numbered from 1. *)
Definition df_tampil (df_filtered : DataFrame) : option (exn + DataFrame) :=
  if is_empty df_filtered then None
  else
    let cols_to_show := List.filter (fun c => has_column c df_filtered) sample_cols in
    let shown := getitem_cols cols_to_show df_filtered in
    if has_column "Kematangan" shown then
      Some (inr (mkFrame cols_to_show
                         (imap (fun i r => mkRow (i + 1) (cells r))
                               (sort_values_desc "Kematangan" (rows shown)))))
    else Some (inl (KeyError "Kematangan")).

(** *** The table to download (last section) *)

(** [drop(columns=['No'])] *)
Definition drop_column (c : string) (df : DataFrame) : DataFrame :=
  mkFrame (List.filter (fun c' => negb (String.eqb c' c)) (columns df))
          (map (fun r => mkRow (label r) (delete c (cells r))) (rows df)).

(** [reset_index(drop=True)], the old "No" dropped, the new one put
    first: 1, 2, ... *)
Definition df_display (df_filtered : DataFrame) : DataFrame :=
  let df_display :=
    mkFrame (columns df_filtered)
            (imap (fun i r => mkRow i (cells r)) (rows df_filtered)) in
  let df_display :=
    if has_column "No" df_display then drop_column "No" df_display else df_display in
  mkFrame ("No" :: columns df_display)
          (imap (fun i r => set "No" (Num (inject_Z (Z.of_nat i + 1))) r)
                (rows df_display)).

(** *** The metric (section 1) *)

(** The variable [persentase], with the division taken exactly; the page
    shows it formatted with [.1f], which is not modelled. *)
Definition persentase (total_inovasi jumlah_terpilih : nat) : Q :=
  if (0 <? total_inovasi)%nat
  then (inject_Z (Z.of_nat jumlah_terpilih) / inject_Z (Z.of_nat total_inovasi)
        * inject_Z 100)%Q
  else 0%Q.

(** A sheet of two organisations, one of them missing, with coordinates. *)
Definition sheet_of_organisations : Sheet :=
  mkSheet ["Admin OPD"; "Koordinat"]
          [[Str "SMKN 1 Surabaya"; Str "-7.25,112.75"]; [NaN; Str "-7.25,112.75"]].

(** The frame a run of the loader returns (the empty frame when it raises). *)
Definition frame_of (run : (exn + DataFrame) * world) : DataFrame :=
  match fst run with
  | inr df => df
  | inl _ => empty_frame
  end.

(** *** Comparing two settings of the sidebar

    A multiselect set to [sel'] asks at least what it asks set to [sel]:
    [sel] filters nothing (it is empty or has "All"), or [sel'] filters and
    offers no value that [sel] does not. *)
Definition narrower (sel sel' : list string) : Prop :=
  selected sel = false
  \/ (selected sel' = true /\ forall s, In s sel' -> In s sel).

Definition stricter (a a' : filter_args) : Prop :=
  (min_kematangan a <= min_kematangan a')%Z
  /\ narrower (jenis_selected a) (jenis_selected a')
  /\ narrower (opd_selected a) (opd_selected a')
  /\ narrower (selection (kategori_selected a)) (selection (kategori_selected a'))
  /\ narrower (selection (urusan_selected a)) (selection (urusan_selected a')).

(** *** Sheets within the model

    The header names are ASCII text and distinct once stripped: the sheets
    on which the model reads the names as the loader does. *)
Definition plain_header (sh : Sheet) : Prop :=
  Forall (fun name => PyStr.is_ascii name = true) (header sh)
  /\ List.NoDup (map PyStr.strip (header sh)).

(** An "Admin OPD Grouped" column, if there is one, is the loader's: the
    sheet has an "Admin OPD" column, from which the loader writes it.  The
    option lists of the sidebar are then lists of texts. *)
Definition grouped_by_loader (sh : Sheet) : Prop :=
  PyStr.mem "Admin OPD Grouped" (map PyStr.strip (header sh)) = true ->
  PyStr.mem "Admin OPD" (map PyStr.strip (header sh)) = true.

(** ** Lists, masks and the monad *)

Lemma take_mask_map (p : Row -> bool) (l : list Row) :
  take_mask (map p l) l = List.filter p l.
Proof.
  induction l as [|r l IH]; simpl; [reflexivity|].
  destruct (p r); rewrite IH; reflexivity.
Qed.

Lemma take_mask_sublist (mask : list bool) (l : list Row) :
  sublist (take_mask mask l) l.
Proof.
  revert mask; induction l as [|r l IH]; intros [|b mask]; simpl;
    try apply sublist_nil_l.
  destruct b; [apply sublist_skip | apply sublist_cons]; apply IH.
Qed.

Lemma filter_all (l : list Row) : List.filter (fun _ => true) l = l.
Proof. induction l; simpl; congruence. Qed.

Lemma filter_twice (p q : Row -> bool) (l : list Row) :
  List.filter q (List.filter p l) = List.filter (fun r => p r && q r) l.
Proof.
  induction l as [|r l IH]; simpl; [reflexivity|].
  destruct (p r); simpl; [destruct (q r)|]; rewrite IH; reflexivity.
Qed.

Lemma filter_sublist (p : Row -> bool) (l : list Row) : sublist (List.filter p l) l.
Proof. rewrite <- take_mask_map. apply take_mask_sublist. Qed.

Lemma forallb_permutation {A : Type} (f : A -> bool) (l1 l2 : list A) :
  Permutation l1 l2 -> forallb f l1 = forallb f l2.
Proof.
  induction 1; simpl; try congruence.
  destruct (f x), (f y); reflexivity.
Qed.

Lemma existsb_permutation {A : Type} (f : A -> bool) (l1 l2 : list A) :
  Permutation l1 l2 -> existsb f l1 = existsb f l2.
Proof.
  induction 1; simpl; try congruence.
  destruct (f x), (f y); reflexivity.
Qed.

Lemma series_ge_mask (t : Z) (c : string) (l : list Row) (mask : list bool) :
  series_map (cell_ge t) (map (get c) l) = inr mask ->
  take_mask mask l = List.filter (fun r => maturity_ge t (get c r)) l.
Proof.
  revert mask; induction l as [|r l IH]; simpl; intros mask H.
  - injection H as <-. reflexivity.
  - destruct (cell_ge t (get c r)) as [e|b] eqn:Hc; [discriminate|].
    destruct (series_map (cell_ge t) (map (get c) l)) as [e|m] eqn:Hm; [discriminate|].
    injection H as <-. simpl. rewrite (IH m eq_refl).
    destruct (get c r); simpl in *; try discriminate;
      injection Hc as <-; reflexivity.
Qed.

Lemma series_ge_numeric (t : Z) (c : string) (l : list Row) :
  Forall (fun r => numeric_cell (get c r)) l ->
  exists mask, series_map (cell_ge t) (map (get c) l) = inr mask.
Proof.
  induction 1 as [|r l Hr _ [m IH]]; simpl; [eauto|].
  rewrite IH. destruct (get c r); simpl in *; try contradiction; eauto.
Qed.

Lemma extends_refl (w : world) : extends w w.
Proof. split; [exists []; symmetry; apply app_nil_r | reflexivity]. Qed.

Lemma extends_trans (w1 w2 w3 : world) :
  extends w1 w2 -> extends w2 w3 -> extends w1 w3.
Proof.
  intros [[f1 H1] S1] [[f2 H2] S2]. split; [|congruence].
  exists (f1 ++ f2). rewrite H2, H1, app_assoc. reflexivity.
Qed.

Lemma extends_lookup (w w' : world) (l : loc) (d : DataFrame) :
  extends w w' -> heap w !! l = Some d -> heap w' !! l = Some d.
Proof.
  intros [[f ->] _] H. apply lookup_app_l_Some. exact H.
Qed.

Lemma extends_alloc (w : world) (d : DataFrame) :
  extends w (mkWorld (heap w ++ [d]) (shown w)).
Proof. split; [exists [d]; reflexivity | reflexivity]. Qed.

Lemma lookup_alloc (h : list DataFrame) (d : DataFrame) :
  (h ++ [d]) !! length h = Some d.
Proof. apply list_lookup_middle. reflexivity. Qed.

Lemma frame_eta (d : DataFrame) : mkFrame (columns d) (rows d) = d.
Proof. destruct d; reflexivity. Qed.

(** ** One filter block *)

Ltac py_unfold :=
  unfold getitem, copy, deref, alloc, lift, raise, st,
         mbind, Py_bind, mret, Py_ret in *.

(** A block that is not applied leaves [df_filtered] bound to the same
    object; one that is applied binds it to a new object holding the rows
    its mask keeps. *)
Lemma getitem_returns (w : world) (l : loc) (d : DataFrame) (p : Row -> bool) :
  heap w !! l = Some d ->
  exists l' w',
    getitem l (map p (rows d)) w = (inr l', w')
    /\ heap w' !! l' = Some (mkFrame (columns d) (List.filter p (rows d)))
    /\ extends w w' /\ (l <= l')%nat.
Proof.
  intros H. py_unfold. rewrite H. simpl.
  eexists _, _. split; [reflexivity|].
  split; [|split; [apply extends_alloc | apply lookup_lt_Some in H; lia]].
  simpl. unfold getitem_mask. rewrite take_mask_map. apply lookup_alloc.
Qed.

Lemma skip_returns (w : world) (l : loc) (d : DataFrame) :
  heap w !! l = Some d ->
  heap w !! l = Some (mkFrame (columns d) (List.filter (fun _ => true) (rows d)))
  /\ extends w w /\ (l <= l)%nat.
Proof.
  intros H. rewrite filter_all, frame_eta.
  split; [exact H | split; [apply extends_refl | lia]].
Qed.

Lemma run_dimension_returns g a dim l w d l' w' :
  heap w !! l = Some d ->
  run_dimension g a dim l w = (inr l', w') ->
  heap w' !! l' = Some (mkFrame (columns d)
                          (List.filter (passes g a (columns d) dim) (rows d)))
  /\ extends w w' /\ (l <= l')%nat.
Proof.
  intros H R. unfold run_dimension in R. unfold passes, has.
  unfold mbind at 1, Py_bind at 1, deref at 1 in R. rewrite H in R. simpl in R.
  fold (has_column "Kematangan" d) (has_column "Jenis" d)
       (has_column "Admin OPD Grouped" d) (has_column "Kategori Admin OPD" d)
       (has_column "Urusan Utama" d).
  destruct dim.
  - destruct (has_column "Kematangan" d).
    + unfold mbind, Py_bind, lift in R.
      destruct (series_map _ _) as [e|mask] eqn:Hm; [discriminate R|].
      unfold mret, Py_ret, getitem, mbind, Py_bind, deref, alloc in R.
      rewrite H in R. simpl in R. injection R as <- <-. simpl.
      split; [|split; [apply extends_alloc | apply lookup_lt_Some in H; lia]].
      unfold getitem_mask. rewrite (series_ge_mask _ _ _ _ Hm). apply lookup_alloc.
    + injection R as <- <-. apply skip_returns, H.
  - destruct (has_column "Jenis" d && selected (jenis_selected a)).
    + unfold column in R. rewrite map_map in R.
      destruct (getitem_returns w l d (fun r => cell_isin (jenis_selected a) (get "Jenis" r)) H)
        as (l1 & w1 & E & ? & ? & ?).
      rewrite E in R. injection R as <- <-. auto.
    + injection R as <- <-. apply skip_returns, H.
  - destruct (has_column "Admin OPD Grouped" d && selected (opd_selected a)).
    + unfold column in R. rewrite map_map in R.
      destruct (getitem_returns w l d
                  (fun r => cell_isin (opd_selected a) (get "Admin OPD Grouped" r)) H)
        as (l1 & w1 & E & ? & ? & ?).
      rewrite E in R. injection R as <- <-. auto.
    + injection R as <- <-. apply skip_returns, H.
  - destruct (selected (selection (kategori_selected a)) && has_column "Kategori Admin OPD" d).
    + unfold column in R. rewrite map_map in R.
      destruct (getitem_returns w l d
                  (fun r => cell_isin (selection (kategori_selected a))
                                      (get "Kategori Admin OPD" r)) H)
        as (l1 & w1 & E & ? & ? & ?).
      rewrite E in R. injection R as <- <-. auto.
    + injection R as <- <-. apply skip_returns, H.
  - destruct (selected (selection (urusan_selected a)) && has_column "Urusan Utama" d).
    + unfold column in R. rewrite map_map in R.
      destruct (getitem_returns w l d
                  (fun r => cell_isin (selection (urusan_selected a))
                                      (get "Urusan Utama" r)) H)
        as (l1 & w1 & E & ? & ? & ?).
      rewrite E in R. injection R as <- <-. auto.
    + injection R as <- <-. apply skip_returns, H.
  - destruct (search_astacipta g) as [query|]; [|injection R as <- <-; apply skip_returns, H].
    destruct (PyStr.truthy query); [|injection R as <- <-; apply skip_returns, H].
    unfold mbind at 1, Py_bind at 1, lift at 1, getcol in R.
    destruct (has_column "Asta Cipta" d); [|discriminate R].
    unfold mret, Py_ret, mbind at 1, Py_bind at 1, lift in R.
    destruct (str_contains query) as [e|found]; [discriminate R|].
    unfold mret, Py_ret in R. unfold column in R. rewrite map_map in R.
    destruct (getitem_returns w l d (fun r => found (astype_str (get "Asta Cipta" r))) H)
      as (l1 & w1 & E & ? & ? & ?).
    rewrite E in R. injection R as <- <-. auto.
  - destruct (daerah_col g) as [[col|]|]; try (injection R as <- <-; apply skip_returns, H).
    destruct (daerah_selected g) as [sel|]; [|injection R as <- <-; apply skip_returns, H].
    destruct (PyStr.truthy col && negb (sel =? "All")%string);
      [|injection R as <- <-; apply skip_returns, H].
    unfold mbind at 1, Py_bind at 1, lift at 1, getcol in R.
    destruct (has_column col d); [|discriminate R].
    unfold mret, Py_ret in R. unfold column in R. rewrite map_map in R.
    destruct (getitem_returns w l d (fun r => cell_eq_str sel (get col r)) H)
      as (l1 & w1 & E & ? & ? & ?).
    rewrite E in R. injection R as <- <-. auto.
Qed.


Lemma run_dimension_blocked g a dim l w d e :
  heap w !! l = Some d ->
  raises g (columns d) dim = Some e ->
  run_dimension g a dim l w = (inl e, w).
Proof.
  intros H B. unfold run_dimension.
  unfold mbind at 1, Py_bind at 1, deref at 1. rewrite H. simpl.
  unfold raises, has in B. fold (has_column "Asta Cipta" d) in B.
  destruct dim; try discriminate B.
  - destruct (search_astacipta g) as [query|]; [|discriminate B].
    destruct (PyStr.truthy query); [|discriminate B].
    unfold mbind at 1, Py_bind at 1, lift at 1, getcol.
    destruct (has_column "Asta Cipta" d).
    + unfold mret, Py_ret, mbind at 1, Py_bind at 1, lift.
      destruct (str_contains query) as [e'|found]; [|discriminate B].
      injection B as <-. reflexivity.
    + injection B as <-. reflexivity.
  - destruct (daerah_col g) as [[col|]|]; try discriminate B.
    destruct (daerah_selected g) as [sel|]; [|discriminate B].
    destruct (PyStr.truthy col && negb (sel =? "All")%string); [|discriminate B].
    fold (has_column col d) in B.
    unfold mbind at 1, Py_bind at 1, lift at 1, getcol.
    destruct (has_column col d); [discriminate B|].
    injection B as <-. reflexivity.
Qed.

Lemma run_dimension_total g a dim l w d :
  heap w !! l = Some d ->
  numeric_column "Kematangan" d ->
  raises g (columns d) dim = None ->
  exists l' w', run_dimension g a dim l w = (inr l', w').
Proof.
  intros H N B. unfold run_dimension.
  unfold mbind at 1, Py_bind at 1, deref at 1. rewrite H. simpl.
  unfold raises, has in B. fold (has_column "Asta Cipta" d) in B.
  destruct dim;
    repeat match goal with
           | |- context [if ?b then _ else _] => destruct b eqn:?
           end;
    try (eexists _, _; reflexivity);
    try (unfold getitem, mbind, Py_bind, deref, alloc; eexists _, _; reflexivity).
  - destruct (series_ge_numeric (min_kematangan a) "Kematangan" (rows d) N) as [mask Hm].
    unfold column, mbind, Py_bind, lift. rewrite Hm.
    unfold mret, Py_ret, getitem, mbind, Py_bind, deref, alloc.
    eexists _, _; reflexivity.
  - destruct (search_astacipta g) as [query|]; [|eexists _, _; reflexivity].
    destruct (PyStr.truthy query); [|eexists _, _; reflexivity].
    unfold mbind at 1, Py_bind at 1, lift at 1, getcol.
    destruct (has_column "Asta Cipta" d); [|discriminate B].
    unfold mret, Py_ret, mbind at 1, Py_bind at 1, lift.
    destruct (str_contains query) as [e'|found]; [discriminate B|].
    unfold mret, Py_ret, getitem, mbind, Py_bind, deref, alloc.
    eexists _, _; reflexivity.
  - destruct (daerah_col g) as [[col|]|]; try (eexists _, _; reflexivity).
    destruct (daerah_selected g) as [sel|]; [|eexists _, _; reflexivity].
    destruct (PyStr.truthy col && negb (sel =? "All")%string); [|eexists _, _; reflexivity].
    fold (has_column col d) in B.
    unfold mbind at 1, Py_bind at 1, lift at 1, getcol.
    destruct (has_column col d); [|discriminate B].
    unfold mret, Py_ret, getitem, mbind, Py_bind, deref, alloc.
    eexists _, _; reflexivity.
Qed.

(** A block that raises leaves the state as it found it. *)
Lemma run_dimension_raise_world g a dim l w e w' :
  run_dimension g a dim l w = (inl e, w') -> w' = w.
Proof.
  unfold run_dimension.
  unfold mbind at 1, Py_bind at 1, deref at 1. simpl.
  set (d := default empty_frame (heap w !! l)).
  destruct dim; intros R;
    repeat match type of R with
           | context [if ?b then _ else _] => destruct b
           | context [match search_astacipta g with _ => _ end] =>
               destruct (search_astacipta g)
           | context [match daerah_col g with _ => _ end] =>
               destruct (daerah_col g) as [[?|]|]
           | context [match daerah_selected g with _ => _ end] =>
               destruct (daerah_selected g)
           end;
    unfold getitem, mbind, Py_bind, deref, alloc, lift, raise, mret, Py_ret, getcol in R;
    repeat match type of R with
           | context [if ?b then _ else _] => destruct b
           | context [match series_map ?f ?s with _ => _ end] => destruct (series_map f s)
           | context [match str_contains ?q with _ => _ end] => destruct (str_contains q)
           end;
    simpl in R; congruence.
Qed.

(** ** The blocks in sequence *)

Lemma passing_cons g a dim order d :
  passing g a order
          (mkFrame (columns d) (List.filter (passes g a (columns d) dim) (rows d)))
  = passing g a (dim :: order) d.
Proof.
  unfold passing. simpl. rewrite filter_twice. reflexivity.
Qed.

Lemma passing_nil g a d : passing g a [] d = d.
Proof. unfold passing. simpl. rewrite filter_all. apply frame_eta. Qed.

Lemma run_dimensions_returns g a order : forall l w d l' w',
  heap w !! l = Some d ->
  run_dimensions g a order l w = (inr l', w') ->
  heap w' !! l' = Some (passing g a order d) /\ extends w w' /\ (l <= l')%nat.
Proof.
  induction order as [|dim order IH]; intros l w d l' w' H R.
  - injection R as <- <-. rewrite passing_nil.
    split; [exact H | split; [apply extends_refl | lia]].
  - simpl in R. unfold mbind, Py_bind in R.
    destruct (run_dimension g a dim l w) as [[e|l1] w1] eqn:R1; [discriminate R|].
    destruct (run_dimension_returns _ _ _ _ _ _ _ _ H R1) as (H1 & E1 & L1).
    destruct (IH _ _ _ _ _ H1 R) as (H2 & E2 & L2).
    rewrite passing_cons in H2.
    split; [exact H2 | split; [eapply extends_trans; eassumption | lia]].
Qed.

Lemma run_dimensions_raise_world g a order : forall l w d e w',
  heap w !! l = Some d ->
  run_dimensions g a order l w = (inl e, w') -> extends w w'.
Proof.
  induction order as [|dim order IH]; intros l w d e w' H R; [discriminate R|].
  simpl in R. unfold mbind, Py_bind in R.
  destruct (run_dimension g a dim l w) as [[e1|l1] w1] eqn:R1.
  - injection R as <- <-. apply run_dimension_raise_world in R1. subst. apply extends_refl.
  - destruct (run_dimension_returns _ _ _ _ _ _ _ _ H R1) as (H1 & E1 & _).
    eapply extends_trans; [exact E1 | eapply IH; eassumption].
Qed.

Lemma numeric_column_filter c cols (p : Row -> bool) d :
  numeric_column c d -> numeric_column c (mkFrame cols (List.filter p (rows d))).
Proof.
  unfold numeric_column. simpl. rewrite !List.Forall_forall.
  intros N r Hr. apply filter_In in Hr. apply N, Hr.
Qed.

Lemma run_dimensions_view g a order : forall l w d,
  heap w !! l = Some d ->
  numeric_column "Kematangan" d ->
  view (run_dimensions g a order l w)
  = if blocked g (columns d) order then None else Some (passing g a order d).
Proof.
  induction order as [|dim order IH]; intros l w d H N.
  - simpl. rewrite passing_nil. exact H.
  - simpl. unfold mbind, Py_bind.
    destruct (raises g (columns d) dim) as [e|] eqn:B.
    + rewrite (run_dimension_blocked _ a _ _ _ _ _ H B). reflexivity.
    + destruct (run_dimension_total g a dim l w d H N B) as (l1 & w1 & R1).
      rewrite R1.
      destruct (run_dimension_returns _ _ _ _ _ _ _ _ H R1) as (H1 & _).
      rewrite (IH _ _ _ H1 (numeric_column_filter _ _ _ _ N)). simpl.
      rewrite passing_cons. reflexivity.
Qed.

Lemma apply_filters_in_view order g a w df d :
  heap w !! df = Some d ->
  numeric_column "Kematangan" d ->
  view (apply_filters_in order g df a w)
  = if blocked g (columns d) order then None else Some (passing g a order d).
Proof.
  intros H N. unfold apply_filters_in, copy, mbind, Py_bind, deref, alloc.
  rewrite H. simpl.
  apply (run_dimensions_view g a order (length (heap w))
           (mkWorld (heap w ++ [d]) (shown w)) d (lookup_alloc (heap w) d) N).
Qed.


Lemma apply_filters_in_returns order g a w df d l' w' :
  heap w !! df = Some d ->
  apply_filters_in order g df a w = (inr l', w') ->
  heap w' !! l' = Some (passing g a order d) /\ extends w w' /\ (df < l')%nat.
Proof.
  intros H R. unfold apply_filters_in, copy, mbind, Py_bind, deref, alloc in R.
  rewrite H in R. simpl in R.
  destruct (run_dimensions_returns g a order (length (heap w))
              (mkWorld (heap w ++ [d]) (shown w)) d _ _
              (lookup_alloc (heap w) d) R)
    as (H' & E & L).
  split; [exact H'|]. split.
  - eapply extends_trans; [apply (extends_alloc w d) | exact E].
  - apply lookup_lt_Some in H. lia.
Qed.

Lemma apply_filters_in_raise_world order g a w df d e w' :
  heap w !! df = Some d ->
  apply_filters_in order g df a w = (inl e, w') -> extends w w'.
Proof.
  intros H R. unfold apply_filters_in, copy, mbind, Py_bind, deref, alloc in R.
  rewrite H in R. simpl in R.
  eapply extends_trans; [apply (extends_alloc w d)|].
  apply (run_dimensions_raise_world g a order (length (heap w))
           (mkWorld (heap w ++ [d]) (shown w)) d e w'
           (lookup_alloc (heap w) d) R).
Qed.

Lemma view_returns (r : (exn + loc) * world) (d' : DataFrame) :
  view r = Some d' -> exists l' w', r = (inr l', w') /\ heap w' !! l' = Some d'.
Proof.
  destruct r as [[e|l'] w']; simpl; [discriminate|]. eauto.
Qed.

Lemma passing_permutation g a o1 o2 d :
  Permutation o1 o2 -> passing g a o1 d = passing g a o2 d.
Proof.
  intros P. unfold passing. f_equal. apply filter_ext.
  intros r. apply forallb_permutation, P.
Qed.

Lemma blocked_permutation g cols o1 o2 :
  Permutation o1 o2 -> blocked g cols o1 = blocked g cols o2.
Proof. apply existsb_permutation. Qed.

Lemma rows_passing g a order d :
  rows (passing g a order d)
  = List.filter (fun r => forallb (fun dim => passes g a (columns d) dim r) order)
                (rows d).
Proof. reflexivity. Qed.

Lemma passing_all_dimensions g a d r :
  In r (rows (passing g a source_order d))
  <-> In r (rows d) /\ forall dim, passes g a (columns d) dim r = true.
Proof.
  rewrite rows_passing, filter_In, forallb_forall.
  split; intros [Hr Hp]; (split; [exact Hr|]).
  - intros dim. apply Hp. destruct dim; simpl; tauto.
  - intros dim _. apply Hp.
Qed.

Lemma maturity_ge_spec (t : Z) (c : cell) :
  maturity_ge t c = true <-> exists q, c = Num q /\ (inject_Z t <= q)%Q.
Proof.
  destruct c; simpl; split; try discriminate;
    try (intros (q' & E & _); discriminate E).
  - intros H. exists q. split; [reflexivity | apply Qle_bool_iff, H].
  - intros (q' & E & H). injection E as ->. apply Qle_bool_iff, H.
Qed.

(** ** The filter engine *)

(** C1. The active filters compose by logical AND and the order in which
    the dimensions are evaluated does not change the view: running the
    blocks of [apply_filters] in any two orders that are permutations of
    each other gives the same frame (or no frame in both); the view of
    [apply_filters] is the frame of the rows that pass every dimension;
    and with minimum maturity 50 and kind ["Digital"] the two orders of
    these two dimensions give the same rows, those that pass both. *)
Theorem apply_filters_order_independent g a w df d :
  heap w !! df = Some d ->
  numeric_column "Kematangan" d ->
  (forall o1 o2, Permutation o1 o2 ->
     view (apply_filters_in o1 g df a w) = view (apply_filters_in o2 g df a w))
  /\ view (apply_filters g df a w)
     = (if blocked g (columns d) source_order then None
        else Some (passing g a source_order d))
  /\ (forall r, In r (rows (passing g a source_order d))
                <-> In r (rows d) /\ forall dim, passes g a (columns d) dim r = true)
  /\ (min_kematangan a = 50%Z -> jenis_selected a = ["Digital"] ->
      exists d',
        view (apply_filters_in [Kematangan; Jenis] g df a w) = Some d'
        /\ view (apply_filters_in [Jenis; Kematangan] g df a w) = Some d'
        /\ columns d' = columns d
        /\ forall r, In r (rows d') <->
             In r (rows d)
             /\ (has_column "Kematangan" d = true ->
                 exists q, get "Kematangan" r = Num q /\ (50 <= q)%Q)
             /\ (has_column "Jenis" d = true -> get "Jenis" r = Str "Digital")).
Proof.
  intros H N. split; [|split; [|split]].
  - intros o1 o2 P. rewrite !(apply_filters_in_view _ _ _ _ _ _ H N).
    rewrite (blocked_permutation _ _ _ _ P), (passing_permutation _ _ _ _ _ P).
    reflexivity.
  - apply (apply_filters_in_view _ _ _ _ _ _ H N).
  - intros r. apply passing_all_dimensions.
  - intros Hmin Hjenis.
    exists (passing g a [Kematangan; Jenis] d).
    rewrite !(apply_filters_in_view _ _ _ _ _ _ H N).
    split; [reflexivity|]. split.
    { rewrite (passing_permutation g a [Jenis; Kematangan] [Kematangan; Jenis]);
        [reflexivity | apply perm_swap]. }
    split; [reflexivity|].
    intros r. rewrite rows_passing, filter_In. simpl.
    unfold has_column, has. rewrite Hmin, Hjenis. simpl.
    rewrite !andb_true_r, andb_true_iff.
    split; intros (Hr & HK & HJ); (split; [exact Hr|]).
    + split.
      * intros E. rewrite E in HK. apply maturity_ge_spec in HK. exact HK.
      * intros E. rewrite E in HJ.
        destruct (get "Jenis" r); simpl in HJ; try discriminate HJ.
        rewrite orb_false_r in HJ. apply String.eqb_eq in HJ. congruence.
    + split.
      * destruct (PyStr.mem "Kematangan" (columns d)); [|reflexivity].
        apply maturity_ge_spec, HK. reflexivity.
      * destruct (PyStr.mem "Jenis" (columns d)); [|reflexivity].
        rewrite (HJ eq_refl). reflexivity.
Qed.

(** C7. The view has at most as many rows as the collection, each of
    its records is a record of the collection (the rows of the view are a
    sublist of the collection's), and filtering mutates nothing: every
    object that existed before the call, the collection among them, is
    unchanged after it, whether the call returns or raises, and the view
    is a new object.  On a numeric maturity column with every column the
    active dimensions read present, the call does return. *)
Theorem apply_filters_selects_rows g a w df d :
  heap w !! df = Some d ->
  let result := apply_filters g df a w in
  extends w (snd result)
  /\ heap (snd result) !! df = Some d
  /\ (forall l', fst result = inr l' ->
        l' <> df
        /\ exists d', heap (snd result) !! l' = Some d'
                      /\ columns d' = columns d
                      /\ sublist (rows d') (rows d)
                      /\ (length (rows d') <= length (rows d))%nat
                      /\ (forall r, In r (rows d') -> In r (rows d)))
  /\ (numeric_column "Kematangan" d ->
      blocked g (columns d) source_order = false ->
      exists l', fst result = inr l').
Proof.
  intros H result. destruct result as [res w'] eqn:R. unfold result in R.
  cbn [fst snd].
  assert (E : extends w w').
  { destruct res as [e|l'].
    - eapply apply_filters_in_raise_world; eassumption.
    - eapply apply_filters_in_returns; eassumption. }
  split; [exact E|]. split; [eapply extends_lookup; eassumption|]. split.
  - intros l' ->.
    destruct (apply_filters_in_returns _ _ _ _ _ _ _ _ H R) as (H' & _ & L).
    split; [lia|]. exists (passing g a source_order d).
    split; [exact H'|]. split; [reflexivity|].
    assert (S : sublist (rows (passing g a source_order d)) (rows d))
      by apply filter_sublist.
    split; [exact S|]. split; [apply sublist_length, S|].
    intros r Hr. apply filter_In in Hr. apply Hr.
  - intros N B.
    pose proof (apply_filters_in_view source_order g a w df d H N) as V.
    fold (apply_filters g df a w) in V. rewrite R, B in V.
    destruct res as [e|l']; [discriminate V | eauto].
Qed.

(** C2. On a collection with the maturity column, the minimum-maturity
    block keeps exactly the rows whose maturity is a number [>=] the
    threshold, in their order; so does [apply_filters] when no other
    dimension has a selection (each includes "All" or is empty or unset);
    and once a threshold above the default 0 is set, no row with a null
    maturity is kept. *)
Theorem maturity_filter_exact g a w df d :
  heap w !! df = Some d ->
  has_column "Kematangan" d = true ->
  numeric_column "Kematangan" d ->
  let kept := List.filter (fun r => maturity_ge (min_kematangan a) (get "Kematangan" r))
                          (rows d) in
  (exists l' w', run_dimension g a Kematangan df w = (inr l', w')
                 /\ heap w' !! l' = Some (mkFrame (columns d) kept))
  /\ (selected (jenis_selected a) = false ->
      selected (opd_selected a) = false ->
      selected (selection (kategori_selected a)) = false ->
      selected (selection (urusan_selected a)) = false ->
      view (apply_filters globals_at_call df a w) = Some (mkFrame (columns d) kept))
  /\ (forall r, In r kept <->
        In r (rows d)
        /\ exists q, get "Kematangan" r = Num q /\ (inject_Z (min_kematangan a) <= q)%Q)
  /\ ((0 < min_kematangan a)%Z ->
      forall r, In r (rows d) -> isna (get "Kematangan" r) = true -> ~ In r kept).
Proof.
  intros H C N kept. split; [|split; [|split]].
  - destruct (run_dimension_total g a Kematangan df w d H N eq_refl) as (l' & w' & R).
    exists l', w'. split; [exact R|].
    destruct (run_dimension_returns _ _ _ _ _ _ _ _ H R) as (H' & _).
    rewrite H'. unfold passes, has. fold (has_column "Kematangan" d). rewrite C.
    reflexivity.
  - intros J O K U.
    rewrite (apply_filters_in_view source_order _ _ _ _ _ H N). simpl.
    unfold passing. f_equal. f_equal. apply filter_ext. intros r. simpl.
    unfold has. fold (has_column "Kematangan" d). rewrite C, J, O, K, U. simpl.
    rewrite !andb_false_r. simpl. rewrite andb_true_r. reflexivity.
  - intros r. unfold kept. rewrite filter_In, maturity_ge_spec. reflexivity.
  - intros _ r _ Hna Hr. apply filter_In in Hr. destruct Hr as [_ Hr].
    destruct (get "Kematangan" r); simpl in *; discriminate.
Qed.

(** C10. Whenever the maturity column is present, [apply_filters] applies
    [maturity >= threshold] whatever the threshold, the default 0
    included: every row of the view has a numeric maturity [>=] the
    threshold, so a row with a null maturity is never in the view; and at
    the script's call, on a numeric maturity column, a view is returned. *)
Theorem null_maturity_never_in_view g a w df d :
  heap w !! df = Some d ->
  has_column "Kematangan" d = true ->
  (forall d', view (apply_filters g df a w) = Some d' ->
     forall r, In r (rows d') ->
       isna (get "Kematangan" r) = false
       /\ exists q, get "Kematangan" r = Num q
                    /\ (inject_Z (min_kematangan a) <= q)%Q)
  /\ (numeric_column "Kematangan" d ->
      exists d', view (apply_filters globals_at_call df a w) = Some d'
                 /\ forall r, In r (rows d) -> isna (get "Kematangan" r) = true ->
                              ~ In r (rows d')).
Proof.
  intros H C.
  assert (K : forall r, In r (rows (passing g a source_order d)) ->
                isna (get "Kematangan" r) = false
                /\ exists q, get "Kematangan" r = Num q
                             /\ (inject_Z (min_kematangan a) <= q)%Q).
  { intros r Hr. apply passing_all_dimensions in Hr. destruct Hr as [_ Hp].
    specialize (Hp Kematangan). unfold passes, has in Hp.
    fold (has_column "Kematangan" d) in Hp. rewrite C in Hp.
    apply maturity_ge_spec in Hp. destruct Hp as (q & E & Hq).
    split; [rewrite E; reflexivity | eauto]. }
  split.
  - intros d' V r Hr.
    destruct (view_returns _ _ V) as (l' & w' & R & H').
    destruct (apply_filters_in_returns _ _ _ _ _ _ _ _ H R) as (H'' & _).
    rewrite H' in H''. injection H'' as ->. apply K, Hr.
  - intros N. exists (passing globals_at_call a source_order d). split.
    + unfold apply_filters.
      rewrite (apply_filters_in_view source_order _ _ _ _ _ H N). reflexivity.
    + intros r _ Hna Hr.
      apply passing_all_dimensions in Hr. destruct Hr as [_ Hp].
      specialize (Hp Kematangan). unfold passes, has in Hp.
      fold (has_column "Kematangan" d) in Hp. rewrite C in Hp.
      destruct (get "Kematangan" r); simpl in *; discriminate.
Qed.


(** ** Text *)

Lemma startswith_spec (p s : string) :
  PyStr.startswith p s = true <-> exists after, s = p +:+ after.
Proof.
  revert s; induction p as [|a p IH]; intros s; simpl.
  - split; [intros _; exists s; reflexivity | reflexivity].
  - destruct s as [|b s]; simpl.
    + split; [discriminate | intros [after E]; discriminate E].
    + rewrite andb_true_iff, Ascii.eqb_eq, IH. split.
      * intros [-> [after ->]]. exists after. reflexivity.
      * intros [after E]. injection E as -> ->. eauto.
Qed.

Lemma contains_spec (p s : string) :
  PyStr.contains p s = true <-> substring p s.
Proof.
  unfold substring. induction s as [|c s IH]; simpl.
  - rewrite orb_false_r, startswith_spec. split.
    + intros [after E]. exists EmptyString, after. exact E.
    + intros ([|? ?] & after & E); [eauto | discriminate E].
  - rewrite orb_true_iff, startswith_spec, IH. split.
    + intros [[after E] | (before & after & E)].
      * exists EmptyString, after. exact E.
      * exists (String c before), after. simpl. rewrite E. reflexivity.
    + intros ([|c' before] & after & E).
      * left. exists after. exact E.
      * right. simpl in E. injection E as -> ->. eauto.
Qed.

Lemma lower_app (s t : string) :
  PyStr.lower (s +:+ t) = PyStr.lower s +:+ PyStr.lower t.
Proof. induction s as [|a s IH]; simpl; [reflexivity | rewrite IH; reflexivity]. Qed.

Lemma contains_cons_false (p : string) (c : ascii) (s : string) :
  PyStr.contains p (String c s) = false -> PyStr.contains p s = false.
Proof. simpl. intros H. apply orb_false_iff in H. apply H. Qed.

Lemma before_first_free (sep : ascii) (s : string) :
  free_of sep s -> PyStr.before_first sep s = s.
Proof.
  unfold free_of, PyStr.before_first. induction s as [|c s IH]; [reflexivity|].
  intros F. simpl. destruct (Ascii.eqb c sep) eqn:E.
  - simpl in F. rewrite Ascii.eqb_sym, E in F. discriminate F.
  - apply contains_cons_false in F. specialize (IH F).
    destruct (PyStr.split_once sep s). simpl in *. rewrite IH. reflexivity.
Qed.

Lemma before_first_app (sep : ascii) (s t : string) :
  free_of sep s -> PyStr.before_first sep (s +:+ String sep t) = s.
Proof.
  unfold free_of, PyStr.before_first. induction s as [|c s IH]; intros F; simpl.
  - rewrite Ascii.eqb_refl. reflexivity.
  - destruct (Ascii.eqb c sep) eqn:E.
    + simpl in F. rewrite Ascii.eqb_sym, E in F. discriminate F.
    + apply contains_cons_false in F. specialize (IH F).
      destruct (PyStr.split_once sep (s +:+ String sep t)). simpl in *.
      rewrite IH. reflexivity.
Qed.

Lemma school_keyword_found (text : string) :
  existsb (fun x => PyStr.contains x text) SCHOOL_KEYWORDS = true
  <-> exists k, In k SCHOOL_KEYWORDS /\ substring k text.
Proof.
  rewrite existsb_exists. split; intros (k & Hk & H); exists k;
    (split; [exact Hk | apply contains_spec, H]).
Qed.

(** ** The organisation grouping *)

(** C3 (amended). For every value of the administering-organisation
    field the group is: "Lainnya" when the value is null; "Dinas
    Pendidikan" when the lower-cased text contains one of "sma", "smk",
    "slb"; otherwise "Admin IGA 2025" when it contains the sentinel
    "iga2025.provinsi.jawa.timur"; otherwise the text before its first
    ".", trimmed and title-cased.  So any text containing
    "SMKN 1 Surabaya" is grouped as "Dinas Pendidikan" and
    "dinas.kesehatan.jatim" as "Dinas". *)
Theorem categorize_admin_cases (admin : cell) :
  (isna admin = true -> categorize_admin admin = "Lainnya")
  /\ (isna admin = false ->
      let text := astype_str admin in
      ((exists k, In k ["sma"; "smk"; "slb"] /\ substring k (PyStr.lower text)) ->
       categorize_admin admin = "Dinas Pendidikan")
      /\ ((forall k, In k ["sma"; "smk"; "slb"] -> ~ substring k (PyStr.lower text)) ->
          (substring "iga2025.provinsi.jawa.timur" (PyStr.lower text) ->
           categorize_admin admin = "Admin IGA 2025")
          /\ (~ substring "iga2025.provinsi.jawa.timur" (PyStr.lower text) ->
              categorize_admin admin
              = PyStr.title (PyStr.strip (PyStr.before_first "." text))
              /\ (free_of "." text ->
                  categorize_admin admin = PyStr.title (PyStr.strip text))
              /\ (forall head rest, free_of "." head -> text = head +:+ String "." rest ->
                  categorize_admin admin = PyStr.title (PyStr.strip head)))))
  /\ (forall before after,
        categorize_admin (Str (before +:+ "SMKN 1 Surabaya" +:+ after))
        = "Dinas Pendidikan")
  /\ categorize_admin (Str "dinas.kesehatan.jatim") = "Dinas".
Proof.
  split; [|split; [|split]].
  - intros N. unfold categorize_admin. rewrite N. reflexivity.
  - intros N text. unfold categorize_admin. rewrite N. fold text. split.
    + intros K. apply school_keyword_found in K. rewrite K. reflexivity.
    + intros K.
      assert (E : existsb (fun x => PyStr.contains x (PyStr.lower text)) SCHOOL_KEYWORDS
                  = false).
      { destruct (existsb _ SCHOOL_KEYWORDS) eqn:E; [|reflexivity].
        apply school_keyword_found in E. destruct E as (k & Hk & Hs).
        destruct (K k Hk Hs). }
      rewrite E. split.
      * intros S. apply contains_spec in S. unfold IGA_SENTINEL. rewrite S. reflexivity.
      * intros S.
        assert (F : PyStr.contains IGA_SENTINEL (PyStr.lower text) = false).
        { destruct (PyStr.contains IGA_SENTINEL _) eqn:F; [|reflexivity].
          apply contains_spec in F. destruct (S F). }
        rewrite F. split; [reflexivity|]. split.
        -- intros Hf. rewrite (before_first_free _ _ Hf). reflexivity.
        -- intros head rest Hf ->. rewrite (before_first_app _ _ _ Hf). reflexivity.
  - intros before after. unfold categorize_admin. simpl isna. cbv iota.
    assert (K : existsb (fun x => PyStr.contains x
                   (PyStr.lower (astype_str (Str (before +:+ "SMKN 1 Surabaya" +:+ after)))))
                        SCHOOL_KEYWORDS = true).
    { apply school_keyword_found. exists "smk". split; [right; left; reflexivity|].
      exists (PyStr.lower before), ("n 1 surabaya" +:+ PyStr.lower after).
      simpl astype_str. rewrite !lower_app. reflexivity. }
    rewrite K. reflexivity.
  - reflexivity.
Qed.


(** ** The nearest region *)

Lemma lookup_map {A B : Type} (f : A -> B) (l : list A) (i : nat) :
  map f l !! i = f <$> l !! i.
Proof.
  revert i; induction l as [|x l IH]; intros [|i]; simpl; try reflexivity. apply IH.
Qed.

(** The scan returns the least value seen; it keeps [best] when nothing
    after it is strictly smaller, and otherwise stops at the first entry
    that attains the least value. *)
Lemma idxmin_from_spec (diff : list Q) : forall (best : nat * Q) (i : nat),
  let r := idxmin_from best i diff in
  (snd r <= snd best)%Q
  /\ (forall d, In d diff -> (snd r <= d)%Q)
  /\ ((r = best)
      \/ (exists k, fst r = (i + k)%nat
                    /\ diff !! k = Some (snd r)
                    /\ (snd r < snd best)%Q
                    /\ forall k' d', (k' < k)%nat -> diff !! k' = Some d' ->
                                     (snd r < d')%Q)).
Proof.
  induction diff as [|d diff IH]; intros best i; simpl.
  - split; [apply Qle_refl|]. split; [intros d []|]. left; reflexivity.
  - set (best' := if Qlt_le_dec d (snd best) then (i, d) else best).
    destruct (IH best' (S i)) as (Hle & Hall & Hcase).
    set (r := idxmin_from best' (S i) diff) in *.
    destruct (Qlt_le_dec d (snd best)) as [Hlt|Hge]; subst best'; simpl in *.
    + split; [lra|]. split.
      { intros d' [<-|Hd]; [exact Hle | apply Hall, Hd]. }
      right. destruct Hcase as [E | (k & Hk & Hv & Hs & Hfirst)].
      * exists 0%nat. rewrite E. simpl. split; [lia|]. split; [reflexivity|].
        split; [exact Hlt|]. intros k' d' Hk'. lia.
      * exists (S k). split; [lia|]. split; [exact Hv|]. split; [lra|].
        intros [|k'] d' Hk' Hd'; simpl in Hd'.
        -- injection Hd' as <-. exact Hs.
        -- apply (Hfirst k' d'); [lia | exact Hd'].
    + split; [exact Hle|]. split.
      { intros d' [<-|Hd]; [lra | apply Hall, Hd]. }
      destruct Hcase as [E | (k & Hk & Hv & Hs & Hfirst)]; [left; exact E|].
      right. exists (S k). split; [lia|]. split; [exact Hv|]. split; [exact Hs|].
      intros [|k'] d' Hk' Hd'; simpl in Hd'.
      -- injection Hd' as <-. lra.
      -- apply (Hfirst k' d'); [lia | exact Hd'].
Qed.

Lemma idxmin_spec (diff : list Q) :
  diff <> [] ->
  exists idx v,
    idxmin diff = inr (idx, v)
    /\ diff !! idx = Some v
    /\ (forall d, In d diff -> (v <= d)%Q)
    /\ (forall k d, (k < idx)%nat -> diff !! k = Some d -> (v < d)%Q).
Proof.
  destruct diff as [|d0 diff]; [congruence|]. intros _. simpl.
  destruct (idxmin_from_spec diff (0%nat, d0) 1) as (Hle & Hall & Hcase).
  destruct (idxmin_from (0%nat, d0) 1 diff) as [idx v] eqn:E. simpl in *.
  exists idx, v. split; [reflexivity|].
  destruct Hcase as [Eb | (k & Hk & Hv & Hs & Hfirst)].
  - injection Eb as -> ->. split; [reflexivity|]. split.
    + intros d [<-|Hd]; [apply Qle_refl | apply Hall, Hd].
    + intros k d Hk. lia.
  - subst idx. split; [exact Hv|]. split.
    + intros d [<-|Hd]; [exact Hle | apply Hall, Hd].
    + intros [|k'] d Hk' Hd; simpl in Hd.
      * injection Hd as <-. exact Hs.
      * apply (Hfirst k' d); [lia | exact Hd].
Qed.

Lemma manhattan_nonneg (lat lon : Q) (e : ref_row) : (0 <= manhattan lat lon e)%Q.
Proof.
  unfold manhattan.
  pose proof (Qabs_nonneg (ref_lat e - lat)). pose proof (Qabs_nonneg (ref_lon e - lon)).
  lra.
Qed.

Lemma manhattan_zero (lat lon : Q) (e : ref_row) :
  (manhattan lat lon e <= 0)%Q <-> (ref_lat e == lat)%Q /\ (ref_lon e == lon)%Q.
Proof.
  unfold manhattan. split.
  - intros H. revert H.
    apply (Qabs_case (ref_lat e - lat)); apply (Qabs_case (ref_lon e - lon));
      intros; split; lra.
  - intros [E1 E2].
    apply (Qabs_case (ref_lat e - lat)); apply (Qabs_case (ref_lon e - lon));
      intros; lra.
Qed.

(** Order reasoning with the distances taken as unknowns. *)
Ltac distances :=
  repeat match goal with
         | H : context [manhattan ?a ?b ?c] |- _ =>
             let m := fresh "m" in
             set (m := manhattan a b c) in *; clearbody m
         end;
  try exfalso; lra.

(** The entry [get_nearest_area] settles on. *)
Lemma get_nearest_area_entry (lat lon : Q) (df_ref : list ref_row) (threshold : Q) :
  df_ref <> [] ->
  exists idx e,
    df_ref !! idx = Some e
    /\ (forall e', In e' df_ref -> (manhattan lat lon e <= manhattan lat lon e')%Q)
    /\ (forall k e', (k < idx)%nat -> df_ref !! k = Some e' ->
                     (manhattan lat lon e < manhattan lat lon e')%Q)
    /\ get_nearest_area lat lon df_ref threshold
       = inr (if Qlt_le_dec (manhattan lat lon e) threshold
              then kabupaten e else UNIDENTIFIED).
Proof.
  intros NE.
  destruct (idxmin_spec (map (manhattan lat lon) df_ref)) as (idx & v & E & Hv & Hall & Hfirst).
  { destruct df_ref; [congruence | discriminate]. }
  rewrite lookup_map in Hv.
  destruct (df_ref !! idx) as [e|] eqn:He; [|discriminate Hv].
  simpl in Hv. injection Hv as <-.
  exists idx, e. split; [exact He|]. split; [|split].
  - intros e' He'. apply Hall, in_map, He'.
  - intros k e' Hk He'. apply (Hfirst k _ Hk). rewrite lookup_map, He'. reflexivity.
  - unfold get_nearest_area. rewrite E, He. simpl.
    destruct (Qlt_le_dec (manhattan lat lon e) threshold); reflexivity.
Qed.

(** C4. For a non-empty gazetteer, the region of a point is the name of
    the entry that minimises the Manhattan distance [|dlat| + |dlon|],
    the first such entry in gazetteer order, when that minimum is below
    0.01, and the "unidentified" sentinel otherwise; a point whose
    coordinates are those of an entry resolves to the name of the first
    entry at these coordinates; a point at distance 0.01 or more from
    every entry resolves to the sentinel. *)
Theorem get_nearest_area_nearest (lat lon : Q) (df_ref : list ref_row) :
  df_ref <> [] ->
  (exists idx e,
      df_ref !! idx = Some e
      /\ (forall e', In e' df_ref -> (manhattan lat lon e <= manhattan lat lon e')%Q)
      /\ (forall k e', (k < idx)%nat -> df_ref !! k = Some e' ->
                       (manhattan lat lon e < manhattan lat lon e')%Q)
      /\ ((manhattan lat lon e < 1 # 100)%Q ->
          get_nearest_area lat lon df_ref default_threshold = inr (kabupaten e))
      /\ (~ (manhattan lat lon e < 1 # 100)%Q ->
          get_nearest_area lat lon df_ref default_threshold = inr UNIDENTIFIED))
  /\ (forall idx e,
        df_ref !! idx = Some e ->
        (ref_lat e == lat)%Q -> (ref_lon e == lon)%Q ->
        (forall k e', (k < idx)%nat -> df_ref !! k = Some e' ->
                      ~ ((ref_lat e' == lat)%Q /\ (ref_lon e' == lon)%Q)) ->
        get_nearest_area lat lon df_ref default_threshold = inr (kabupaten e))
  /\ ((forall e, In e df_ref -> (1 # 100 <= manhattan lat lon e)%Q) ->
      get_nearest_area lat lon df_ref default_threshold = inr UNIDENTIFIED).
Proof.
  intros NE.
  destruct (get_nearest_area_entry lat lon df_ref default_threshold NE)
    as (idx & e & He & Hmin & Hfirst & R).
  unfold default_threshold in *.
  split; [|split].
  - exists idx, e. repeat (split; [assumption|]). split; intros H; rewrite R;
      destruct (Qlt_le_dec (manhattan lat lon e) (1 # 100));
      try reflexivity; try contradiction; clear R; distances.
  - intros i x Hx Elat Elon Hno.
    assert (Zx : (manhattan lat lon x <= 0)%Q) by (apply manhattan_zero; auto).
    assert (Ze : (manhattan lat lon e <= 0)%Q).
    { eapply Qle_trans; [apply Hmin | exact Zx].
      apply list_elem_of_In, list_elem_of_lookup. eauto. }
    assert (idx = i) as ->.
    { destruct (Nat.lt_trichotomy idx i) as [L|[E|L]]; [|exact E|].
      - destruct (Hno idx e L He). apply manhattan_zero, Ze.
      - pose proof (Hfirst i x L Hx) as Hlt.
        pose proof (manhattan_nonneg lat lon e) as Hpos.
        clear R Hmin Hfirst Hno. distances. }
    rewrite Hx in He. injection He as ->. rewrite R.
    destruct (Qlt_le_dec (manhattan lat lon e) (1 # 100));
      [reflexivity | clear R Hmin Hfirst Hno; distances].
  - intros Hfar. rewrite R.
    assert (1 # 100 <= manhattan lat lon e)%Q.
    { apply Hfar, list_elem_of_In, list_elem_of_lookup. eauto. }
    destruct (Qlt_le_dec (manhattan lat lon e) (1 # 100));
      [clear R Hmin Hfirst Hfar; distances | reflexivity].
Qed.


(** ** Rows and columns *)

Lemma get_set_eq (c : string) (v : cell) (r : Row) : get c (set c v r) = v.
Proof. unfold get, set. simpl. rewrite lookup_insert_eq. reflexivity. Qed.

Lemma get_set_ne (c c' : string) (v : cell) (r : Row) :
  c' <> c -> get c (set c' v r) = get c r.
Proof. intros H. unfold get, set. simpl. rewrite lookup_insert_ne by exact H. reflexivity. Qed.

Lemma mem_app_singleton (c c' : string) (cols : list string) :
  PyStr.mem c (cols ++ [c']) = PyStr.mem c cols || String.eqb c c'.
Proof.
  unfold PyStr.mem. rewrite existsb_app. simpl. rewrite orb_false_r. reflexivity.
Qed.

Lemma has_column_assign_ne (c c' : string) (f : Row -> cell) (d : DataFrame) :
  c <> c' -> has_column c (assign c' f d) = has_column c d.
Proof.
  intros H. unfold assign, has_column at 1. simpl.
  destruct (has_column c' d); [reflexivity|].
  rewrite mem_app_singleton. apply String.eqb_neq in H. rewrite H.
  apply orb_false_r.
Qed.

Lemma has_column_assign_eq (c : string) (f : Row -> cell) (d : DataFrame) :
  has_column c (assign c f d) = true.
Proof.
  unfold assign, has_column at 1. simpl.
  destruct (has_column c d) eqn:E; [exact E|].
  rewrite mem_app_singleton, String.eqb_refl. apply orb_true_r.
Qed.

Lemma has_column_coerce (c c' : string) (f : cell -> cell) (d : DataFrame) :
  has_column c (coerce_column c' f d) = has_column c d.
Proof.
  unfold coerce_column. destruct (has_column c' d) eqn:E; [|reflexivity].
  unfold assign, has_column at 1. simpl. rewrite E. reflexivity.
Qed.

Lemma rows_assign (c : string) (f : Row -> cell) (d : DataFrame) :
  rows (assign c f d) = map (fun r => set c (f r) r) (rows d).
Proof. reflexivity. Qed.

Lemma drop_duplicates_from_in (cs : list string) (l kept : list Row) (r : Row) :
  In r (drop_duplicates_from cs kept l) -> In r kept \/ In r l.
Proof.
  revert kept; induction l as [|x l IH]; intros kept; simpl.
  - intros H. left. apply in_rev. exact H.
  - destruct (existsb (row_eqb cs x) kept); intros H; apply IH in H.
    + tauto.
    + destruct H as [[<-|H]|H]; auto.
Qed.

Lemma rows_coerce_column (c : string) (f : cell -> cell) (d : DataFrame) :
  rows (coerce_column c f d)
  = map (fun r => if has_column c d then set c (f (get c r)) r else r) (rows d).
Proof.
  unfold coerce_column. destruct (has_column c d); [reflexivity|].
  symmetry. apply map_id.
Qed.

(** ** Loading *)

(** C8. If the spreadsheet cannot be parsed ([read] is an exception) or
    is empty, [load_data] writes one notice to the page (an error with
    the exception text, or the "empty data" warning) and returns an empty
    frame without raising; the script then shows, after its tips, the
    "no data" warning and the upload hint and stops: nothing is raised. *)
Theorem load_failure_is_not_fatal (chosen : filter_args) (w : world) :
  (forall e : string,
      load_data (inl e) w
      = (inr empty_frame, mkWorld (heap w) (shown w ++ [StError (LoadFailed e)]))
      /\ script (inl e) chosen w
         = (inr Stopped,
            mkWorld (heap w ++ [empty_frame])
                    (shown w ++ [StError (LoadFailed e)]
                             ++ [StInfo Tips]
                             ++ [StWarning DataUnavailable] ++ [StInfo UploadHint])))
  /\ (forall sh : Sheet,
        sheet_empty sh = true ->
        load_data (inr sh) w
        = (inr empty_frame, mkWorld (heap w) (shown w ++ [StWarning EmptyData]))
        /\ script (inr sh) chosen w
           = (inr Stopped,
              mkWorld (heap w ++ [empty_frame])
                      (shown w ++ [StWarning EmptyData]
                               ++ [StInfo Tips]
                               ++ [StWarning DataUnavailable] ++ [StInfo UploadHint]))).
Proof.
  split.
  - intros e. split; [reflexivity|].
    unfold script, load_data, mbind, Py_bind, st, mret, Py_ret, alloc. simpl.
    rewrite <- !app_assoc. reflexivity.
  - intros sh E. split.
    + unfold load_data. rewrite E. reflexivity.
    + unfold script, load_data. rewrite E.
      unfold mbind, Py_bind, st, mret, Py_ret, alloc. simpl.
      rewrite <- !app_assoc. reflexivity.
Qed.

(** ** Coordinates *)

Lemma coords_width_cases (df : DataFrame) :
  coords_width df = 0%nat /\ rows df = []
  \/ coords_width df = 1%nat
     /\ rows df <> [] /\ Forall (fun r => snd (coords_of r) = None) (rows df)
  \/ coords_width df = 2%nat
     /\ Exists (fun r => is_Some (snd (coords_of r))) (rows df).
Proof.
  unfold coords_width. destruct (rows df) as [|r0 l] eqn:E; [left; auto|].
  right.
  destruct (existsb _ (r0 :: l)) eqn:X.
  - right. split; [reflexivity|]. apply List.Exists_exists.
    apply existsb_exists in X. destruct X as (r & Hr & Hs).
    exists r. split; [exact Hr | apply bool_decide_eq_true in Hs; exact Hs].
  - left. split; [reflexivity|]. split; [discriminate|].
    apply List.Forall_forall. intros r Hr.
    destruct (snd (coords_of r)) as [s|] eqn:S; [|reflexivity].
    assert (existsb (fun r => bool_decide (is_Some (snd (coords_of r)))) (r0 :: l) = true)
      as X'.
    { apply existsb_exists. exists r. split; [exact Hr|].
      apply bool_decide_eq_true. rewrite S. eauto. }
    rewrite X' in X. discriminate X.
Qed.

(** When no "Koordinat" text has a comma, the expanded split has no
    column 1 and reading it raises. *)
Lemma split_coordinates_without_comma (df : DataFrame) :
  rows df <> [] ->
  Forall (fun r => snd (coords_of r) = None) (rows df) ->
  split_coordinates df = inl (KeyError "1").
Proof.
  intros NE F. unfold split_coordinates.
  destruct (coords_width_cases df) as [[_ E] | [[-> _] | [_ X]]].
  - contradiction.
  - reflexivity.
  - apply List.Exists_exists in X. destruct X as (r & Hr & Hs).
    rewrite List.Forall_forall in F. rewrite (F r Hr) in Hs.
    destruct Hs as [? Hs]. discriminate Hs.
Qed.

(** When some "Koordinat" text has a comma, every row gets the number
    read from the text before its first comma as "lat" and the number
    read from the text after it as "lon" (missing when the row has no
    comma). *)
Lemma split_coordinates_with_comma (df : DataFrame) :
  Exists (fun r => is_Some (snd (coords_of r))) (rows df) ->
  exists df',
    split_coordinates df = inr df'
    /\ Forall2 (fun r r' =>
                  label r' = label r
                  /\ get "lat" r' = to_numeric (Str (fst (coords_of r)))
                  /\ get "lon" r' = match snd (coords_of r) with
                                    | Some s => to_numeric (Str s)
                                    | None => NaN
                                    end)
               (rows df) (rows df').
Proof.
  intros X. unfold split_coordinates.
  destruct (coords_width_cases df) as [[_ E] | [[_ [_ F]] | [-> _]]].
  - rewrite E in X. inversion X.
  - apply List.Exists_exists in X. destruct X as (r & Hr & Hs).
    rewrite List.Forall_forall in F. rewrite (F r Hr) in Hs.
    destruct Hs as [? Hs]. discriminate Hs.
  - simpl. eexists. split; [reflexivity|].
    rewrite !rows_assign, map_map. clear X.
    induction (rows df) as [|r l IH]; simpl; [constructor|].
    constructor; [|exact IH].
    split; [reflexivity|].
    assert (K : forall v, coords_of (set "lat" v r) = coords_of r).
    { intros v. unfold coords_of. rewrite get_set_ne by discriminate. reflexivity. }
    split.
    + rewrite get_set_ne by discriminate. apply get_set_eq.
    + rewrite get_set_eq, K. destruct (snd (coords_of r)); reflexivity.
Qed.

Lemma drop_duplicates_from_kept (cs : list string) (l kept : list Row) (r : Row) :
  In r kept -> In r (drop_duplicates_from cs kept l).
Proof.
  revert kept; induction l as [|x l IH]; intros kept H; simpl.
  - apply in_rev in H. exact H.
  - destruct (existsb (row_eqb cs x) kept); apply IH; [exact H | right; exact H].
Qed.

Lemma comma_free_drop_duplicates (d : DataFrame) :
  comma_free d -> comma_free (drop_duplicates d).
Proof.
  intros (NE & C & F). split; [|split; [exact C|]].
  - unfold drop_duplicates. simpl. destruct (rows d) as [|r l]; [congruence|].
    simpl. intros E.
    pose proof (drop_duplicates_from_kept (columns d) l [r] r (or_introl eq_refl)) as H.
    rewrite E in H. destruct H.
  - unfold drop_duplicates. simpl. rewrite List.Forall_forall in *.
    intros r Hr. apply drop_duplicates_from_in in Hr. destruct Hr as [[]|Hr].
    apply F, Hr.
Qed.

Lemma comma_free_coerce (c : string) (f : cell -> cell) (d : DataFrame) :
  c <> "Koordinat" -> comma_free d -> comma_free (coerce_column c f d).
Proof.
  intros H (NE & C & F). split; [|split].
  - rewrite rows_coerce_column. destruct (rows d); [congruence | discriminate].
  - rewrite has_column_coerce. exact C.
  - rewrite rows_coerce_column. apply List.Forall_forall. intros r' Hr'.
    apply in_map_iff in Hr'. destruct Hr' as (r & <- & Hr).
    rewrite List.Forall_forall in F. specialize (F r Hr).
    destruct (has_column c d); [|exact F].
    unfold coords_of in *. rewrite get_set_ne by exact H. exact F.
Qed.

(** C5, at the failing inputs. Every sheet with rows whose "Koordinat"
    cells have no comma (blank cells, or texts without one) makes
    [load_data] raise [KeyError] instead of giving a null longitude: the
    expanded split has no column 1, and the read of it is outside the
    [try] block. *)
Theorem load_data_raises_without_comma (sh : Sheet) (w : world) :
  sheet_empty sh = false ->
  comma_free (frame_of_sheet (map PyStr.strip (header sh)) sh) ->
  fst (load_data (inr sh) w) = inl (KeyError "1").
Proof.
  intros NE CF. unfold load_data. rewrite NE.
  apply comma_free_drop_duplicates in CF.
  apply (comma_free_coerce "Kematangan" to_numeric) in CF; [|discriminate].
  revert CF. generalize (coerce_column "Kematangan" to_numeric
                           (drop_duplicates
                              (frame_of_sheet (map PyStr.strip (header sh)) sh))).
  intros d1 CF. unfold date_cols. cbn [fold_left].
  apply (comma_free_coerce "Tanggal Input" (to_datetime true)) in CF; [|discriminate].
  apply (comma_free_coerce "Tanggal Penerapan" (to_datetime true)) in CF; [|discriminate].
  apply (comma_free_coerce "Tanggal Pengembangan" (to_datetime true)) in CF; [|discriminate].
  revert CF. generalize (coerce_column "Tanggal Pengembangan" (to_datetime true)
                           (coerce_column "Tanggal Penerapan" (to_datetime true)
                              (coerce_column "Tanggal Input" (to_datetime true) d1))).
  intros d2 (NE2 & C2 & F2).
  unfold mbind, Py_bind, st. rewrite C2.
  rewrite (split_coordinates_without_comma d2 NE2 F2). reflexivity.
Qed.

(** ** The Gantt ranges *)

Lemma Forall2_map_self {A B : Type} (R : A -> B -> Prop) (G : A -> B) (l : list A) :
  (forall x, In x l -> R x (G x)) -> Forall2 R l (map G l).
Proof.
  induction l as [|x l IH]; intros H; simpl; constructor.
  - apply H. left. reflexivity.
  - apply IH. intros y Hy. apply H. right. exact Hy.
Qed.

Lemma to_datetime_shape (dayfirst : bool) (c : cell) :
  to_datetime dayfirst c = NaT \/ exists t, to_datetime dayfirst c = Date t.
Proof.
  destruct c; simpl; eauto; destruct (datetime_of dayfirst _); simpl; eauto.
Qed.

Ltac get_set :=
  repeat (rewrite get_set_eq || rewrite get_set_ne by discriminate).

(** Start and End of every row of [gantt_df]. *)
Lemma gantt_df_rows (d : DataFrame) :
  Forall2 (fun r r' =>
             label r' = label r
             /\ get "Start" r' = parsed_input r
             /\ get "End" r' = parsed_end d r
             /\ get "Judul Inovasi" r' = get "Judul Inovasi" r)
          (rows d) (rows (gantt_df d)).
Proof.
  unfold gantt_df.
  set (g0 := coerce_column "Kematangan" to_numeric d).
  set (g1 := assign "End" _ (assign "Start" _ g0)).
  assert (F1 : has_column "Tanggal Penerapan" g1 = has_column "Tanggal Penerapan" d).
  { unfold g1, g0. rewrite !has_column_assign_ne by discriminate.
    apply has_column_coerce. }
  assert (F2 : forall f, has_column "Tanggal Pengembangan" (assign "End" f g1)
                         = has_column "Tanggal Pengembangan" d).
  { intros f. unfold g1, g0. rewrite !has_column_assign_ne by discriminate.
    apply has_column_coerce. }
  assert (F3 : has_column "Tanggal Pengembangan" g1
               = has_column "Tanggal Pengembangan" d).
  { unfold g1, g0. rewrite !has_column_assign_ne by discriminate.
    apply has_column_coerce. }
  unfold parsed_end, parsed_application, parsed_development, parsed_input.
  rewrite F1.
  destruct (has_column "Tanggal Penerapan" d); [rewrite F2 | rewrite F3];
    destruct (has_column "Tanggal Pengembangan" d);
    unfold g1, g0; rewrite !rows_assign, rows_coerce_column, !map_map;
    apply Forall2_map_self; intros r _;
    (split; [destruct (has_column "Kematangan" d); reflexivity|]);
    assert (K : forall c, c <> "Kematangan" ->
                get c (if has_column "Kematangan" d
                       then set "Kematangan" (to_numeric (get "Kematangan" r)) r
                       else r) = get c r)
      by (intros c Hc; destruct (has_column "Kematangan" d);
          [apply get_set_ne; congruence | reflexivity]);
    get_set; rewrite !K by discriminate;
    destruct (to_datetime_shape false (get "Tanggal Input" r)) as [-> | [s ->]];
    try destruct (to_datetime_shape false (get "Tanggal Penerapan" r)) as [-> | [a ->]];
    try destruct (to_datetime_shape false (get "Tanggal Pengembangan" r)) as [-> | [b ->]];
    simpl; auto.
Qed.


Lemma insert_by_permutation (key : Row -> Z) (r : Row) (l : list Row) :
  Permutation (insert_by key r l) (r :: l).
Proof.
  induction l as [|x l IH]; simpl; [reflexivity|].
  destruct (key r <=? key x)%Z; [reflexivity|].
  rewrite IH. apply perm_swap.
Qed.

Lemma sort_by_permutation (key : Row -> Z) (l : list Row) :
  Permutation (sort_by key l) l.
Proof.
  induction l as [|r l IH]; simpl; [reflexivity|].
  rewrite insert_by_permutation, IH. reflexivity.
Qed.

Lemma insert_by_sorted (key : Row -> Z) (r : Row) (l : list Row) :
  StronglySorted (fun a b => (key a <= key b)%Z) l ->
  StronglySorted (fun a b => (key a <= key b)%Z) (insert_by key r l).
Proof.
  induction 1 as [|x l S IH F]; simpl.
  - constructor; constructor.
  - destruct (key r <=? key x)%Z eqn:E.
    + apply Z.leb_le in E. constructor; [constructor; assumption|].
      constructor; [exact E|].
      eapply Forall_impl; [exact F|]. simpl. intros y Hy. lia.
    + apply Z.leb_gt in E. constructor; [exact IH|].
      apply List.Forall_forall. intros y Hy.
      apply (Permutation_in _ (insert_by_permutation key r l)) in Hy.
      destruct Hy as [<-|Hy]; [lia|].
      rewrite List.Forall_forall in F. apply F, Hy.
Qed.

Lemma sort_by_sorted (key : Row -> Z) (l : list Row) :
  StronglySorted (fun a b => (key a <= key b)%Z) (sort_by key l).
Proof.
  induction l as [|r l IH]; simpl; [constructor | apply insert_by_sorted, IH].
Qed.

Lemma Forall2_filter {A B : Type} (R : A -> B -> Prop) (p : A -> bool) (q : B -> bool)
    (l : list A) (l' : list B) :
  Forall2 R l l' ->
  (forall x y, R x y -> p x = q y) ->
  Forall2 (fun x y => R x y /\ p x = true) (List.filter p l) (List.filter q l').
Proof.
  intros F H. induction F as [|x y l l' Hxy F IH]; simpl; [constructor|].
  rewrite <- (H x y Hxy). destruct (p x) eqn:E; [constructor; auto | exact IH].
Qed.

Lemma Forall2_labels (R : Row -> Row -> Prop) (l l' : list Row) :
  Forall2 R l l' ->
  (forall x y, R x y -> label y = label x) ->
  map label l' = map label l.
Proof.
  intros F H. induction F as [|x y l l' Hxy F IH]; simpl; [reflexivity|].
  rewrite (H x y Hxy), IH. reflexivity.
Qed.

Lemma parsed_end_of_start (d : DataFrame) (r : Row) (s : Z) :
  parsed_input r = Date s -> exists e, parsed_end d r = Date e.
Proof.
  intros E. unfold parsed_end, parsed_application, parsed_development. rewrite E.
  destruct (has_column "Tanggal Penerapan" d);
    destruct (has_column "Tanggal Pengembangan" d);
    try destruct (to_datetime_shape false (get "Tanggal Penerapan" r)) as [-> | [a ->]];
    try destruct (to_datetime_shape false (get "Tanggal Pengembangan" r)) as [-> | [b ->]];
    eauto.
Qed.

(** The rows [dropna] keeps are those with a start. *)
Lemma gantt_dropna (d : DataFrame) :
  Forall2 (fun r r' =>
             label r' = label r
             /\ (exists s e, parsed_input r = Date s
                             /\ get "Start" r' = Date s /\ get "End" r' = Date e
                             /\ parsed_end d r = Date e)
             /\ get "Judul Inovasi" r' = get "Judul Inovasi" r)
          (List.filter (fun r => negb (isna (parsed_input r))) (rows d))
          (rows (dropna ["Start"; "End"] (gantt_df d))).
Proof.
  unfold dropna.
  change (rows (mkFrame ?c ?l)) with l.
  eapply Forall2_impl.
  - apply (Forall2_filter
             (fun r r' => label r' = label r
                          /\ get "Start" r' = parsed_input r
                          /\ get "End" r' = parsed_end d r
                          /\ get "Judul Inovasi" r' = get "Judul Inovasi" r)
             (fun r => negb (isna (parsed_input r)))
             (fun r => forallb (fun c => negb (isna (get c r))) ["Start"; "End"]));
      [apply gantt_df_rows|].
    intros r r' (_ & S & E & _). simpl. rewrite S, E, andb_true_r.
    destruct (to_datetime_shape false (get "Tanggal Input" r)) as [N | [s N]];
      unfold parsed_input in *; rewrite N; [reflexivity|].
    destruct (parsed_end_of_start d r s N) as [e ->]. reflexivity.
  - intros r r' [(L & S & E & J) P]. simpl in P.
    split; [exact L|]. split; [|exact J].
    destruct (to_datetime_shape false (get "Tanggal Input" r)) as [N | [s N]];
      unfold parsed_input in *; rewrite N in *; [discriminate P|].
    destruct (parsed_end_of_start d r s N) as [e He].
    exists s, e. rewrite S, E, He. auto.
Qed.


Lemma Forall2_in_r {A B : Type} (R : A -> B -> Prop) (l : list A) (l' : list B) (y : B) :
  Forall2 R l l' -> In y l' -> exists x, In x l /\ R x y.
Proof.
  induction 1 as [|x y' l l' Hxy F IH]; simpl; [intros []|].
  intros [<-|Hy]; [eauto|]. destruct (IH Hy) as (x' & Hx' & Hr). eauto.
Qed.

Lemma has_column_gantt_df (c : string) (d : DataFrame) :
  c <> "Start" -> c <> "End" -> has_column c (gantt_df d) = has_column c d.
Proof.
  intros S E. unfold gantt_df.
  repeat match goal with
         | |- context [if ?b then _ else _] => destruct b
         end;
    rewrite !has_column_assign_ne by assumption; apply has_column_coerce.
Qed.

Lemma has_end_gantt_df (d : DataFrame) : has_column "End" (gantt_df d) = true.
Proof. unfold gantt_df. apply has_column_assign_eq. Qed.

Lemma is_empty_rows (d : DataFrame) (c : string) :
  has_column c d = true -> is_empty d = true -> rows d = [].
Proof.
  unfold has_column, is_empty. destruct (columns d); [discriminate|].
  intros _. destruct (rows d); [reflexivity | discriminate].
Qed.

Lemma to_datetime_typed (dayfirst : bool) (c : cell) :
  timestamp_cell c -> to_datetime dayfirst c = c.
Proof. intros [-> | [t ->]]; reflexivity. Qed.

(** On typed date columns the block parses nothing: its dates are the
    cells. *)
Lemma parsed_typed (d : DataFrame) (r : Row) :
  dates_typed d -> In r (rows d) ->
  has_column "Tanggal Input" d = true ->
  parsed_input r = input_date r
  /\ parsed_application d r = application_date d r
  /\ parsed_development d r = development_date d r
  /\ parsed_end d r = resolved_end d r.
Proof.
  intros T Hr TI.
  assert (K : forall c, In c date_cols -> has_column c d = true ->
                        to_datetime false (get c r) = get c r).
  { intros c Hc H. apply to_datetime_typed.
    pose proof (T c Hc H) as F. rewrite List.Forall_forall in F. apply F, Hr. }
  assert (I : parsed_input r = input_date r).
  { apply K; [left; reflexivity | exact TI]. }
  assert (A : parsed_application d r = application_date d r).
  { unfold parsed_application, application_date.
    destruct (has_column "Tanggal Penerapan" d) eqn:H; [|reflexivity].
    apply K; [right; left; reflexivity | exact H]. }
  assert (D : parsed_development d r = development_date d r).
  { unfold parsed_development, development_date.
    destruct (has_column "Tanggal Pengembangan" d) eqn:H; [|reflexivity].
    apply K; [right; right; left; reflexivity | exact H]. }
  split; [exact I|]. split; [exact A|]. split; [exact D|].
  unfold parsed_end, resolved_end. rewrite I, A, D. reflexivity.
Qed.

Lemma Forall2_impl_in {A B : Type} (R R' : A -> B -> Prop) (l : list A) (l' : list B) :
  Forall2 R l l' -> (forall x y, In x l -> R x y -> R' x y) -> Forall2 R' l l'.
Proof.
  induction 1 as [|x y l l' Hxy F IH]; intros H; constructor.
  - apply H; [left; reflexivity | exact Hxy].
  - apply IH. intros x' y' Hx'. apply H. right. exact Hx'.
Qed.

Lemma strongly_sorted_refine {A : Type} (R R' : A -> A -> Prop) (P : A -> Prop)
    (l : list A) :
  (forall a b, P a -> P b -> R a b -> R' a b) ->
  Forall P l -> StronglySorted R l -> StronglySorted R' l.
Proof.
  intros H F S. induction S as [|x l S IH Hx]; [constructor|].
  inversion F as [|? ? Px Fl]; subst. constructor; [apply IH, Fl|].
  rewrite List.Forall_forall in *. intros y Hy.
  apply H; [exact Px | apply Fl, Hy | apply Hx, Hy].
Qed.

(** C6. On a view whose date columns are typed (timestamps or [NaT], as
    the loader leaves them) every record gets start = its input date and
    an end resolved by the fallback chain: the application date, else
    the development date, else (both null, start not null) the start
    plus 30 days; a record entered on 2024-01-10 with no application and
    no development date ends on 2024-02-09.  The timeline holds exactly
    the records with a start: each of its rows is a record of the view,
    with that record's input date as start, its resolved end as end and
    its title as task; the rows are in ascending order of start; and the
    timeline is built whenever the view has a title and a maturity
    column. *)
Theorem gantt_ranges (d : DataFrame) :
  has_column "Tanggal Input" d = true ->
  dates_typed d ->
  Forall2 (fun r r' =>
             label r' = label r
             /\ get "Start" r' = get "Tanggal Input" r
             /\ get "End" r' = resolved_end d r)
          (rows d) (rows (gantt_df d))
  /\ (forall r,
        (forall a, application_date d r = Date a -> resolved_end d r = Date a)
        /\ (forall b, application_date d r = NaT -> development_date d r = Date b ->
                      resolved_end d r = Date b)
        /\ (forall s, application_date d r = NaT -> development_date d r = NaT ->
                      input_date r = Date s ->
                      resolved_end d r = Date (s + Calendar.timedelta_days 30))
        /\ (application_date d r = NaT -> development_date d r = NaT ->
            input_date r = Date (Calendar.timestamp 2024 1 10) ->
            resolved_end d r = Date (Calendar.timestamp 2024 2 9))
        /\ (application_date d r = NaT -> development_date d r = NaT ->
            input_date r = NaT -> resolved_end d r = NaT))
  /\ (forall plot,
        gantt_plot_df d = Some (inr plot) ->
        (forall r', In r' (rows plot) ->
           exists r s e,
             In r (rows d) /\ label r' = label r
             /\ get "Tanggal Input" r = Date s /\ get "Start" r' = Date s
             /\ resolved_end d r = Date e /\ get "End" r' = Date e
             /\ get "Task" r' = Str (astype_str (get "Judul Inovasi" r)))
        /\ Permutation (map label (rows plot))
                       (map label (List.filter
                                     (fun r => negb (isna (get "Tanggal Input" r)))
                                     (rows d)))
        /\ StronglySorted
             (fun a b => exists s s',
                           get "Start" a = Date s /\ get "Start" b = Date s'
                           /\ (s <= s')%Z)
             (rows plot))
  /\ (has_column "Judul Inovasi" d = true -> has_column "Kematangan" d = true ->
      exists plot, gantt_plot_df d = Some (inr plot)).
Proof.
  intros TI T. split; [|split; [|split]].
  - eapply Forall2_impl_in; [apply gantt_df_rows|].
    intros r r' Hr (L & S & E & _).
    destruct (parsed_typed d r T Hr TI) as (I & _ & _ & RE).
    rewrite S, E, I, RE. auto.
  - intros r. unfold resolved_end.
    split; [intros a ->; reflexivity|].
    split; [intros b -> ->; reflexivity|].
    split; [intros s -> -> ->; reflexivity|].
    split; [intros -> -> ->; reflexivity | intros -> -> ->; reflexivity].
  - intros plot P. unfold gantt_plot_df in P. rewrite TI in P.
    pose proof (gantt_dropna d) as F.
    assert (HE : has_column "End" (dropna ["Start"; "End"] (gantt_df d)) = true)
      by apply has_end_gantt_df.
    assert (FE : List.filter (fun r => negb (isna (parsed_input r))) (rows d)
                 = List.filter (fun r => negb (isna (get "Tanggal Input" r))) (rows d)).
    { apply filter_ext_in. intros r Hr.
      destruct (parsed_typed d r T Hr TI) as (I & _). rewrite I. reflexivity. }
    assert (Rec : forall r0' (plot0 := dropna ["Start"; "End"] (gantt_df d)),
              In r0' (rows plot0) ->
              exists r s e,
                In r (rows d) /\ label r0' = label r
                /\ get "Tanggal Input" r = Date s /\ get "Start" r0' = Date s
                /\ resolved_end d r = Date e /\ get "End" r0' = Date e
                /\ get "Judul Inovasi" r0' = get "Judul Inovasi" r).
    { intros r0' plot0 Hr0'.
      destruct (Forall2_in_r _ _ _ _ F Hr0')
        as (r & Hr & L & (s & e & I & S & E & RE) & J).
      apply filter_In in Hr. destruct Hr as (Hr & _).
      destruct (parsed_typed d r T Hr TI) as (I' & _ & _ & RE').
      exists r, s, e. rewrite <- RE', RE.
      unfold input_date in I'. rewrite <- I', I. auto 10. }
    rewrite FE in F. clear FE.
    revert P F HE Rec. generalize (dropna ["Start"; "End"] (gantt_df d)).
    intros plot0 P F HE Rec. cbv zeta in Rec.
    destruct (is_empty plot0) eqn:EM.
    + injection P as <-. rewrite (is_empty_rows _ _ HE EM) in *.
      inversion F as [E1 E2|]. split; [intros r' []|]. split; [reflexivity|constructor].
    + unfold getcol in P. destruct (has_column "Judul Inovasi" plot0); [|discriminate P].
      destruct (has_column "Kematangan" _); [|discriminate P].
      injection P as <-. cbn [rows assign].
      set (task := fun r => set "Task" (Str (astype_str (get "Judul Inovasi" r))) r).
      pose proof (sort_by_permutation (fun r => timestamp_of (get "Start" r))
                                      (map task (rows plot0))) as SP.
      assert (Rows : forall r', In r' (sort_by (fun r => timestamp_of (get "Start" r))
                                              (map task (rows plot0))) ->
                exists r s e,
                  In r (rows d) /\ label r' = label r
                  /\ get "Tanggal Input" r = Date s /\ get "Start" r' = Date s
                  /\ resolved_end d r = Date e /\ get "End" r' = Date e
                  /\ get "Task" r' = Str (astype_str (get "Judul Inovasi" r))).
      { intros y Hy. apply (Permutation_in _ SP) in Hy. apply in_map_iff in Hy.
        destruct Hy as (r0' & <- & Hr0').
        destruct (Rec r0' Hr0') as (r & s & e & Hr & L & I & S & RE & E & J).
        exists r, s, e. unfold task.
        rewrite get_set_eq, !get_set_ne by discriminate. rewrite J. auto 10. }
      split; [|split].
      * intros r' Hr'. destruct (Rows r' Hr') as (r & s & e & H1 & H2 & H3 & H4 & H5 & H6 & H7).
        exists r, s, e. auto 10.
      * rewrite (Permutation_map label SP), map_map.
        rewrite (List.map_ext (fun x => label (task x)) label) by reflexivity.
        erewrite (Forall2_labels _ _ _ F); [reflexivity|].
        intros x y (L & _). exact L.
      * apply (strongly_sorted_refine
                 (fun a b => (timestamp_of (get "Start" a) <= timestamp_of (get "Start" b))%Z)
                 _ (fun a => exists s, get "Start" a = Date s)).
        -- intros a b (s & Sa) (s' & Sb) Le. exists s, s'.
           rewrite Sa, Sb in Le. auto.
        -- apply List.Forall_forall. intros r' Hr'.
           destruct (Rows r' Hr') as (_ & s & _ & _ & _ & _ & S & _). eauto.
        -- apply sort_by_sorted.
  - intros J K. unfold gantt_plot_df. rewrite TI.
    destruct (is_empty _); [eauto|].
    unfold getcol.
    assert (HJ : has_column "Judul Inovasi" (dropna ["Start"; "End"] (gantt_df d)) = true).
    { change (has_column "Judul Inovasi" (gantt_df d) = true).
      rewrite has_column_gantt_df by discriminate. exact J. }
    rewrite HJ.
    assert (HK : has_column "Kematangan"
                   (mkFrame
                      (columns (assign "Task"
                                  (fun r => Str (astype_str (get "Judul Inovasi" r)))
                                  (dropna ["Start"; "End"] (gantt_df d))))
                      (sort_by (fun r => timestamp_of (get "Start" r))
                         (rows (assign "Task"
                                  (fun r => Str (astype_str (get "Judul Inovasi" r)))
                                  (dropna ["Start"; "End"] (gantt_df d))))))
                 = true).
    { unfold has_column at 1. cbn [columns].
      change (has_column "Kematangan"
                (assign "Task" (fun r => Str (astype_str (get "Judul Inovasi" r)))
                        (dropna ["Start"; "End"] (gantt_df d))) = true).
      rewrite has_column_assign_ne by discriminate.
      change (has_column "Kematangan" (gantt_df d) = true).
      rewrite has_column_gantt_df by discriminate. exact K. }
    cbv zeta. rewrite HK. eauto.
Qed.


(** ** The free-text search *)

(** A missing value is written out as the text "nan" before it is
    searched, so it matches every plain query that occurs in "nan". *)
Lemma search_finds_missing (query : string) :
  plain_pattern query = true ->
  PyStr.contains (PyStr.lower query) "nan" = true ->
  exists found, str_contains query = inr found /\ found (astype_str NaN) = true.
Proof.
  intros P C. unfold str_contains. rewrite P. eexists. split; [reflexivity|]. exact C.
Qed.

Lemma take_mask_in (p : Row -> bool) (l : list Row) (r : Row) :
  In r l -> p r = true -> In r (take_mask (map p l) l).
Proof.
  intros H P. rewrite take_mask_map. apply filter_In. auto.
Qed.

(** C9, at the failing inputs. A row whose searched field is null is
    matched by every plain query that occurs in "nan" ("nan", "na", "an",
    "n", "a"): in [apply_filters] such a row is in the view as soon as it
    passes the other dimensions, and in the map search it stays on the map
    when it has coordinates. *)
Theorem search_keeps_null_rows (query : string) (d : DataFrame) (r : Row) :
  plain_pattern query = true ->
  PyStr.contains (PyStr.lower query) "nan" = true ->
  In r (rows d) ->
  (forall g a w df d',
      heap w !! df = Some d ->
      search_astacipta g = Some query ->
      view (apply_filters g df a w) = Some d' ->
      get "Asta Cipta" r = NaN ->
      (forall dim, dim <> AstaCipta -> passes g a (columns d) dim r = true) ->
      In r (rows d'))
  /\ (forall col,
        PyStr.truthy (PyStr.strip query) = true ->
        has_column "lat" d = true -> has_column "lon" d = true ->
        In col search_cols -> has_column col d = true ->
        isna (get "lat" r) = false -> isna (get "lon" r) = false ->
        get col r = NaN ->
        exists d', map_df_filtered d query None "All" = inr d' /\ In r (rows d')).
Proof.
  intros P C Hr. split.
  - intros g a w df d' H S V N O.
    destruct (view_returns _ _ V) as (l' & w' & R & H').
    destruct (apply_filters_in_returns _ _ _ _ _ _ _ _ H R) as (H'' & _).
    rewrite H' in H''. injection H'' as ->.
    apply passing_all_dimensions. split; [exact Hr|].
    intros dim. destruct dim; try (apply O; discriminate).
    unfold passes. rewrite S. destruct (PyStr.truthy query); [|reflexivity].
    unfold str_contains. rewrite P, N. exact C.
  - intros col T Lat Lon Hcol Hhas NLat NLon N.
    unfold map_df_filtered. rewrite Lat, Lon. simpl andb. cbv iota.
    assert (Hr' : In r (rows (dropna ["lat"; "lon"] d))).
    { unfold dropna. simpl. apply filter_In. split; [exact Hr|].
      rewrite NLat, NLon. reflexivity. }
    assert (E : is_empty (dropna ["lat"; "lon"] d) = false).
    { unfold is_empty. change (columns (dropna ["lat"; "lon"] d)) with (columns d).
      unfold has_column in Lat. destruct (columns d); [discriminate Lat|].
      destruct (rows (dropna ["lat"; "lon"] d)); [destruct Hr' | reflexivity]. }
    rewrite E, T.
    assert (Hc : In col (List.filter (fun col => has_column col (dropna ["lat"; "lon"] d))
                                     search_cols)).
    { apply filter_In. split; [exact Hcol | exact Hhas]. }
    destruct (List.filter _ search_cols) as [|c0 cols] eqn:EC; [destruct Hc|].
    unfold str_contains. rewrite P.
    eexists. split; [reflexivity|].
    unfold getitem_mask. simpl rows. apply take_mask_in; [exact Hr'|].
    refine (proj2 (existsb_exists
                     (fun col => PyStr.contains (PyStr.lower query)
                                                (PyStr.lower (astype_str (get col r))))
                     (c0 :: cols)) _).
    exists col. split; [exact Hc|]. rewrite N. exact C.
Qed.

(** ** What the loader guarantees the filter engine *)

Lemma numeric_cell_to_numeric (c : cell) : numeric_cell (to_numeric c).
Proof. destruct c; simpl; try exact I; destruct (numeric_of _); exact I. Qed.

Lemma numeric_column_assign_ne (c c' : string) (f : Row -> cell) (d : DataFrame) :
  c' <> c -> numeric_column c d -> numeric_column c (assign c' f d).
Proof.
  intros H N. unfold numeric_column in *. rewrite rows_assign.
  apply List.Forall_forall. intros r' Hr'. apply in_map_iff in Hr'.
  destruct Hr' as (r & <- & Hr). rewrite get_set_ne by exact H.
  rewrite List.Forall_forall in N. apply N, Hr.
Qed.

Lemma numeric_column_coerce_ne (c c' : string) (f : cell -> cell) (d : DataFrame) :
  c' <> c -> numeric_column c d -> numeric_column c (coerce_column c' f d).
Proof.
  intros H N. unfold coerce_column. destruct (has_column c' d); [|exact N].
  apply numeric_column_assign_ne; assumption.
Qed.

Lemma numeric_column_coerced (d : DataFrame) :
  (has_column "Kematangan" d = false -> numeric_column "Kematangan" d) ->
  numeric_column "Kematangan" (coerce_column "Kematangan" to_numeric d).
Proof.
  intros N. unfold coerce_column. destruct (has_column "Kematangan" d); [|auto].
  unfold numeric_column. rewrite rows_assign.
  apply List.Forall_forall. intros r' Hr'. apply in_map_iff in Hr'.
  destruct Hr' as (r & <- & Hr). rewrite get_set_eq. apply numeric_cell_to_numeric.
Qed.

Lemma mem_false_not_in (c : string) (l : list string) :
  PyStr.mem c l = false -> ~ In c l.
Proof.
  unfold PyStr.mem. intros H Hc.
  assert (existsb (String.eqb c) l = true) as E.
  { apply existsb_exists. exists c. split; [exact Hc | apply String.eqb_refl]. }
  rewrite E in H. discriminate H.
Qed.

Lemma zip_keys (names : list string) (cs : list cell) (c : string) :
  In c (map fst (zip names cs)) -> In c names.
Proof.
  revert cs; induction names as [|n names IH]; intros [|x cs]; simpl; try tauto.
  intros [<-|H]; [left; reflexivity | right; eapply IH, H].
Qed.

(** A column the sheet does not have reads as missing in every row. *)
Lemma frame_of_sheet_absent (names : list string) (sh : Sheet) (c : string) :
  has_column c (frame_of_sheet names sh) = false ->
  Forall (fun r => get c r = NaN) (rows (frame_of_sheet names sh)).
Proof.
  unfold has_column. simpl. intros H. apply mem_false_not_in in H.
  apply List.Forall_forall. intros r Hr.
  apply list_elem_of_In, elem_of_lookup_imap in Hr.
  destruct Hr as (i & cs & -> & _). unfold get. simpl.
  rewrite not_elem_of_list_to_map_1; [reflexivity|].
  intros Hc. apply H. apply (zip_keys names cs). apply list_elem_of_In.
  exact Hc.
Qed.

Lemma numeric_column_drop_duplicates (c : string) (d : DataFrame) :
  numeric_column c d -> numeric_column c (drop_duplicates d).
Proof.
  unfold numeric_column, drop_duplicates. simpl. rewrite !List.Forall_forall.
  intros N r Hr. apply drop_duplicates_from_in in Hr.
  destruct Hr as [[]|Hr]. apply N, Hr.
Qed.

Lemma has_column_drop_duplicates (c : string) (d : DataFrame) :
  has_column c (drop_duplicates d) = has_column c d.
Proof. reflexivity. Qed.

(** Whatever [load_data] returns has a float "Kematangan" column, which
    is what the maturity comparison of [apply_filters] needs. *)
Lemma load_data_numeric_maturity (read : string + Sheet) (w w' : world) (df : DataFrame) :
  load_data read w = (inr df, w') -> numeric_column "Kematangan" df.
Proof.
  unfold load_data. destruct read as [e|sh].
  { intros H. injection H as <- _. constructor. }
  destruct (sheet_empty sh).
  { intros H. injection H as <- _. constructor. }
  set (d0 := drop_duplicates (frame_of_sheet (map PyStr.strip (header sh)) sh)).
  assert (N0 : numeric_column "Kematangan" (coerce_column "Kematangan" to_numeric d0)).
  { apply numeric_column_coerced. unfold d0. rewrite has_column_drop_duplicates.
    intros A. apply numeric_column_drop_duplicates.
    eapply Forall_impl; [apply (frame_of_sheet_absent _ _ _ A)|].
    simpl. intros r ->. exact I. }
  revert N0. generalize (coerce_column "Kematangan" to_numeric d0). intros d1 N1.
  unfold date_cols, cat_cols. cbn [fold_left].
  set (d2 := coerce_column "Tanggal Pengembangan" _ _).
  assert (N2 : numeric_column "Kematangan" d2)
    by (unfold d2; repeat apply numeric_column_coerce_ne; try discriminate; exact N1).
  clearbody d2.
  unfold mbind, Py_bind, st, mret, Py_ret.
  assert (N3 : forall d3 w3 w4,
             (if has_column "Koordinat" d2 then lift (split_coordinates d2)
              else mret (coerce_column "lon" to_numeric
                           (coerce_column "lat" to_numeric d2))) w3 = (inr d3, w4)
             -> numeric_column "Kematangan" d3).
  { intros d3 w3 w4. destruct (has_column "Koordinat" d2).
    - unfold split_coordinates, lift.
      destruct (1 <=? coords_width d2)%nat; [|discriminate].
      destruct (2 <=? coords_width d2)%nat; [|discriminate].
      intros H. injection H as <- _.
      repeat apply numeric_column_assign_ne; try discriminate. exact N2.
    - intros H. injection H as <- _.
      repeat apply numeric_column_coerce_ne; try discriminate. exact N2. }
  match goal with
  | |- context [(if has_column "Koordinat" d2 then ?x else ?y) ?w3] =>
      destruct ((if has_column "Koordinat" d2 then x else y) w3) as [[e|d3] w3'] eqn:E
  end; [discriminate|].
  intros H. apply (f_equal fst) in H. cbn [fst] in H. injection H as <-.
  specialize (N3 _ _ _ E).
  destruct (has_column "Admin OPD" _);
    [apply numeric_column_assign_ne; [discriminate|]|];
    repeat apply numeric_column_coerce_ne; try discriminate; exact N3.
Qed.


(** ** Letter case *)

Ltac by_cases_on_char a :=
  destruct a as [[] [] [] [] [] [] [] []]; reflexivity.

Lemma lower_char_idem (a : ascii) :
  PyStr.lower_char (PyStr.lower_char a) = PyStr.lower_char a.
Proof. by_cases_on_char a. Qed.

Lemma upper_char_idem (a : ascii) :
  PyStr.upper_char (PyStr.upper_char a) = PyStr.upper_char a.
Proof. by_cases_on_char a. Qed.

Lemma upper_lower_char (a : ascii) :
  PyStr.upper_char (PyStr.lower_char a) = PyStr.upper_char a.
Proof. by_cases_on_char a. Qed.

Lemma lower_upper_char (a : ascii) :
  PyStr.lower_char (PyStr.upper_char a) = PyStr.lower_char a.
Proof. by_cases_on_char a. Qed.

Lemma is_cased_lower_char (a : ascii) :
  PyStr.is_cased (PyStr.lower_char a) = PyStr.is_cased a.
Proof. by_cases_on_char a. Qed.

Lemma is_cased_upper_char (a : ascii) :
  PyStr.is_cased (PyStr.upper_char a) = PyStr.is_cased a.
Proof. by_cases_on_char a. Qed.

Lemma is_space_lower_char (a : ascii) :
  PyStr.is_space (PyStr.lower_char a) = PyStr.is_space a.
Proof. by_cases_on_char a. Qed.

Lemma dot_lower_char (a : ascii) :
  Ascii.eqb (PyStr.lower_char a) "." = Ascii.eqb a ".".
Proof. by_cases_on_char a. Qed.

Lemma upper_lower (s : string) : PyStr.upper (PyStr.lower s) = PyStr.upper s.
Proof.
  induction s as [|a s IH]; simpl; [reflexivity|].
  rewrite upper_lower_char, IH. reflexivity.
Qed.

Lemma title_from_lower (s : string) : forall b,
  PyStr.title_from b (PyStr.lower s) = PyStr.title_from b s.
Proof.
  induction s as [|a s IH]; intros b; simpl; [reflexivity|].
  rewrite lower_char_idem, upper_lower_char, is_cased_lower_char, IH. reflexivity.
Qed.

Lemma title_from_idem (s : string) : forall b,
  PyStr.title_from b (PyStr.title_from b s) = PyStr.title_from b s.
Proof.
  induction s as [|a s IH]; intros b; simpl; [reflexivity|].
  destruct b.
  - rewrite lower_char_idem, is_cased_lower_char, IH. reflexivity.
  - rewrite upper_char_idem, is_cased_upper_char, IH. reflexivity.
Qed.

Lemma title_idem (s : string) : PyStr.title (PyStr.title s) = PyStr.title s.
Proof. apply title_from_idem. Qed.

Lemma lstrip_lower (s : string) :
  PyStr.lstrip (PyStr.lower s) = PyStr.lower (PyStr.lstrip s).
Proof.
  induction s as [|a s IH]; simpl; [reflexivity|].
  rewrite is_space_lower_char. destruct (PyStr.is_space a); [exact IH | reflexivity].
Qed.

Lemma rstrip_lower (s : string) :
  PyStr.rstrip (PyStr.lower s) = PyStr.lower (PyStr.rstrip s).
Proof.
  induction s as [|a s IH]; simpl; [reflexivity|].
  rewrite IH, is_space_lower_char.
  destruct (PyStr.rstrip s); simpl; [destruct (PyStr.is_space a)|]; reflexivity.
Qed.

Lemma strip_lower (s : string) :
  PyStr.strip (PyStr.lower s) = PyStr.lower (PyStr.strip s).
Proof. unfold PyStr.strip. rewrite lstrip_lower. apply rstrip_lower. Qed.

Lemma before_first_dot_lower (s : string) :
  PyStr.before_first "." (PyStr.lower s) = PyStr.lower (PyStr.before_first "." s).
Proof.
  unfold PyStr.before_first. induction s as [|a s IH]; simpl; [reflexivity|].
  rewrite dot_lower_char. destruct (Ascii.eqb a "."); [reflexivity|].
  destruct (PyStr.split_once "." (PyStr.lower s)), (PyStr.split_once "." s).
  simpl in *. rewrite IH. reflexivity.
Qed.

(** The group of a text depends on its lower-cased form only. *)
Lemma categorize_admin_of_lower (s : string) :
  categorize_admin (Str s) = categorize_admin (Str (PyStr.lower s)).
Proof.
  unfold categorize_admin. simpl isna. cbv iota. simpl astype_str.
  assert (L : PyStr.lower (PyStr.lower s) = PyStr.lower s).
  { induction s as [|a s IH]; simpl; [reflexivity|].
    rewrite lower_char_idem, IH. reflexivity. }
  rewrite L, before_first_dot_lower, strip_lower.
  rewrite (title_from_lower _ false : PyStr.title (PyStr.lower _) = _).
  reflexivity.
Qed.

(** X1. On organisation names written in ASCII, the organisation group
    does not depend on letter case: two such names with the same
    lower-cased form get the same group. *)
Theorem categorize_admin_case_insensitive (s t : string) :
  PyStr.is_ascii s = true -> PyStr.is_ascii t = true ->
  PyStr.lower s = PyStr.lower t ->
  categorize_admin (Str s) = categorize_admin (Str t).
Proof.
  intros _ _ E. rewrite (categorize_admin_of_lower s), (categorize_admin_of_lower t), E.
  reflexivity.
Qed.

(** X2. On organisation names written in ASCII, the organisation
    category does not depend on letter case either; a null organisation
    is put in the category "Nan", the title-cased text of the missing
    value. *)
Theorem kategori_mapping_case_insensitive (s t : string) :
  (PyStr.is_ascii s = true -> PyStr.is_ascii t = true ->
   PyStr.lower s = PyStr.lower t ->
   kategori_mapping (Str s) = kategori_mapping (Str t))
  /\ kategori_mapping NaN = "Nan".
Proof.
  split; [|reflexivity].
  intros _ _ E. unfold kategori_mapping. simpl astype_str.
  rewrite <- (upper_lower s), <- (upper_lower t), E.
  rewrite <- (title_from_lower s false : PyStr.title (PyStr.lower s) = PyStr.title s).
  rewrite <- (title_from_lower t false : PyStr.title (PyStr.lower t) = PyStr.title t).
  rewrite E. reflexivity.
Qed.


(** ** The short name *)

Lemma startswith_app (p s : string) : PyStr.startswith p (p +:+ s) = true.
Proof. apply startswith_spec. eauto. Qed.

Lemma drop_app (p s : string) : PyStr.drop (String.length p) (p +:+ s) = s.
Proof. induction p as [|a p IH]; simpl; [destruct s; reflexivity | exact IH]. Qed.

Lemma free_of_cons (sep c : ascii) (s : string) :
  free_of sep (String c s) -> Ascii.eqb c sep = false /\ free_of sep s.
Proof.
  unfold free_of. simpl. intros H. apply orb_false_iff in H. destruct H as [H1 H2].
  split; [|exact H2]. rewrite Ascii.eqb_sym. rewrite andb_true_r in H1. exact H1.
Qed.

Lemma split_once_app (sep : ascii) (s t : string) :
  free_of sep s -> PyStr.split_once sep (s +:+ String sep t) = (s, Some t).
Proof.
  induction s as [|c s IH]; intros F; simpl.
  - rewrite Ascii.eqb_refl. reflexivity.
  - apply free_of_cons in F. destruct F as [E F]. rewrite E, (IH F). reflexivity.
Qed.

Lemma search_bracket_skip (prefix : string) (c : ascii) (s : string) :
  PyStr.startswith prefix (String c s) = false ->
  PyStr.search_bracket prefix (String c s) = PyStr.search_bracket prefix s.
Proof. intros H. simpl. rewrite H. reflexivity. Qed.

(** The search finds the first bracket when no parenthesis comes before
    it. *)
Lemma search_bracket_found (p head inner tail : string) :
  free_of "(" head -> inner <> EmptyString -> free_of ")" inner ->
  PyStr.search_bracket (String "(" p)
                       (head +:+ String "(" p +:+ inner +:+ String ")" tail)
  = Some inner.
Proof.
  intros Fh Ni Fi. induction head as [|c head IH].
  - change (EmptyString +:+ ?x) with x.
    destruct inner as [|a g]; [congruence|].
    remember (String "(" p) as prefix eqn:Ep.
    destruct (prefix +:+ String a g +:+ String ")" tail) as [|c0 s0] eqn:Es.
    { subst prefix. discriminate Es. }
    unfold PyStr.search_bracket; fold PyStr.search_bracket.
    rewrite <- Es, startswith_app, drop_app, (split_once_app _ _ _ Fi). reflexivity.
  - apply free_of_cons in Fh. destruct Fh as [E Fh].
    change (String c head +:+ ?x) with (String c (head +:+ x)).
    rewrite search_bracket_skip; [apply IH, Fh|].
    cbn [PyStr.startswith]. rewrite Ascii.eqb_sym, E. reflexivity.
Qed.

(** X3. On organisation names written in ASCII: the short name of an
    organisation is the text inside its first "(Jatimprov." or
    "(Iga2024." bracket, dots turned into spaces and title-cased, when no
    parenthesis comes before that bracket and the bracket is closed and
    not empty; a name without parenthesis is title-cased as a whole; and
    the short name of such a name is title-cased already. *)
Theorem nama_pendek_bracket (head inner tail : string) :
  PyStr.is_ascii head = true -> PyStr.is_ascii inner = true ->
  PyStr.is_ascii tail = true ->
  free_of "(" head -> inner <> EmptyString -> free_of ")" inner ->
  nama_pendek (Str (head +:+ "(Jatimprov." +:+ inner +:+ String ")" tail))
  = PyStr.title (PyStr.replace_char "." " " inner)
  /\ (PyStr.contains "(Jatimprov."
                     (head +:+ "(Iga2024." +:+ inner +:+ String ")" tail) = false ->
      nama_pendek (Str (head +:+ "(Iga2024." +:+ inner +:+ String ")" tail))
      = PyStr.title (PyStr.replace_char "." " " inner))
  /\ (forall text, PyStr.is_ascii text = true -> free_of "(" text ->
       nama_pendek (Str text) = PyStr.title text)
  /\ (forall x, PyStr.is_ascii (astype_str x) = true ->
       PyStr.title (nama_pendek x) = nama_pendek x).
Proof.
  intros _ _ _ Fh Ni Fi. split; [|split; [|split]].
  - unfold nama_pendek. simpl astype_str.
    assert (C : PyStr.contains "(Jatimprov."
                  (head +:+ "(Jatimprov." +:+ inner +:+ String ")" tail) = true).
    { apply contains_spec. exists head, (inner +:+ String ")" tail). reflexivity. }
    rewrite C.
    rewrite (search_bracket_found "Jatimprov." head inner tail Fh Ni Fi). reflexivity.
  - intros NJ. unfold nama_pendek. simpl astype_str. rewrite NJ.
    assert (C : PyStr.contains "(Iga2024."
                  (head +:+ "(Iga2024." +:+ inner +:+ String ")" tail) = true).
    { apply contains_spec. exists head, (inner +:+ String ")" tail). reflexivity. }
    rewrite C.
    rewrite (search_bracket_found "Iga2024." head inner tail Fh Ni Fi). reflexivity.
  - intros text _ F. unfold nama_pendek. simpl astype_str.
    assert (N : forall p, PyStr.contains (String "(" p) text = false).
    { intros p. destruct (PyStr.contains (String "(" p) text) eqn:E; [|reflexivity].
      apply contains_spec in E. destruct E as (b & a & ->).
      assert (PyStr.contains "(" (b +:+ String "(" p +:+ a) = true) as C.
      { apply contains_spec. exists b, (p +:+ a). reflexivity. }
      unfold free_of in F. rewrite C in F. discriminate F. }
    rewrite !N. reflexivity.
  - intros x _. unfold nama_pendek.
    destruct (if PyStr.contains "(Jatimprov." (astype_str x) then _ else _);
      [|destruct (PyStr.contains "(" (astype_str x))]; apply title_idem.
Qed.


(** ** Duplicate rows *)

Lemma cell_eqb_refl (a : cell) : cell_eqb a a = true.
Proof.
  destruct a; simpl; try reflexivity;
    [apply Qeq_bool_refl | apply String.eqb_refl | apply Z.eqb_refl].
Qed.

Lemma cell_eqb_sym (a b : cell) : cell_eqb a b = cell_eqb b a.
Proof.
  destruct a, b; simpl; try reflexivity;
    [apply Qeq_bool_comm | apply String.eqb_sym | apply Z.eqb_sym].
Qed.

Lemma row_eqb_refl (cs : list string) (r : Row) : row_eqb cs r r = true.
Proof. unfold row_eqb. apply forallb_forall. intros c _. apply cell_eqb_refl. Qed.

Lemma row_eqb_sym (cs : list string) (r1 r2 : Row) : row_eqb cs r1 r2 = row_eqb cs r2 r1.
Proof.
  unfold row_eqb. induction cs as [|c cs IH]; simpl; [reflexivity|].
  rewrite cell_eqb_sym, IH. reflexivity.
Qed.

Lemma existsb_false_in {A : Type} (f : A -> bool) (l : list A) (x : A) :
  existsb f l = false -> In x l -> f x = false.
Proof.
  intros E H. destruct (f x) eqn:F; [|reflexivity].
  assert (existsb f l = true) as T by (apply existsb_exists; eauto).
  rewrite T in E. discriminate E.
Qed.

(** What the scan adds to the rows kept so far. *)
Lemma drop_duplicates_from_spec (cs : list string) (l : list Row) : forall kept,
  exists l',
    drop_duplicates_from cs kept l = rev kept ++ l'
    /\ sublist l' l
    /\ (forall x k, In x l' -> In k kept -> row_eqb cs x k = false)
    /\ ForallOrdPairs (fun a b => row_eqb cs a b = false) l'
    /\ (forall r, In r l -> exists k, In k (kept ++ l') /\ row_eqb cs r k = true).
Proof.
  induction l as [|x l IH]; intros kept; simpl.
  - exists []. rewrite app_nil_r. repeat split; try constructor.
    + intros x k [].
    + intros r [].
  - destruct (existsb (row_eqb cs x) kept) eqn:E.
    + destruct (IH kept) as (l' & R & S & D & P & C).
      exists l'. split; [exact R|]. split; [apply sublist_cons, S|].
      split; [exact D|]. split; [exact P|].
      intros r [<-|Hr]; [|apply C, Hr].
      apply existsb_exists in E. destruct E as (k & Hk & Ek).
      exists k. split; [apply in_or_app; left; exact Hk | exact Ek].
    + destruct (IH (x :: kept)) as (l' & R & S & D & P & C).
      exists (x :: l'). split.
      { rewrite R. simpl. rewrite <- app_assoc. reflexivity. }
      split; [apply sublist_skip, S|]. split; [|split].
      * intros y k [<-|Hy] Hk.
        -- apply (existsb_false_in _ _ _ E Hk).
        -- apply D; [exact Hy | right; exact Hk].
      * constructor; [|exact P].
        apply List.Forall_forall. intros y Hy. rewrite row_eqb_sym.
        apply D; [exact Hy | left; reflexivity].
      * intros r [<-|Hr].
        -- exists x. split; [|apply row_eqb_refl].
           apply in_or_app. right. left. reflexivity.
        -- destruct (C r Hr) as (k & Hk & Ek). exists k. split; [|exact Ek].
           apply in_app_or in Hk. apply in_or_app.
           destruct Hk as [[<-|Hk]|Hk]; [right; left; reflexivity | left; exact Hk
                                         | right; right; exact Hk].
Qed.

(** Rows that differ from each other and from the rows kept are all kept. *)
Lemma drop_duplicates_from_distinct (cs : list string) (l : list Row) : forall kept,
  (forall x k, In x l -> In k kept -> row_eqb cs x k = false) ->
  ForallOrdPairs (fun a b => row_eqb cs a b = false) l ->
  drop_duplicates_from cs kept l = rev kept ++ l.
Proof.
  induction l as [|x l IH]; intros kept D P; simpl;
    [symmetry; apply app_nil_r|].
  inversion P as [|? ? Hx P']; subst.
  assert (E : existsb (row_eqb cs x) kept = false).
  { destruct (existsb (row_eqb cs x) kept) eqn:E; [|reflexivity].
    apply existsb_exists in E. destruct E as (k & Hk & Ek).
    rewrite (D x k (or_introl eq_refl) Hk) in Ek. discriminate Ek. }
  rewrite E, IH; [simpl; rewrite <- app_assoc; reflexivity | | exact P'].
  intros y k Hy [<-|Hk].
  - rewrite row_eqb_sym. rewrite List.Forall_forall in Hx. apply Hx, Hy.
  - apply D; [right; exact Hy | exact Hk].
Qed.

(** X4. [drop_duplicates] keeps a sublist of the rows in which no two rows
    are equal on every column; every row of the input is equal to a row
    that is kept; and dropping duplicates twice changes nothing more. *)
Theorem drop_duplicates_distinct (d : DataFrame) :
  sublist (rows (drop_duplicates d)) (rows d)
  /\ ForallOrdPairs (fun a b => row_eqb (columns d) a b = false)
                    (rows (drop_duplicates d))
  /\ (forall r, In r (rows d) ->
        exists k, In k (rows (drop_duplicates d)) /\ row_eqb (columns d) r k = true)
  /\ drop_duplicates (drop_duplicates d) = drop_duplicates d.
Proof.
  unfold drop_duplicates. simpl.
  destruct (drop_duplicates_from_spec (columns d) (rows d) []) as (l' & R & S & _ & P & C).
  simpl in R. rewrite R. repeat split; try assumption.
  f_equal. apply (drop_duplicates_from_distinct (columns d) l' []); [|exact P].
  intros x k _ [].
Qed.


(** ** The loader, stage by stage *)

Lemma load_data_stages (sh : Sheet) (w : world) :
  sheet_empty sh = false ->
  load_data (inr sh) w
  = match coordinate_step (loaded_before_coordinates sh) with
    | inl e => (inl e, mkWorld (heap w) (shown w ++ [duplicates_notice sh]))
    | inr d3 =>
        (inr (finish_load d3),
         mkWorld (heap w)
                 (shown w ++ [duplicates_notice sh]
                          ++ [StSuccess (Loaded (length (rows (finish_load d3)))
                                                (length (columns (finish_load d3))))]))
    end.
Proof.
  intros NE. unfold load_data. rewrite NE. cbv zeta.
  change (fold_left _ date_cols _) with (loaded_before_coordinates sh).
  change (if (_ =? _)%nat then _ else _) with (duplicates_notice sh).
  unfold coordinate_step, finish_load.
  generalize (loaded_before_coordinates sh) (duplicates_notice sh). intros d2 n.
  unfold mbind, Py_bind, st.
  destruct (has_column "Koordinat" d2).
  - unfold lift. destruct (split_coordinates d2) as [e|d3];
      unfold raise, mret, Py_ret; cbn [heap shown]; [reflexivity|].
    rewrite <- app_assoc. reflexivity.
  - unfold mret, Py_ret. cbn [heap shown]. rewrite <- app_assoc. reflexivity.
Qed.

Lemma height_assign (c : string) (f : Row -> cell) (d : DataFrame) :
  length (rows (assign c f d)) = length (rows d).
Proof. rewrite rows_assign. apply length_map. Qed.

Lemma height_coerce (c : string) (f : cell -> cell) (d : DataFrame) :
  length (rows (coerce_column c f d)) = length (rows d).
Proof. rewrite rows_coerce_column. apply length_map. Qed.

Lemma height_before_coordinates (sh : Sheet) :
  length (rows (loaded_before_coordinates sh))
  = length (rows (drop_duplicates (frame_of_sheet (map PyStr.strip (header sh)) sh))).
Proof.
  unfold loaded_before_coordinates, date_cols. cbn [fold_left].
  rewrite !height_coerce. reflexivity.
Qed.

Lemma height_coordinate_step (d d3 : DataFrame) :
  coordinate_step d = inr d3 -> length (rows d3) = length (rows d).
Proof.
  unfold coordinate_step, split_coordinates.
  destruct (has_column "Koordinat" d).
  - destruct (1 <=? coords_width d)%nat; [|discriminate].
    destruct (2 <=? coords_width d)%nat; [|discriminate].
    intros H. injection H as <-. rewrite !height_assign. reflexivity.
  - intros H. injection H as <-. rewrite !height_coerce. reflexivity.
Qed.

Lemma height_finish_load (d : DataFrame) :
  length (rows (finish_load d)) = length (rows d).
Proof.
  unfold finish_load, cat_cols. cbn [fold_left].
  destruct (has_column "Admin OPD" _); [rewrite height_assign|];
    rewrite !height_coerce; reflexivity.
Qed.

Lemma height_frame_of_sheet (names : list string) (sh : Sheet) :
  length (rows (frame_of_sheet names sh)) = length (body sh).
Proof. unfold frame_of_sheet. simpl. apply length_imap. Qed.

(** X5. When [load_data] returns a frame of a sheet, the page gains two
    notices and nothing else changes: the row count reported is that of
    the frame returned, rows are lost to duplicates only, and the notice
    on duplicates tells how many ("no duplicates" exactly when none). *)
Theorem load_data_row_accounting (sh : Sheet) (w w' : world) (df : DataFrame) :
  load_data (inr sh) w = (inr df, w') ->
  sheet_empty sh = false ->
  heap w' = heap w
  /\ (length (rows df) <= length (body sh))%nat
  /\ exists n,
       shown w' = shown w ++ [n; StSuccess (Loaded (length (rows df))
                                                   (length (columns df)))]
       /\ (n = StSuccess NoDuplicates /\ length (rows df) = length (body sh)
           \/ n = StInfo (DuplicatesRemoved (length (body sh) - length (rows df))
                                            (length (rows df)))
              /\ (length (rows df) < length (body sh))%nat).
Proof.
  intros L NE. rewrite (load_data_stages sh w NE) in L.
  destruct (coordinate_step (loaded_before_coordinates sh)) as [e|d3] eqn:C;
    [discriminate L|].
  pose proof (f_equal fst L) as E1. pose proof (f_equal snd L) as E2.
  cbn [fst snd] in E1, E2. clear L. injection E1 as <-. subst w'. cbn [heap shown].
  assert (H : length (rows (finish_load d3))
              = length (rows (drop_duplicates
                                (frame_of_sheet (map PyStr.strip (header sh)) sh)))).
  { rewrite height_finish_load, (height_coordinate_step _ _ C).
    apply height_before_coordinates. }
  assert (S : (length (rows (drop_duplicates
                               (frame_of_sheet (map PyStr.strip (header sh)) sh)))
               <= length (body sh))%nat).
  { rewrite <- (height_frame_of_sheet (map PyStr.strip (header sh)) sh).
    apply sublist_length, drop_duplicates_distinct. }
  split; [reflexivity|]. split; [lia|].
  exists (duplicates_notice sh). split; [reflexivity|].
  unfold duplicates_notice. rewrite height_frame_of_sheet, <- H.
  destruct (length (body sh) =? length (rows (finish_load d3)))%nat eqn:E.
  - apply Nat.eqb_eq in E. left. auto.
  - apply Nat.eqb_neq in E. right. split; [reflexivity | lia].
Qed.


(** ** The categorical columns of the loaded frame *)

Lemma column_kept_assign (P : cell -> Prop) (c c' : string) (f : Row -> cell)
    (d : DataFrame) :
  c' <> c ->
  Forall (fun r => P (get c r)) (rows d) ->
  Forall (fun r => P (get c r)) (rows (assign c' f d)).
Proof.
  intros H N. rewrite rows_assign.
  apply List.Forall_forall. intros r' Hr'. apply in_map_iff in Hr'.
  destruct Hr' as (r & <- & Hr). rewrite get_set_ne by exact H.
  rewrite List.Forall_forall in N. apply N, Hr.
Qed.

Lemma column_kept_coerce (P : cell -> Prop) (c c' : string) (f : cell -> cell)
    (d : DataFrame) :
  c' <> c ->
  Forall (fun r => P (get c r)) (rows d) ->
  Forall (fun r => P (get c r)) (rows (coerce_column c' f d)).
Proof.
  intros H N. unfold coerce_column. destruct (has_column c' d); [|exact N].
  apply column_kept_assign; assumption.
Qed.

Lemma column_coerced (P : cell -> Prop) (c : string) (f : cell -> cell) (d : DataFrame) :
  (forall x, P (f x)) ->
  has_column c d = true ->
  Forall (fun r => P (get c r)) (rows (coerce_column c f d)).
Proof.
  intros Pf H. unfold coerce_column. rewrite H, rows_assign.
  apply List.Forall_forall. intros r' Hr'. apply in_map_iff in Hr'.
  destruct Hr' as (r & <- & Hr). rewrite get_set_eq. apply Pf.
Qed.

Lemma normalize_text_normalized (c : cell) : normalized_text (normalize_text c).
Proof.
  unfold normalize_text, normalized_text.
  destruct (PyStr.mem (astype_str c) ["nan"; "NaN"; "None"]) eqn:E; [left; reflexivity|].
  right. eauto.
Qed.

Lemma has_column_finish_load (c : string) (d : DataFrame) :
  c <> "Admin OPD Grouped" -> has_column c (finish_load d) = has_column c d.
Proof.
  intros H. unfold finish_load, cat_cols. cbn [fold_left].
  destruct (has_column "Admin OPD" _);
    [rewrite has_column_assign_ne by exact H|]; rewrite !has_column_coerce; reflexivity.
Qed.

Lemma load_data_returns (read : string + Sheet) (w w' : world) (df : DataFrame) :
  load_data read w = (inr df, w') ->
  df = empty_frame
  \/ exists sh d3,
       read = inr sh /\ sheet_empty sh = false
       /\ coordinate_step (loaded_before_coordinates sh) = inr d3
       /\ df = finish_load d3.
Proof.
  destruct read as [e|sh].
  { intros H. apply (f_equal fst) in H. injection H as <-. left. reflexivity. }
  destruct (sheet_empty sh) eqn:NE.
  { unfold load_data. rewrite NE. intros H. apply (f_equal fst) in H.
    injection H as <-. left. reflexivity. }
  rewrite (load_data_stages sh w NE).
  destruct (coordinate_step (loaded_before_coordinates sh)) as [e|d3] eqn:C;
    [discriminate|].
  intros H. apply (f_equal fst) in H. cbn [fst] in H. injection H as <-.
  right. exists sh, d3. auto.
Qed.

Lemma grouped_not_categorical : ~ In "Admin OPD Grouped" cat_cols.
Proof.
  unfold cat_cols. simpl. intros H.
  repeat (destruct H as [H|H]; [discriminate H|]). exact H.
Qed.

(** X6. In every frame [load_data] returns, a cell of a categorical
    column is missing or a text other than "nan", "NaN" and "None"; and
    when the frame has an "Admin OPD" column it has the "Admin OPD Grouped"
    column too, which holds for each record the group of its organisation
    (so "Lainnya" where the organisation is missing). *)
Theorem load_data_categorical_columns (read : string + Sheet) (w w' : world)
    (df : DataFrame) :
  load_data read w = (inr df, w') ->
  (forall c, In c cat_cols -> has_column c df = true ->
             Forall (fun r => normalized_text (get c r)) (rows df))
  /\ (has_column "Admin OPD" df = true ->
      has_column "Admin OPD Grouped" df = true
      /\ Forall (fun r =>
                   get "Admin OPD Grouped" r = Str (categorize_admin (get "Admin OPD" r))
                   /\ (get "Admin OPD" r = NaN ->
                       get "Admin OPD Grouped" r = Str "Lainnya"))
                (rows df)).
Proof.
  intros L. destruct (load_data_returns _ _ _ _ L) as [-> | (sh & d3 & _ & _ & _ & ->)].
  { split; [intros; constructor | discriminate]. }
  clear L. split.
  - intros c Hc H. rewrite has_column_finish_load in H
      by (intros ->; exact (grouped_not_categorical Hc)).
    unfold finish_load, cat_cols. cbn [fold_left].
    assert (K : Forall (fun r => normalized_text (get c r))
                  (rows (coerce_column "Daerah" normalize_text
                    (coerce_column "Asta Cipta" normalize_text
                      (coerce_column "Urusan Utama" normalize_text
                        (coerce_column "Kategori Admin OPD" normalize_text
                          (coerce_column "Admin OPD" normalize_text
                            (coerce_column "Bentuk Inovasi" normalize_text
                              (coerce_column "Jenis" normalize_text d3))))))))).
    { simpl in Hc.
      repeat (destruct Hc as [<-|Hc];
              [repeat (apply column_kept_coerce; [discriminate|]);
               apply column_coerced; [apply normalize_text_normalized|];
               rewrite ?has_column_coerce; exact H|]).
      destruct Hc. }
    destruct (has_column "Admin OPD" _); [|exact K].
    apply column_kept_assign; [|exact K].
    intros <-. exact (grouped_not_categorical Hc).
  - intros H. rewrite has_column_finish_load in H by discriminate.
    unfold finish_load.
    set (d4 := fold_left _ cat_cols d3).
    assert (H4 : has_column "Admin OPD" d4 = true).
    { unfold d4, cat_cols. cbn [fold_left]. rewrite !has_column_coerce. exact H. }
    rewrite H4. split; [apply has_column_assign_eq|].
    rewrite rows_assign. apply List.Forall_forall. intros r' Hr'.
    apply in_map_iff in Hr'. destruct Hr' as (r & <- & _).
    rewrite get_set_eq, get_set_ne by discriminate.
    split; [reflexivity|]. intros ->. reflexivity.
Qed.


(** ** The top of the script *)

Lemma drop_duplicates_nonempty (d : DataFrame) :
  rows d <> [] -> rows (drop_duplicates d) <> [].
Proof.
  unfold drop_duplicates. simpl. destruct (rows d) as [|r l]; [congruence|].
  intros _. simpl. intros E.
  pose proof (drop_duplicates_from_kept (columns d) l [r] r (or_introl eq_refl)) as H.
  rewrite E in H. destruct H.
Qed.

Lemma comma_free_uncoerce (c : string) (f : cell -> cell) (d : DataFrame) :
  c <> "Koordinat" -> comma_free (coerce_column c f d) -> comma_free d.
Proof.
  intros H (NE & C & F). split; [|split].
  - rewrite rows_coerce_column in NE. destruct (rows d); [exact NE | discriminate].
  - rewrite has_column_coerce in C. exact C.
  - rewrite rows_coerce_column in F. rewrite List.Forall_forall in F.
    apply List.Forall_forall. intros r Hr.
    specialize (F _ (in_map _ _ _ Hr)). cbv beta in F.
    destruct (has_column c d); [|exact F].
    unfold coords_of in *. rewrite get_set_ne in F by exact H. exact F.
Qed.

Lemma loaded_rows_nonempty (sh : Sheet) :
  sheet_empty sh = false -> rows (loaded_before_coordinates sh) <> [].
Proof.
  intros NE E. apply (f_equal (@length Row)) in E.
  rewrite height_before_coordinates in E.
  apply (drop_duplicates_nonempty (frame_of_sheet (map PyStr.strip (header sh)) sh)).
  - intros E0. apply (f_equal (@length Row)) in E0.
    rewrite height_frame_of_sheet in E0. unfold sheet_empty in NE.
    destruct (header sh); [discriminate|]. destruct (body sh); discriminate.
  - destruct (rows (drop_duplicates _)); [reflexivity | discriminate E].
Qed.

Lemma load_data_raises (read : string + Sheet) (w w1 : world) (e : exn) :
  load_data read w = (inl e, w1) ->
  e = KeyError "1"
  /\ exists sh,
       read = inr sh /\ sheet_empty sh = false
       /\ comma_free (drop_duplicates (frame_of_sheet (map PyStr.strip (header sh)) sh)).
Proof.
  destruct read as [t|sh]; [discriminate|].
  destruct (sheet_empty sh) eqn:NE.
  { unfold load_data. rewrite NE. discriminate. }
  rewrite (load_data_stages sh w NE).
  pose proof (loaded_rows_nonempty sh NE) as R.
  destruct (coordinate_step (loaded_before_coordinates sh)) as [e0|d3] eqn:C;
    [|discriminate].
  intros H. apply (f_equal fst) in H. cbn [fst] in H. injection H as ->.
  unfold coordinate_step in C.
  destruct (has_column "Koordinat" (loaded_before_coordinates sh)) eqn:K;
    [|discriminate].
  unfold split_coordinates in C.
  destruct (coords_width_cases (loaded_before_coordinates sh))
    as [[_ E] | [[W [_ F]] | [W _]]].
  - contradiction.
  - rewrite W in C. cbn in C. injection C as <-. split; [reflexivity|].
    exists sh. split; [reflexivity|]. split; [exact NE|].
    assert (CF : comma_free (loaded_before_coordinates sh)) by (split; auto).
    unfold loaded_before_coordinates, date_cols in CF. cbn [fold_left] in CF.
    do 4 (apply comma_free_uncoerce in CF; [|discriminate]). exact CF.
  - rewrite W in C. cbn in C. discriminate C.
Qed.

Lemma nothing_blocked_at_call (cols : list string) :
  blocked globals_at_call cols source_order = false.
Proof. reflexivity. Qed.

(** X7. The top of the script on a sheet within the model (header names
    ASCII and distinct once stripped, no "Admin OPD Grouped" column other
    than the loader's): the load, the sidebar, the tips, the two checks
    for an empty frame and the call of [apply_filters] between them.  Of
    these only the load raises, that is [KeyError] on a sheet with rows
    and a "Koordinat" column where, after the duplicates are dropped, no
    "Koordinat" text has a comma; the call of [apply_filters] never
    raises, the search and the region blocks being off there.  The
    script stops, after a warning, when the loaded frame or the view is
    empty; otherwise its last notice is the tips, [df] is the loaded
    frame and [df_filtered] the rows of it that pass the five sidebar
    filters, of which there is at least one. *)
Theorem script_outcomes (read : string + Sheet) (chosen : filter_args) (w : world) :
  (forall sh, read = inr sh -> plain_header sh /\ grouped_by_loader sh) ->
  match script read chosen w with
  | (inl e, _) =>
      e = KeyError "1"
      /\ exists sh,
           read = inr sh /\ sheet_empty sh = false
           /\ comma_free (drop_duplicates
                            (frame_of_sheet (map PyStr.strip (header sh)) sh))
  | (inr out, w') =>
      exists d w1,
        load_data read w = (inr d, w1)
        /\ let view := passing globals_at_call (widget_args d chosen) source_order d in
           match out with
           | Stopped =>
               is_empty d = true
               /\ shown w' = shown w1 ++ [StInfo Tips; StWarning DataUnavailable;
                                          StInfo UploadHint]
               \/ is_empty d = false /\ is_empty view = true
                  /\ shown w' = shown w1 ++ [StInfo Tips; StWarning NothingMatchesFilter]
           | Continues df df_filtered =>
               is_empty d = false /\ is_empty view = false
               /\ heap w' !! df = Some d
               /\ heap w' !! df_filtered = Some view
               /\ df <> df_filtered
               /\ shown w' = shown w1 ++ [StInfo Tips]
           end
  end.
Proof.
  intros _. unfold script, mbind, Py_bind.
  destruct (load_data read w) as [[e|d] w1] eqn:L.
  { apply (load_data_raises _ _ _ _ L). }
  unfold alloc, st. cbv beta iota.
  pose proof (load_data_numeric_maturity _ _ _ _ L) as N.
  destruct (is_empty d) eqn:E.
  { exists d, w1. split; [reflexivity|]. left. split; [exact E|].
    cbn [shown heap mret Py_ret]. rewrite <- !app_assoc. reflexivity. }
  set (w2 := mkWorld (heap w1 ++ [d]) (shown w1 ++ [StInfo Tips])).
  assert (H : heap w2 !! length (heap w1) = Some d)
    by apply (lookup_alloc (heap w1) d).
  pose proof (apply_filters_in_view source_order globals_at_call
                (widget_args d chosen) w2 _ d H N) as V.
  rewrite nothing_blocked_at_call in V.
  fold (apply_filters globals_at_call (length (heap w1)) (widget_args d chosen) w2) in V.
  destruct (view_returns _ _ V) as (l' & w3 & R & H3).
  destruct (apply_filters_in_returns source_order globals_at_call
              (widget_args d chosen) w2 (length (heap w1)) d l' w3 H R)
    as (_ & ((fresh & Hh) & Hs) & Lt).
  change (mkWorld (heap (mkWorld (heap w1 ++ [d]) (shown w1)))
                  (shown (mkWorld (heap w1 ++ [d]) (shown w1)) ++ [StInfo Tips]))
    with w2.
  rewrite R. unfold deref. rewrite H3. cbn [default from_option id].
  destruct (is_empty (passing globals_at_call (widget_args d chosen) source_order d))
    eqn:E'; cbv beta iota delta [mret Py_ret].
  - exists d, w1. split; [reflexivity|]. right. split; [exact E|].
    split; [exact E'|]. cbn [shown]. rewrite Hs. unfold w2. cbn [shown].
    rewrite <- app_assoc. reflexivity.
  - exists d, w1. split; [reflexivity|]. split; [exact E|].
    split; [exact E'|]. split; [|split; [exact H3|split; [lia|exact Hs]]].
    rewrite Hh. apply lookup_app_l_Some. exact H.
Qed.


(** ** Columns of coordinates and regions *)

Lemma last_column_from (p : string -> bool) (cols : list string) (found : option string) :
  fold_left (fun found c => if p (PyStr.lower c) then Some c else found) cols found
  = match last_column p cols with
    | Some c => Some c
    | None => found
    end.
Proof.
  unfold last_column. revert found.
  induction cols as [|c cols IH]; intros found; simpl; [reflexivity|].
  rewrite (IH (if p (PyStr.lower c) then Some c else found)).
  rewrite (IH (if p (PyStr.lower c) then Some c else None)).
  destruct (fold_left _ cols None); [reflexivity|].
  destruct (p (PyStr.lower c)); reflexivity.
Qed.

Lemma last_column_app (p : string -> bool) (l1 l2 : list string) :
  last_column p (l1 ++ l2)
  = match last_column p l2 with
    | Some c => Some c
    | None => last_column p l1
    end.
Proof.
  unfold last_column at 1. rewrite fold_left_app.
  apply last_column_from.
Qed.

Lemma last_column_cons (p : string -> bool) (c : string) (l : list string) :
  last_column p (c :: l)
  = match last_column p l with
    | Some c' => Some c'
    | None => if p (PyStr.lower c) then Some c else None
    end.
Proof. apply (last_column_app p [c] l). Qed.

(** The column found is the last one with the marker. *)
Lemma last_column_spec (p : string -> bool) (cols : list string) :
  match last_column p cols with
  | Some c =>
      exists before after,
        cols = before ++ c :: after
        /\ p (PyStr.lower c) = true
        /\ Forall (fun c' => p (PyStr.lower c') = false) after
  | None => Forall (fun c' => p (PyStr.lower c') = false) cols
  end.
Proof.
  induction cols as [|c cols IH]; [constructor|].
  rewrite last_column_cons.
  destruct (last_column p cols) as [c'|].
  - destruct IH as (before & after & -> & P & F).
    exists (c :: before), after. auto.
  - destruct (p (PyStr.lower c)) eqn:P.
    + exists [], cols. auto.
    + constructor; assumption.
Qed.

Lemma insert_text_permutation (s : string) (l : list string) :
  Permutation (insert_text s l) (s :: l).
Proof.
  induction l as [|x l IH]; simpl; [reflexivity|].
  destruct (String.leb s x); [reflexivity|].
  rewrite IH. apply perm_swap.
Qed.

Lemma sorted_texts_permutation (l : list string) : Permutation (sorted_texts l) l.
Proof.
  induction l as [|x l IH]; simpl; [reflexivity|].
  rewrite insert_text_permutation, IH. reflexivity.
Qed.

Lemma insert_text_sorted (s : string) (l : list string) :
  Sorted (fun a b => String.leb a b = true) l ->
  Sorted (fun a b => String.leb a b = true) (insert_text s l).
Proof.
  induction l as [|x l IH]; intros S; simpl.
  - repeat constructor.
  - destruct (String.leb s x) eqn:L.
    + constructor; [exact S | constructor; exact L].
    + assert (L' : String.leb x s = true).
      { destruct (String.leb_total s x) as [H|H]; [congruence | exact H]. }
      inversion S as [|? ? S' Hd]; subst.
      constructor; [apply IH, S'|].
      destruct l as [|y l]; simpl; [constructor; exact L'|].
      destruct (String.leb s y); constructor; [exact L'|].
      inversion Hd; assumption.
Qed.

Lemma sorted_texts_sorted (l : list string) :
  Sorted (fun a b => String.leb a b = true) (sorted_texts l).
Proof.
  induction l as [|x l IH]; simpl; [constructor|].
  apply insert_text_sorted, IH.
Qed.

Lemma unique_in (s : string) (l : list string) : In s (unique l) <-> In s l.
Proof.
  induction l as [|x l IH]; simpl; [reflexivity|].
  rewrite filter_In, IH. destruct (String.eqb_spec s x) as [->|N]; simpl.
  - split; auto.
  - split; [intros [H|[H _]]; auto | intros [H|H]; [congruence | auto]].
Qed.

Lemma unique_nodup (l : list string) : List.NoDup (unique l).
Proof.
  induction l as [|x l IH]; simpl; constructor.
  - rewrite filter_In. intros [_ H]. rewrite String.eqb_refl in H. discriminate H.
  - apply List.NoDup_filter, IH.
Qed.

Lemma texts_in (s : string) (ser : list cell) : In s (texts ser) <-> In (Str s) ser.
Proof.
  unfold texts. rewrite in_flat_map. split.
  - intros (c & Hc & H). destruct c; simpl in H; try contradiction.
    destruct H as [->|[]]. exact Hc.
  - intros H. exists (Str s). split; [exact H | left; reflexivity].
Qed.

Lemma daerah_tersedia_in (geo : DataFrame) (s : string) :
  In s (daerah_tersedia geo) <-> exists r, In r (rows geo) /\ get "Daerah" r = Str s.
Proof.
  unfold daerah_tersedia, column. split.
  - intros H. apply (Permutation_in _ (sorted_texts_permutation _)) in H.
    apply unique_in, texts_in, in_map_iff in H. destruct H as (r & E & Hr). eauto.
  - intros (r & Hr & E).
    apply (Permutation_in _ (Permutation_sym (sorted_texts_permutation _))).
    apply unique_in, texts_in, in_map_iff. eauto.
Qed.

Lemma rows_df_selected (geo : DataFrame) (s : string) :
  rows (df_selected geo s)
  = List.filter (fun r => cell_eq_str s (get "Daerah" r)) (rows geo).
Proof.
  unfold df_selected, getitem_mask, column. cbn [rows]. rewrite map_map.
  apply (take_mask_map (fun r => cell_eq_str s (get "Daerah" r))).
Qed.

Lemma cell_eq_str_true (s : string) (c : cell) : cell_eq_str s c = true <-> c = Str s.
Proof.
  destruct c; simpl; try (split; [discriminate | congruence]).
  rewrite String.eqb_eq. split; congruence.
Qed.

Lemma assign_each_returns (c : string) (f : Row -> exn + cell) (l l' : list Row) :
  assign_each c f l = inr l' ->
  Forall2 (fun r r' => exists v, f r = inr v /\ r' = set c v r) l l'.
Proof.
  revert l'. induction l as [|r l IH]; intros l'; simpl.
  - intros H. injection H as <-. constructor.
  - destruct (f r) as [e|v] eqn:F; [discriminate|].
    destruct (assign_each c f l) as [e|l''] eqn:A; [discriminate|].
    intros H. injection H as <-. constructor; [eauto | apply IH; reflexivity].
Qed.

Lemma assign_each_raises (c : string) (f : Row -> exn + cell) (l : list Row) (e : exn) :
  assign_each c f l = inl e -> exists r, In r l /\ f r = inl e.
Proof.
  induction l as [|r l IH]; simpl; [discriminate|].
  destruct (f r) as [e'|v] eqn:F.
  - intros H. injection H as ->. exists r. auto.
  - destruct (assign_each c f l) as [e'|l''] eqn:A; [|discriminate].
    intros H. injection H as ->. destruct (IH eq_refl) as (r' & Hr' & F').
    exists r'. auto.
Qed.

Lemma get_nearest_area_range (lat lon : Q) (df_ref : list ref_row) (threshold : Q) :
  match get_nearest_area lat lon df_ref threshold with
  | inl e => e = ValueError /\ df_ref = []
  | inr s => s = UNIDENTIFIED \/ exists e, In e df_ref /\ s = kabupaten e
  end.
Proof.
  destruct df_ref as [|e0 l] eqn:E; [split; reflexivity|].
  rewrite <- E.
  destruct (get_nearest_area_entry lat lon df_ref threshold) as (idx & e & He & _ & _ & R).
  { rewrite E. discriminate. }
  rewrite R. destruct (Qlt_le_dec _ _); [right | left; reflexivity].
  exists e. split; [|reflexivity].
  apply list_elem_of_In, list_elem_of_lookup. eauto.
Qed.


Lemma Forall2_in_right {A B : Type} (P : A -> B -> Prop) (l : list A) (l' : list B) (y : B) :
  Forall2 P l l' -> In y l' -> exists x, In x l /\ P x y.
Proof.
  induction 1 as [|x y' l l' Pxy F IH]; intros H; [destruct H|].
  destruct H as [<-|H]; [exists x; split; [left; reflexivity | exact Pxy]|].
  destruct (IH H) as (x' & Hx' & Px'). exists x'. split; [right; exact Hx' | exact Px'].
Qed.

Lemma map_coordinates_to_region_rows (la lo : string) (d : DataFrame)
    (df_ref : list ref_row) :
  rows d <> [] ->
  map_coordinates_to_region la lo d df_ref = regions_assigned la lo d df_ref.
Proof.
  unfold map_coordinates_to_region. destruct (rows d); [congruence | reflexivity].
Qed.

(** X8. The comparison of regions, for the located records (the rows
    with both coordinates, of which there is at least one) and any two
    coordinate columns.  Naming the regions raises only when the
    reference table is empty or a coordinate is not a number.  Otherwise
    each located record gets as "Daerah" the region its coordinates
    resolve to and is otherwise unchanged; the region box lists each of
    these regions once, in ascending order, and nothing else, so every
    option is a name of the reference table or the "unidentified" text;
    the table of a chosen option is never empty, and each located record
    is in the table of exactly one option. *)
Theorem region_options (d : DataFrame) (la lo : string) (df_ref : list ref_row) :
  rows (dropna [la; lo] d) <> [] ->
  match map_coordinates_to_region la lo (dropna [la; lo] d) df_ref with
  | inl e =>
      e = ValueError /\ df_ref = []
      \/ e = TypeError
         /\ exists r, In r (rows d)
                      /\ ~ (exists a b, get la r = Num a /\ get lo r = Num b)
  | inr df_geo =>
      Forall2 (fun r r' =>
                 exists a b s,
                   get la r = Num a /\ get lo r = Num b
                   /\ get_nearest_area a b df_ref default_threshold = inr s
                   /\ r' = set "Daerah" (Str s) r)
              (rows (dropna [la; lo] d)) (rows df_geo)
      /\ daerah_tersedia df_geo <> []
      /\ List.NoDup (daerah_tersedia df_geo)
      /\ Sorted (fun a b => String.leb a b = true) (daerah_tersedia df_geo)
      /\ (forall s, In s (daerah_tersedia df_geo) ->
            (s = UNIDENTIFIED \/ exists e, In e df_ref /\ s = kabupaten e)
            /\ is_empty (df_selected df_geo s) = false)
      /\ (forall r', In r' (rows df_geo) ->
            exists s, In s (daerah_tersedia df_geo)
                      /\ forall s', In r' (rows (df_selected df_geo s')) <-> s' = s)
  end.
Proof.
  intros NE. rewrite (map_coordinates_to_region_rows _ _ _ _ NE).
  unfold regions_assigned.
  set (f := fun x : Row =>
              match region_of df_ref (get la x) (get lo x) with
              | inl e => inl e
              | inr s => inr (Str s)
              end).
  destruct (assign_each "Daerah" f (rows (dropna [la; lo] d))) as [e|l] eqn:A.
  { destruct (assign_each_raises _ _ _ _ A) as (r & Hr & F).
    unfold f, region_of in F. cbn [dropna rows] in Hr. apply filter_In in Hr.
    destruct (get la r) as [| |a| |] eqn:Ea; cbv beta iota in F;
      try (injection F as <-; right; split; [reflexivity|];
           exists r; split; [apply Hr|]; intros (? & ? & ? & ?); congruence).
    destruct (get lo r) as [| |b| |] eqn:Eb; cbv beta iota in F;
      try (injection F as <-; right; split; [reflexivity|];
           exists r; split; [apply Hr|]; intros (? & ? & ? & ?); congruence).
    pose proof (get_nearest_area_range a b df_ref default_threshold) as G.
    destruct (get_nearest_area a b df_ref default_threshold) as [e'|s];
      [|discriminate F].
    injection F as <-. left. exact G. }
  set (geo := mkFrame _ l).
  assert (F2 : Forall2 (fun r r' =>
                          exists a b s,
                            get la r = Num a /\ get lo r = Num b
                            /\ get_nearest_area a b df_ref default_threshold = inr s
                            /\ r' = set "Daerah" (Str s) r)
                       (rows (dropna [la; lo] d)) l).
  { eapply Forall2_impl; [apply (assign_each_returns _ _ _ _ A)|].
    intros r r' (v & F & ->). unfold f, region_of in F.
    destruct (get la r) as [| |a| |]; cbv beta iota in F; try discriminate F.
    destruct (get lo r) as [| |b| |]; cbv beta iota in F; try discriminate F.
    destruct (get_nearest_area a b df_ref default_threshold) as [e|s] eqn:G;
      [discriminate F|].
    injection F as <-. exists a, b, s. auto. }
  assert (Region : forall r', In r' l ->
            exists s, get "Daerah" r' = Str s
                      /\ (s = UNIDENTIFIED \/ exists e, In e df_ref /\ s = kabupaten e)).
  { intros r' Hr'. destruct (Forall2_in_right _ _ _ _ F2 Hr')
      as (r & _ & a & b & s & _ & _ & G & ->).
    exists s. split; [apply get_set_eq|].
    pose proof (get_nearest_area_range a b df_ref default_threshold) as R.
    rewrite G in R. exact R. }
  assert (Cols : columns geo <> []).
  { unfold geo. cbn [columns]. destruct (has_column "Daerah" _) eqn:H.
    - unfold has_column in H. destruct (columns (dropna [la; lo] d));
        [discriminate H | discriminate].
    - destruct (columns (dropna [la; lo] d)); discriminate. }
  split; [exact F2|]. split; [|split; [|split; [|split]]].
  - destruct l as [|r' l'].
    { inversion F2 as [E|]. symmetry in E. contradiction. }
    destruct (Region r' (or_introl eq_refl)) as (s & E & _).
    assert (H : In s (daerah_tersedia geo)).
    { apply daerah_tersedia_in. exists r'. split; [left; reflexivity | exact E]. }
    intros E0. rewrite E0 in H. destruct H.
  - unfold daerah_tersedia.
    apply (Permutation_NoDup (Permutation_sym (sorted_texts_permutation _))).
    apply unique_nodup.
  - apply sorted_texts_sorted.
  - intros s Hs. apply daerah_tersedia_in in Hs. destruct Hs as (r' & Hr' & E).
    destruct (Region r' Hr') as (s0 & E0 & R). rewrite E in E0. injection E0 as <-.
    split; [exact R|].
    assert (H : In r' (rows (df_selected geo s))).
    { rewrite rows_df_selected. apply filter_In. split; [exact Hr'|].
      apply cell_eq_str_true, E. }
    unfold is_empty.
    change (columns (df_selected geo s)) with (columns geo).
    destruct (columns geo); [contradiction|].
    destruct (rows (df_selected geo s)); [destruct H | reflexivity].
  - intros r' Hr'. destruct (Region r' Hr') as (s & E & _). exists s. split.
    + apply daerah_tersedia_in. exists r'. auto.
    + intros s'. rewrite rows_df_selected, filter_In, cell_eq_str_true, E.
      split; [intros [_ H]; congruence | intros ->; auto].
Qed.


Lemma columns_coerce_column (c : string) (f : cell -> cell) (d : DataFrame) :
  columns (coerce_column c f d) = columns d.
Proof.
  unfold coerce_column. destruct (has_column c d) eqn:H; [|reflexivity].
  unfold assign. rewrite H. reflexivity.
Qed.

Lemma last_column_assign (p : string -> bool) (c : string) (f : Row -> cell)
    (d : DataFrame) :
  p (PyStr.lower c) = false ->
  last_column p (columns (assign c f d)) = last_column p (columns d).
Proof.
  intros P. unfold assign. cbn [columns].
  destruct (has_column c d); [reflexivity|].
  rewrite last_column_app. unfold last_column at 1. simpl. rewrite P. reflexivity.
Qed.

Lemma last_column_finish_load (p : string -> bool) (d : DataFrame) :
  p "admin opd grouped" = false ->
  last_column p (columns (finish_load d)) = last_column p (columns d).
Proof.
  intros P. unfold finish_load, cat_cols. cbn [fold_left].
  destruct (has_column "Admin OPD" _); [rewrite last_column_assign by exact P|];
    rewrite !columns_coerce_column; reflexivity.
Qed.

Lemma last_column_with_short_names (p : string -> bool) (d : DataFrame) :
  p "kategori admin opd" = false -> p "nama pendek opd" = false ->
  last_column p (columns (with_short_names d)) = last_column p (columns d).
Proof.
  intros P1 P2. unfold with_short_names.
  destruct (has_column "Admin OPD" d); [|reflexivity].
  rewrite !last_column_assign by assumption. reflexivity.
Qed.

Lemma columns_before_coordinates (sh : Sheet) :
  columns (loaded_before_coordinates sh) = map PyStr.strip (header sh).
Proof.
  unfold loaded_before_coordinates, date_cols. cbn [fold_left].
  rewrite !columns_coerce_column. reflexivity.
Qed.

Lemma column_assigned (P : cell -> Prop) (c : string) (f : Row -> cell) (d : DataFrame) :
  (forall r, P (f r)) -> Forall (fun r => P (get c r)) (rows (assign c f d)).
Proof.
  intros Pf. rewrite rows_assign. apply List.Forall_forall. intros r' Hr'.
  apply in_map_iff in Hr'. destruct Hr' as (r & <- & _). rewrite get_set_eq. apply Pf.
Qed.

Lemma numeric_column_finish_load (c : string) (d : DataFrame) :
  ~ In c cat_cols -> c <> "Admin OPD Grouped" ->
  numeric_column c d -> numeric_column c (finish_load d).
Proof.
  intros H1 H2 N. unfold finish_load, cat_cols in *. cbn [fold_left].
  assert (K : numeric_column c
                (coerce_column "Daerah" normalize_text
                  (coerce_column "Asta Cipta" normalize_text
                    (coerce_column "Urusan Utama" normalize_text
                      (coerce_column "Kategori Admin OPD" normalize_text
                        (coerce_column "Admin OPD" normalize_text
                          (coerce_column "Bentuk Inovasi" normalize_text
                            (coerce_column "Jenis" normalize_text d)))))))).
  { repeat (apply numeric_column_coerce_ne;
            [intros <-; apply H1; simpl; auto 10|]).
    exact N. }
  destruct (has_column "Admin OPD" _); [|exact K].
  apply numeric_column_assign_ne; [congruence | exact K].
Qed.

Lemma numeric_column_with_short_names (c : string) (d : DataFrame) :
  c <> "Kategori Admin OPD" -> c <> "Nama Pendek OPD" ->
  numeric_column c d -> numeric_column c (with_short_names d).
Proof.
  intros H1 H2 N. unfold with_short_names.
  destruct (has_column "Admin OPD" d); [|exact N].
  repeat (apply numeric_column_assign_ne; [congruence|]). exact N.
Qed.

Lemma assign_each_total (c : string) (f : Row -> exn + cell) (l : list Row) :
  Forall (fun r => exists v, f r = inr v) l -> exists l', assign_each c f l = inr l'.
Proof.
  induction 1 as [|r l (v & F) _ (l' & IH)]; simpl; [eauto|].
  rewrite F, IH. eauto.
Qed.

Lemma map_coordinates_to_region_numeric (la lo : string) (d : DataFrame)
    (df_ref : list ref_row) :
  numeric_column la d -> numeric_column lo d -> df_ref <> [] ->
  rows (dropna [la; lo] d) <> [] ->
  exists df_geo, map_coordinates_to_region la lo (dropna [la; lo] d) df_ref = inr df_geo.
Proof.
  intros Nlat Nlon Href NE. rewrite (map_coordinates_to_region_rows _ _ _ _ NE).
  unfold regions_assigned.
  destruct (assign_each_total "Daerah"
              (fun x => match region_of df_ref (get la x) (get lo x) with
                        | inl e => inl e
                        | inr s => inr (Str s)
                        end)
              (rows (dropna [la; lo] d))) as (l & A).
  { cbn [dropna rows]. apply List.Forall_forall. intros r Hr.
    apply filter_In in Hr. destruct Hr as (Hr & Hn).
    unfold numeric_column in Nlat, Nlon. rewrite List.Forall_forall in Nlat, Nlon.
    specialize (Nlat r Hr). specialize (Nlon r Hr).
    cbn [forallb] in Hn. apply andb_prop in Hn. destruct Hn as (H1 & H2).
    apply andb_prop in H2. destruct H2 as (H2 & _).
    unfold region_of.
    destruct (get la r) as [| |x| |]; try contradiction; try discriminate H1.
    destruct (get lo r) as [| |y| |]; try contradiction; try discriminate H2.
    pose proof (get_nearest_area_range x y df_ref default_threshold) as R.
    destruct (get_nearest_area x y df_ref default_threshold) as [e|s]; [|eauto].
    destruct R as (_ & R). contradiction. }
  rewrite A. eauto.
Qed.

Lemma load_data_of_sheet (sh : Sheet) (w w' : world) (df : DataFrame) :
  load_data (inr sh) w = (inr df, w') ->
  sheet_empty sh = false ->
  exists d3,
    coordinate_step (loaded_before_coordinates sh) = inr d3 /\ df = finish_load d3.
Proof.
  intros L NE. rewrite (load_data_stages sh w NE) in L.
  destruct (coordinate_step (loaded_before_coordinates sh)) as [e|d3] eqn:C;
    [discriminate L|].
  apply (f_equal fst) in L. cbn [fst] in L. injection L as <-.
  exists d3. split; reflexivity.
Qed.

(** The coordinate block on a frame with a "Koordinat" column and no
    "lat" or "lon": the two columns are new, last, and numeric. *)
Lemma coordinate_step_columns (d d3 : DataFrame) :
  coordinate_step d = inr d3 ->
  has_column "Koordinat" d = true ->
  has_column "lat" d = false -> has_column "lon" d = false ->
  columns d3 = columns d ++ ["lat"; "lon"]
  /\ numeric_column "lat" d3 /\ numeric_column "lon" d3.
Proof.
  intros C K Hlat Hlon. unfold coordinate_step in C. rewrite K in C.
  unfold split_coordinates in C.
  destruct (1 <=? coords_width d)%nat; [|discriminate C].
  destruct (2 <=? coords_width d)%nat; [|discriminate C].
  apply (f_equal (fun x => match x with inr y => y | inl _ => d end)) in C.
  cbv beta iota in C. subst d3. split; [|split].
  - unfold assign at 1. cbn [columns].
    rewrite has_column_assign_ne by discriminate. rewrite Hlon.
    unfold assign. cbn [columns]. rewrite Hlat, <- app_assoc. reflexivity.
  - apply numeric_column_assign_ne; [discriminate|].
    apply (column_assigned numeric_cell). intros r. apply numeric_cell_to_numeric.
  - apply (column_assigned numeric_cell). intros r. apply numeric_cell_to_numeric.
Qed.

Lemma numeric_column_page (c : string) (g : globals) (a : filter_args) (d : DataFrame) :
  ~ In c cat_cols -> c <> "Admin OPD Grouped" ->
  c <> "Kategori Admin OPD" -> c <> "Nama Pendek OPD" ->
  numeric_column c d ->
  numeric_column c (with_short_names (passing g a source_order (finish_load d))).
Proof.
  intros H1 H2 H3 H4 N.
  apply numeric_column_with_short_names; [exact H3 | exact H4 |].
  unfold passing. apply numeric_column_filter.
  apply numeric_column_finish_load; assumption.
Qed.

Lemma last_column_page (p : string -> bool) (g : globals) (a : filter_args)
    (d : DataFrame) :
  p "admin opd grouped" = false ->
  p "kategori admin opd" = false -> p "nama pendek opd" = false ->
  last_column p (columns (with_short_names (passing g a source_order (finish_load d))))
  = last_column p (columns d).
Proof.
  intros P1 P2 P3. rewrite last_column_with_short_names by assumption.
  unfold passing. cbn [columns]. apply last_column_finish_load, P1.
Qed.

Lemma length_columns_assign (c : string) (f : Row -> cell) (d : DataFrame) :
  (length (columns d) <= length (columns (assign c f d)))%nat.
Proof.
  unfold assign. cbn [columns]. destruct (has_column c d); [lia|].
  rewrite length_app. lia.
Qed.

Lemma length_columns_page (g : globals) (a : filter_args) (d : DataFrame) :
  (length (columns d)
   <= length (columns (with_short_names (passing g a source_order (finish_load d)))))%nat.
Proof.
  assert (F : (length (columns d) <= length (columns (finish_load d)))%nat).
  { unfold finish_load, cat_cols. cbn [fold_left].
    destruct (has_column "Admin OPD" _);
      [etransitivity; [|apply length_columns_assign]|];
      rewrite !columns_coerce_column; lia. }
  unfold with_short_names.
  destruct (has_column "Admin OPD" _); [|exact F].
  etransitivity; [|apply length_columns_assign].
  etransitivity; [|apply length_columns_assign]. exact F.
Qed.

(** X9. A sheet of ASCII header names, distinct once stripped, with a
    "Koordinat" column and no "lat" or "lon" column of its own, that
    loads: on the page, after any filter, the comparison of regions reads
    the two columns the loader split from "Koordinat", and these hold
    numbers or nothing.  When the view has a located record and the
    reference table is not empty, the naming of the regions does not
    raise; when the view has no located record, it raises [ValueError]
    whatever the reference table is. *)
Theorem loaded_coordinates_are_found (sh : Sheet) (w w' : world) (df : DataFrame)
    (g : globals) (a : filter_args) :
  plain_header sh ->
  load_data (inr sh) w = (inr df, w') ->
  sheet_empty sh = false ->
  PyStr.mem "Koordinat" (map PyStr.strip (header sh)) = true ->
  PyStr.mem "lat" (map PyStr.strip (header sh)) = false ->
  PyStr.mem "lon" (map PyStr.strip (header sh)) = false ->
  let page := with_short_names (passing g a source_order df) in
  lat_col page = Some "lat"
  /\ lon_col page = Some "lon"
  /\ numeric_column "lat" page
  /\ numeric_column "lon" page
  /\ (forall df_ref, df_ref <> [] ->
        rows (dropna ["lat"; "lon"] page) <> [] ->
        exists df_geo,
          map_coordinates_to_region "lat" "lon" (dropna ["lat"; "lon"] page) df_ref
          = inr df_geo)
  /\ (forall df_ref,
        rows (dropna ["lat"; "lon"] page) = [] ->
        map_coordinates_to_region "lat" "lon" (dropna ["lat"; "lon"] page) df_ref
        = inl ValueError).
Proof.
  intros _ L NE K Hlat Hlon.
  destruct (load_data_of_sheet _ _ _ _ L NE) as (d3 & C & ->).
  rewrite <- (columns_before_coordinates sh) in K, Hlat, Hlon.
  destruct (coordinate_step_columns _ _ C K Hlat Hlon) as (Cols & Nlat & Nlon).
  clear L C. revert Cols. generalize (columns (loaded_before_coordinates sh)).
  intros names Cols.
  assert (Mlat : numeric_column "lat"
                   (with_short_names (passing g a source_order (finish_load d3)))).
  { apply numeric_column_page; try discriminate; [|exact Nlat].
    unfold cat_cols. simpl. intuition discriminate. }
  assert (Mlon : numeric_column "lon"
                   (with_short_names (passing g a source_order (finish_load d3)))).
  { apply numeric_column_page; try discriminate; [|exact Nlon].
    unfold cat_cols. simpl. intuition discriminate. }
  cbv zeta. split; [|split; [|split; [exact Mlat | split; [exact Mlon | split]]]].
  - unfold lat_col. rewrite last_column_page by (vm_compute; reflexivity).
    rewrite Cols, last_column_app.
    assert (E : last_column (PyStr.contains "lat") ["lat"; "lon"] = Some "lat")
      by (vm_compute; reflexivity).
    rewrite E. reflexivity.
  - unfold lon_col. rewrite last_column_page by (vm_compute; reflexivity).
    rewrite Cols, last_column_app.
    assert (E : last_column (fun c => PyStr.contains "lon" c || PyStr.contains "lng" c)
                            ["lat"; "lon"] = Some "lon")
      by (vm_compute; reflexivity).
    rewrite E. reflexivity.
  - intros df_ref Href Located.
    apply map_coordinates_to_region_numeric; assumption.
  - intros df_ref Empty. unfold map_coordinates_to_region. rewrite Empty.
    pose proof (length_columns_page g a d3) as Len.
    rewrite Cols, length_app in Len. cbn [length] in Len.
    change (columns (dropna ["lat"; "lon"]
                      (with_short_names (passing g a source_order (finish_load d3)))))
      with (columns (with_short_names (passing g a source_order (finish_load d3)))).
    destruct (Nat.eqb_spec
                (length (columns (with_short_names
                                   (passing g a source_order (finish_load d3))))) 1)
      as [E|_]; [lia | reflexivity].
Qed.


(** ** The map *)

Lemma existsb_filter {A : Type} (p f : A -> bool) (l : list A) :
  existsb f (List.filter p l) = existsb (fun x => p x && f x) l.
Proof.
  induction l as [|x l IH]; simpl; [reflexivity|].
  destruct (p x); simpl; rewrite IH; reflexivity.
Qed.

Lemma daerah_col_of_present (d : DataFrame) (col : string) :
  daerah_col_of d = Some col -> has_column col d = true /\ PyStr.truthy col = true.
Proof.
  unfold daerah_col_of. intros H. apply find_some in H. destruct H as (H & C).
  split; [exact C|].
  unfold daerah_candidates in H. simpl in H.
  destruct H as [<-|[<-|[<-|[<-|[]]]]]; reflexivity.
Qed.

Lemma filter_present_nil (d : DataFrame) :
  List.filter (fun col => has_column col d) search_cols = [] ->
  ~ exists col, In col search_cols /\ has_column col d = true.
Proof.
  intros E (col & H & C).
  assert (I : In col (List.filter (fun col => has_column col d) search_cols)).
  { apply filter_In. auto. }
  rewrite E in I. destruct I.
Qed.

(** The two filters of the map as row tests. *)
Lemma map_df_filtered_tests (d : DataFrame) (search_keyword daerah_selected : string) :
  has_column "lat" d && has_column "lon" d = true ->
  is_empty (dropna ["lat"; "lon"] d) = false ->
  match map_df_filtered d search_keyword (daerah_col_of d) daerah_selected with
  | inl e =>
      PyStr.truthy (PyStr.strip search_keyword) = true
      /\ (exists col, In col search_cols /\ has_column col d = true)
      /\ str_contains search_keyword = inl e
  | inr m =>
      exists t1 t2 : Row -> bool,
        m = mkFrame (columns d)
                    (List.filter t2 (List.filter t1 (rows (dropna ["lat"; "lon"] d))))
        /\ (forall r, t1 r = true <-> search_ok d search_keyword r)
        /\ (forall r, t2 r = true <-> region_ok d daerah_selected r)
  end.
Proof.
  intros HC EM. unfold map_df_filtered. rewrite HC, EM.
  set (m0 := dropna ["lat"; "lon"] d).
  change (fun col => has_column col m0) with (fun col => has_column col d).
  assert (Region : forall m1 : DataFrame,
            columns m1 = columns d ->
            exists t2 : Row -> bool,
              match daerah_col_of d with
              | Some col =>
                  if PyStr.truthy col && negb (String.eqb daerah_selected "All") then
                    match getcol col m1 with
                    | inl e => inl e
                    | inr ser =>
                        inr (getitem_mask (map (cell_eq_str daerah_selected) ser) m1)
                    end
                  else inr m1
              | None => inr m1
              end = inr (mkFrame (columns d) (List.filter t2 (rows m1)))
              /\ forall r, t2 r = true <-> region_ok d daerah_selected r).
  { intros m1 C1. unfold region_ok.
    destruct (daerah_col_of d) as [col|] eqn:DC.
    - destruct (daerah_col_of_present d col DC) as (P & T). rewrite T. cbn [andb].
      destruct (String.eqb_spec daerah_selected "All") as [A|A]; cbn [negb].
      + exists (fun _ => true). split.
        * rewrite filter_all, <- C1. destruct m1; reflexivity.
        * intros r. split; [intros _ col' _ N; contradiction | reflexivity].
      + exists (fun r => cell_eq_str daerah_selected (get col r)). split.
        * unfold getcol, has_column. rewrite C1. fold (has_column col d). rewrite P.
          unfold getitem_mask, column. rewrite map_map, C1.
          rewrite (take_mask_map (fun r => cell_eq_str daerah_selected (get col r))).
          reflexivity.
        * intros r. rewrite cell_eq_str_true. split.
          -- intros E col' H _. injection H as <-. exact E.
          -- intros H. apply H; [reflexivity | exact A].
    - exists (fun _ => true). split.
      + rewrite filter_all, <- C1. destruct m1; reflexivity.
      + intros r. split; [intros _ col' H; discriminate H | reflexivity]. }
  destruct (PyStr.truthy (PyStr.strip search_keyword)) eqn:T.
  - destruct (List.filter (fun col => has_column col d) search_cols) as [|c0 cs] eqn:FC.
    + destruct (Region m0 eq_refl) as (t2 & -> & R2).
      exists (fun _ => true), t2. rewrite filter_all. split; [reflexivity|].
      split; [|exact R2]. intros r. split; [|reflexivity].
      intros _ _ X. destruct (filter_present_nil d FC X).
    + assert (X : exists col, In col search_cols /\ has_column col d = true).
      { exists c0. apply (filter_In (fun col => has_column col d)).
        rewrite FC. left. reflexivity. }
      destruct (str_contains search_keyword) as [e|found] eqn:SC.
      * split; [reflexivity|]. split; [exact X | reflexivity].
      * set (m1 := getitem_mask _ m0).
        destruct (Region m1 eq_refl) as (t2 & -> & R2).
        exists (keyword_hit found d), t2. split; [|split; [|exact R2]].
        -- f_equal. f_equal. unfold m1, getitem_mask. cbn [rows].
           rewrite <- FC. rewrite <- take_mask_map. f_equal.
           apply map_ext. intros r. unfold keyword_hit. apply existsb_filter.
        -- intros r. unfold search_ok. rewrite SC. split.
           ++ intros H _ _. exists found. auto.
           ++ intros H. destruct (H T X) as (found' & E & K).
              injection E as <-. exact K.
  - destruct (Region m0 eq_refl) as (t2 & -> & R2).
    exists (fun _ => true), t2. rewrite filter_all. split; [reflexivity|].
    split; [|exact R2]. intros r. split; [|reflexivity].
    intros _ D. congruence.
Qed.

(** X10. The records on the map, whatever the view, the keyword and the
    region chosen, the region column being the first of "Daerah",
    "Kabupaten/Kota", "Provinsi" and "Nama Daerah" the view has.  The
    filtering of [map_df] raises only when the keyword is searched and
    does not compile as a pattern, never for a missing column.  The map
    has at most 600 records, taken from the view in its order; each has
    both coordinates, is a hit of the keyword and lies in the chosen
    region; and when the map has fewer than 600 records it has every
    such record of the view. *)
Theorem map_df_shows (d : DataFrame) (search_keyword daerah_selected : string) :
  match map_df d search_keyword (daerah_col_of d) daerah_selected with
  | inl e =>
      e = ReError search_keyword
      /\ PyStr.truthy (PyStr.strip search_keyword) = true
      /\ plain_pattern search_keyword = false
      /\ re_compile search_keyword = None
  | inr m =>
      (length (rows m) <= 600)%nat
      /\ sublist (rows m) (rows d)
      /\ (forall r, In r (rows m) ->
            isna (get "lat" r) = false /\ isna (get "lon" r) = false
            /\ search_ok d search_keyword r /\ region_ok d daerah_selected r)
      /\ ((length (rows m) < 600)%nat ->
          forall r, In r (rows d) ->
            has_column "lat" d = true -> has_column "lon" d = true ->
            isna (get "lat" r) = false -> isna (get "lon" r) = false ->
            search_ok d search_keyword r -> region_ok d daerah_selected r ->
            In r (rows m))
  end.
Proof.
  unfold map_df.
  destruct (has_column "lat" d && has_column "lon" d) eqn:HC.
  2: { unfold map_df_filtered. rewrite HC. cbn.
       split; [lia|]. split; [apply sublist_nil_l|]. split; [intros r []|].
       intros _ r _ H1 H2. rewrite H1, H2 in HC. discriminate HC. }
  assert (In0 : forall r, In r (rows (dropna ["lat"; "lon"] d))
                          <-> In r (rows d)
                              /\ isna (get "lat" r) = false
                              /\ isna (get "lon" r) = false).
  { intros r. cbn [dropna rows forallb]. rewrite filter_In, andb_true_r, andb_true_iff,
      !negb_true_iff. reflexivity. }
  destruct (is_empty (dropna ["lat"; "lon"] d)) eqn:EM.
  { assert (E0 : rows (dropna ["lat"; "lon"] d) = []).
    { unfold is_empty in EM. change (columns (dropna ["lat"; "lon"] d)) with (columns d) in EM.
      apply andb_prop in HC. destruct HC as (HC & _). unfold has_column in HC.
      destruct (columns d); [discriminate HC|].
      destruct (rows (dropna ["lat"; "lon"] d)); [reflexivity | discriminate EM]. }
    unfold map_df_filtered. rewrite HC, EM. unfold head. cbn [rows]. rewrite E0.
    cbn. split; [lia|]. split; [apply sublist_nil_l|]. split; [intros r []|].
    intros _ r Hr _ _ H1 H2 _ _.
    assert (I : In r (rows (dropna ["lat"; "lon"] d))) by (apply In0; auto).
    rewrite E0 in I. exact I. }
  pose proof (map_df_filtered_tests d search_keyword daerah_selected HC EM) as M.
  destruct (map_df_filtered d search_keyword (daerah_col_of d) daerah_selected)
    as [e|m].
  { destruct M as (T & _ & SC). unfold str_contains in SC.
    destruct (plain_pattern search_keyword); [discriminate SC|].
    destruct (re_compile search_keyword); [discriminate SC|].
    injection SC as <-. auto. }
  destruct M as (t1 & t2 & -> & R1 & R2). unfold head. cbn [rows columns].
  set (l := List.filter t2 (List.filter t1 (rows (dropna ["lat"; "lon"] d)))).
  assert (Inl : forall r, In r l
                          <-> In r (rows (dropna ["lat"; "lon"] d))
                              /\ search_ok d search_keyword r
                              /\ region_ok d daerah_selected r).
  { intros r. unfold l. rewrite !filter_In, R1, R2. tauto. }
  split; [apply List.firstn_le_length|]. split; [|split].
  - transitivity l; [apply sublist_take|].
    unfold l. etransitivity; [apply filter_sublist|].
    etransitivity; [apply filter_sublist|]. apply (filter_sublist _ (rows d)).
  - intros r Hr.
    assert (Hl : In r l)
      by (rewrite <- (firstn_skipn 600 l); apply in_or_app; left; exact Hr).
    apply Inl in Hl. destruct Hl as (Hl & S & R). clear Hr. rename Hl into Hr.
    apply In0 in Hr. tauto.
  - intros Lt r Hr H1 H2 N1 N2 S R.
    assert (E : firstn 600 l = l).
    { apply firstn_all2. rewrite length_firstn in Lt. lia. }
    rewrite E. apply Inl. split; [apply In0; auto | auto].
Qed.


(** X11. The colour of a record on the map is read from its kind in
    lower case: green when "digital" occurs in it, orange when "non"
    occurs and "digital" does not, gray otherwise.  A record of kind
    "Non Digital", in any letter case, is therefore green, not orange. *)
Theorem marker_color_cases (map_df : DataFrame) (row : Row) :
  let jenis := PyStr.lower (row_get_str map_df "Jenis" "" row) in
  (marker_color map_df row = "green" <-> substring "digital" jenis)
  /\ (marker_color map_df row = "orange"
      <-> substring "non" jenis /\ ~ substring "digital" jenis)
  /\ (marker_color map_df row = "gray"
      <-> ~ substring "non" jenis /\ ~ substring "digital" jenis)
  /\ (forall s, has_column "Jenis" map_df = true -> get "Jenis" row = Str s ->
                PyStr.lower s = "non digital" ->
                marker_color map_df row = "green").
Proof.
  intros jenis. unfold marker_color. fold jenis.
  rewrite <- !contains_spec.
  split; [|split; [|split]].
  - destruct (PyStr.contains "digital" jenis); [split; reflexivity|].
    destruct (PyStr.contains "non" jenis); split; discriminate.
  - destruct (PyStr.contains "digital" jenis).
    + split; [discriminate | intros [_ H]; congruence].
    + destruct (PyStr.contains "non" jenis).
      * split; [intros _; split; [reflexivity | discriminate] | reflexivity].
      * split; [discriminate | intros [H _]; discriminate H].
  - destruct (PyStr.contains "digital" jenis).
    + split; [discriminate | intros [_ H]; congruence].
    + destruct (PyStr.contains "non" jenis).
      * split; [discriminate | intros [H _]; congruence].
      * split; [intros _; split; discriminate | reflexivity].
  - intros s H E L. unfold jenis, row_get_str. rewrite H, E. cbn [astype_str].
    rewrite L. reflexivity.
Qed.

(** ** Combinations *)

Lemma combinations_zero {A : Type} (l : list A) : combinations l 0 = [[]].
Proof. destruct l; reflexivity. Qed.

Lemma combinations_in {A : Type} (l : list A) : forall (r : nat) (c : list A),
  In c (combinations l r) -> length c = r /\ sublist c l.
Proof.
  induction l as [|x l IH]; intros [|r] c H; simpl in H.
  - destruct H as [<-|[]]. split; [reflexivity | constructor].
  - destruct H.
  - destruct H as [<-|[]]. split; [reflexivity | apply sublist_nil_l].
  - apply in_app_or in H. destruct H as [H|H].
    + apply in_map_iff in H. destruct H as (c' & <- & H).
      destruct (IH _ _ H) as (L & S). split; [simpl; lia | apply sublist_skip, S].
    + destruct (IH _ _ H) as (L & S). split; [exact L | apply sublist_cons, S].
Qed.

Lemma combinations_one_length {A : Type} (l : list A) :
  length (combinations l 1) = length l.
Proof.
  induction l as [|x l IH]; [reflexivity|].
  cbn [combinations]. rewrite length_app, length_map, combinations_zero, IH.
  reflexivity.
Qed.

(** The number of pairs. *)
Lemma combinations_two_length {A : Type} (l : list A) :
  (length (combinations l 2) * 2 = length l * (length l - 1))%nat.
Proof.
  induction l as [|x l IH]; [reflexivity|].
  cbn [combinations]. rewrite length_app, length_map, combinations_one_length.
  cbn [length]. nia.
Qed.

Lemma combinations_nodup {A : Type} (l : list A) :
  List.NoDup l -> forall r, List.NoDup (combinations l r).
Proof.
  induction 1 as [|x l Hx N IH]; intros [|r]; simpl;
    try (repeat constructor; intros []).
  apply List.NoDup_app.
  - apply NoDup_map_NoDup_ForallPairs; [|apply IH].
    intros c1 c2 _ _ E. congruence.
  - apply IH.
  - intros c H1 H2. apply in_map_iff in H1.
    destruct H1 as (c' & <- & _). apply combinations_in in H2.
    destruct H2 as (_ & S). apply Hx.
    apply list_elem_of_In. eapply elem_of_sublist; [|exact S]. left.
Qed.

Lemma flat_map_combinations_nodup {A : Type} (l : list A) (rs : list nat) :
  List.NoDup l -> List.NoDup rs -> List.NoDup (flat_map (combinations l) rs).
Proof.
  intros N. induction 1 as [|r rs Hr _ IH]; simpl; [constructor|].
  apply List.NoDup_app.
  - apply combinations_nodup, N.
  - exact IH.
  - intros c H1 H2. apply combinations_in in H1.
    apply in_flat_map in H2. destruct H2 as (r' & Hr' & H2).
    apply combinations_in in H2. apply Hr. destruct H1 as (<- & _).
    destruct H2 as (-> & _). exact Hr'.
Qed.

(** X12. With two to five innovations selected, the combinations sent
    for advice are at most [max_comb]; each is a sub-sequence of the
    selection with at least two members; none is sent twice when the
    selection has no repetition; and as long as [max_comb] is not above
    the number of pairs, n(n-1)/2, exactly [max_comb] combinations are
    sent and all of them are pairs.  With five selected that number is
    10, the top of the slider: no larger group is ever analysed. *)
Theorem collaborations_analysed (selected_inovasi : list string) (max_comb : nat) :
  (2 <= length selected_inovasi <= 5)%nat ->
  exists sent,
    collaborations selected_inovasi max_comb = Analysed sent
    /\ (length sent <= max_comb)%nat
    /\ (forall c, In c sent ->
          sublist c selected_inovasi
          /\ (2 <= length c <= length selected_inovasi)%nat)
    /\ (List.NoDup selected_inovasi -> List.NoDup sent)
    /\ ((max_comb * 2 <= length selected_inovasi * (length selected_inovasi - 1))%nat ->
        length sent = max_comb /\ forall c, In c sent -> length c = 2%nat).
Proof.
  intros (L2 & L5). unfold collaborations.
  destruct selected_inovasi as [|x0 sel0] eqn:E; [simpl in L2; lia|].
  rewrite <- E in *. clear E x0 sel0.
  destruct (Nat.ltb_spec (length selected_inovasi) 2) as [H|_]; [lia|].
  destruct (Nat.ltb_spec 5 (length selected_inovasi)) as [H|_]; [lia|].
  eexists. split; [reflexivity|].
  assert (All : forall c, In c (all_combinations selected_inovasi) ->
                  sublist c selected_inovasi
                  /\ (2 <= length c <= length selected_inovasi)%nat).
  { intros c H. unfold all_combinations in H. apply in_flat_map in H.
    destruct H as (r & Hr & H). apply in_seq in Hr.
    apply combinations_in in H. destruct H as (<- & S).
    split; [exact S|]. apply sublist_length in S. lia. }
  assert (Sub : forall c, In c (firstn max_comb (all_combinations selected_inovasi)) ->
                  In c (all_combinations selected_inovasi)).
  { intros c H. rewrite <- (firstn_skipn max_comb (all_combinations selected_inovasi)).
    apply in_or_app. left. exact H. }
  split; [apply List.firstn_le_length|]. split; [|split].
  - intros c H. apply All, Sub, H.
  - intros N.
    apply (NoDup_app_remove_r _ (skipn max_comb (all_combinations selected_inovasi))).
    rewrite firstn_skipn.
    apply flat_map_combinations_nodup; [exact N | apply List.seq_NoDup].
  - intros M.
    assert (P : (max_comb <= length (combinations selected_inovasi 2))%nat).
    { pose proof (combinations_two_length selected_inovasi). nia. }
    assert (F : firstn max_comb (all_combinations selected_inovasi)
                = firstn max_comb (combinations selected_inovasi 2)).
    { unfold all_combinations.
      replace (length selected_inovasi + 1 - 2)%nat
        with (S (length selected_inovasi - 2)) by lia.
      cbn [seq flat_map]. rewrite firstn_app.
      replace (max_comb - length (combinations selected_inovasi 2))%nat with 0%nat by lia.
      cbn [firstn]. apply app_nil_r. }
    rewrite F. split.
    + rewrite length_firstn. lia.
    + intros c H.
      assert (H' : In c (combinations selected_inovasi 2)).
      { rewrite <- (firstn_skipn max_comb (combinations selected_inovasi 2)).
        apply in_or_app. left. exact H. }
      apply combinations_in in H'. apply H'.
Qed.


(** ** The sample table *)

Lemma get_projected (cols : list string) (r : Row) (l : nat) (c : string) :
  In c cols ->
  get c (mkRow l (list_to_map (map (fun c => (c, get c r)) cols))) = get c r.
Proof.
  intros H. unfold get at 1. cbn [cells].
  induction cols as [|c0 cols IH]; [destruct H|].
  cbn [map list_to_map foldr]. destruct (String.eqb_spec c0 c) as [->|N].
  - rewrite lookup_insert_eq. reflexivity.
  - rewrite lookup_insert_ne by exact N. apply IH.
    destruct H as [H|H]; [contradiction | exact H].
Qed.

Lemma cell_before_total (a b : cell) : cell_before a b = true \/ cell_before b a = true.
Proof.
  destruct a as [| |p| |], b as [| |q| |]; simpl; auto.
  destruct (Qlt_le_dec p q) as [H|H].
  - right. apply Qle_bool_iff. lra.
  - left. apply Qle_bool_iff. exact H.
Qed.

Lemma insert_desc_permutation (c : string) (r : Row) (l : list Row) :
  Permutation (insert_desc c r l) (r :: l).
Proof.
  induction l as [|x l IH]; simpl; [reflexivity|].
  destruct (cell_before _ _); [reflexivity|].
  rewrite IH. apply perm_swap.
Qed.

Lemma sort_values_desc_permutation (c : string) (l : list Row) :
  Permutation (sort_values_desc c l) l.
Proof.
  induction l as [|x l IH]; simpl; [reflexivity|].
  rewrite insert_desc_permutation, IH. reflexivity.
Qed.

Lemma insert_desc_sorted (c : string) (r : Row) (l : list Row) :
  Sorted (fun a b => cell_before (get c a) (get c b) = true) l ->
  Sorted (fun a b => cell_before (get c a) (get c b) = true) (insert_desc c r l).
Proof.
  induction l as [|x l IH]; intros S; simpl.
  - repeat constructor.
  - destruct (cell_before (get c r) (get c x)) eqn:L.
    + constructor; [exact S | constructor; exact L].
    + assert (L' : cell_before (get c x) (get c r) = true).
      { destruct (cell_before_total (get c r) (get c x)) as [H|H];
          [congruence | exact H]. }
      inversion S as [|? ? S' Hd]; subst.
      constructor; [apply IH, S'|].
      destruct l as [|y l]; simpl; [constructor; exact L'|].
      destruct (cell_before (get c r) (get c y)); constructor; [exact L'|].
      inversion Hd; assumption.
Qed.

Lemma sort_values_desc_sorted (c : string) (l : list Row) :
  Sorted (fun a b => cell_before (get c a) (get c b) = true) (sort_values_desc c l).
Proof.
  induction l as [|x l IH]; simpl; [constructor|].
  apply insert_desc_sorted, IH.
Qed.

Lemma sorted_relabel (c : string) (l : list Row) : forall f : nat -> nat,
  Sorted (fun a b => cell_before (get c a) (get c b) = true) l ->
  Sorted (fun a b => cell_before (get c a) (get c b) = true)
         (imap (fun i r => mkRow (f i) (cells r)) l).
Proof.
  induction l as [|x l IH]; intros f Hs; [constructor|].
  inversion Hs as [|? ? Hs' Hd]; subst. cbn [imap].
  constructor; [apply (IH (fun i => f (S i))), Hs'|].
  destruct l as [|y l]; cbn [imap]; constructor.
  inversion Hd; assumption.
Qed.

Lemma labels_relabel (l : list Row) : forall k : nat,
  map label (imap (fun i r => mkRow (k + i + 1) (cells r)) l) = seq (k + 1) (length l).
Proof.
  induction l as [|x l IH]; intros k; [reflexivity|].
  cbn [imap map length seq label]. f_equal; [lia|].
  etransitivity; [|exact (IH (S k))].
  f_equal. apply imap_ext. intros i r _. simpl. f_equal. lia.
Qed.

Lemma mem_filter_present (c : string) (p : string -> bool) (l : list string) :
  PyStr.mem c (List.filter p l) = PyStr.mem c l && p c.
Proof.
  unfold PyStr.mem. induction l as [|x l IH]; simpl; [reflexivity|].
  destruct (p x) eqn:P; simpl; rewrite IH.
  - destruct (String.eqb_spec c x) as [->|N]; simpl; [rewrite P|]; reflexivity.
  - destruct (String.eqb_spec c x) as [->|N]; simpl; [|reflexivity].
    rewrite P, andb_false_r. reflexivity.
Qed.

Lemma projected_relabel (cols : list string) (l : list Row) : forall f : nat -> nat,
  Forall2 (fun r r' => forall c, In c cols -> get c r' = get c r) l
          (imap (fun i r => mkRow (f i) (cells r))
                (map (fun r => mkRow (label r)
                                     (list_to_map (map (fun c => (c, get c r)) cols)))
                     l)).
Proof.
  induction l as [|r l IH]; intros f; [constructor|].
  cbn [map imap]. constructor; [|apply (IH (fun i => f (S i)))].
  intros c Hc. apply (get_projected cols r (f 0%nat) c Hc).
Qed.

Lemma cell_before_trans (a b c : cell) :
  cell_before a b = true -> cell_before b c = true -> cell_before a c = true.
Proof.
  destruct a as [| |p| |], b as [| |q| |], c as [| |r| |]; simpl;
    try reflexivity; try discriminate.
  rewrite !Qle_bool_iff. intros H1 H2. apply (Qle_trans _ q); assumption.
Qed.

Lemma strongly_sorted_lookup {A : Type} (R : A -> A -> Prop) (l : list A) :
  StronglySorted R l ->
  forall (i j : nat) (a b : A),
    (i < j)%nat -> l !! i = Some a -> l !! j = Some b -> R a b.
Proof.
  induction 1 as [|x l Hs IH Hx]; intros i j a b Lt Hi Hj.
  - destruct i; discriminate Hi.
  - destruct j as [|j]; [lia|]. destruct i as [|i]; simpl in Hi, Hj.
    + injection Hi as <-. rewrite List.Forall_forall in Hx. apply Hx.
      apply list_elem_of_In, list_elem_of_lookup. eauto.
    + apply (IH i j); [lia | assumption | assumption].
Qed.

(** X13. The sample table of a view that is not empty.  Without a
    "Kematangan" column the sort raises [KeyError].  With it, the table
    has those of "Judul Inovasi", "Admin OPD", "Kematangan" and "Tahapan
    Inovasi" that the view has, in this order; its rows are numbered 1,
    2, ...; they are the rows of the view, each once, with the cells of
    these columns; and on a float column, of two rows of the table the
    lower one has no larger maturity than the upper one, and a row below
    a row without maturity has none either. *)
Theorem df_tampil_sorted (d : DataFrame) :
  is_empty d = false ->
  match df_tampil d with
  | None => False
  | Some (inl e) => e = KeyError "Kematangan" /\ has_column "Kematangan" d = false
  | Some (inr t) =>
      has_column "Kematangan" d = true
      /\ columns t = List.filter (fun c => has_column c d) sample_cols
      /\ map label (rows t) = seq 1 (length (rows d))
      /\ (exists l, Permutation l (rows d)
                    /\ Forall2 (fun r r' => forall c, In c (columns t) ->
                                                      get c r' = get c r)
                               l (rows t))
      /\ (numeric_column "Kematangan" d ->
          forall (i j : nat) (upper lower : Row),
            (i < j)%nat -> rows t !! i = Some upper -> rows t !! j = Some lower ->
            (forall p q, get "Kematangan" upper = Num p ->
                         get "Kematangan" lower = Num q -> (q <= p)%Q)
            /\ (get "Kematangan" upper = NaN -> get "Kematangan" lower = NaN))
  end.
Proof.
  intros NE. unfold df_tampil. rewrite NE.
  set (cols := List.filter (fun c => has_column c d) sample_cols).
  assert (K : has_column "Kematangan" (getitem_cols cols d) = has_column "Kematangan" d).
  { unfold has_column at 1. cbn [getitem_cols columns]. unfold cols.
    rewrite mem_filter_present. reflexivity. }
  rewrite K. destruct (has_column "Kematangan" d) eqn:H; [|split; reflexivity].
  split; [reflexivity|]. split; [reflexivity|]. cbn [rows columns].
  set (proj := fun r => mkRow (label r) (list_to_map (map (fun c => (c, get c r)) cols))).
  change (rows (getitem_cols cols d)) with (map proj (rows d)).
  split; [|split].
  - rewrite (labels_relabel _ 0).
    rewrite (Permutation_length (sort_values_desc_permutation _ _)), length_map.
    reflexivity.
  - destruct (Permutation_map_inv proj (rows d)
                (sort_values_desc_permutation "Kematangan" (map proj (rows d))))
      as (l & E & P).
    exists l. split; [symmetry; exact P|]. rewrite E.
    apply (projected_relabel cols l (fun i => (i + 1)%nat)).
  - intros N i j upper lower Lt Hi Hj.
    assert (B : cell_before (get "Kematangan" upper) (get "Kematangan" lower) = true).
    { refine (strongly_sorted_lookup
                (fun a b => cell_before (get "Kematangan" a) (get "Kematangan" b) = true)
                _ _ i j upper lower Lt Hi Hj).
      apply Sorted_StronglySorted.
      - intros x y z. apply cell_before_trans.
      - apply (sorted_relabel "Kematangan" _ (fun i => (i + 1)%nat)).
        apply sort_values_desc_sorted. }
    assert (Nl : numeric_cell (get "Kematangan" lower)).
    { rewrite list_lookup_imap in Hj.
      destruct (sort_values_desc "Kematangan" (map proj (rows d)) !! j) as [r|] eqn:E;
        [|discriminate Hj].
      cbn in Hj. injection Hj as <-.
      change (numeric_cell (get "Kematangan" r)).
      assert (Hr : In r (map proj (rows d))).
      { apply (Permutation_in _ (sort_values_desc_permutation "Kematangan" _)).
        apply list_elem_of_In, list_elem_of_lookup. eauto. }
      apply in_map_iff in Hr. destruct Hr as (r0 & <- & Hr0).
      unfold proj. rewrite get_projected.
      - unfold numeric_column in N. rewrite List.Forall_forall in N. apply N, Hr0.
      - apply filter_In. split; [simpl; auto | exact H]. }
    split.
    + intros p q Ea Eb. rewrite Ea, Eb in B. apply Qle_bool_iff, B.
    + intros Ea. rewrite Ea in B.
      destruct (get "Kematangan" lower); simpl in Nl, B;
        try contradiction; [reflexivity | discriminate B].
Qed.


Lemma has_column_coordinate_step (c : string) (d d3 : DataFrame) :
  c <> "lat" -> c <> "lon" ->
  coordinate_step d = inr d3 -> has_column c d3 = has_column c d.
Proof.
  intros H1 H2. unfold coordinate_step, split_coordinates.
  destruct (has_column "Koordinat" d).
  - destruct (1 <=? coords_width d)%nat; [|discriminate].
    destruct (2 <=? coords_width d)%nat; [|discriminate].
    intros E. apply (f_equal (fun x => match x with inr y => y | inl _ => d end)) in E.
    cbv beta iota in E. subst d3.
    rewrite !has_column_assign_ne by congruence. reflexivity.
  - intros E. injection E as <-. rewrite !has_column_coerce. reflexivity.
Qed.

(** X14. A sheet with rows, of ASCII header names, distinct once
    stripped, none of them "Kematangan".  Its load raises nothing but the
    [KeyError] of a "Koordinat" column without a comma; and when it
    loads, whatever the filters are, the page raises [KeyError] at the
    sample table as soon as the view is not empty. *)
Theorem page_needs_maturity_column (sh : Sheet) (w : world) :
  plain_header sh ->
  sheet_empty sh = false ->
  PyStr.mem "Kematangan" (map PyStr.strip (header sh)) = false ->
  match load_data (inr sh) w with
  | (inl e, _) =>
      e = KeyError "1"
      /\ comma_free (drop_duplicates (frame_of_sheet (map PyStr.strip (header sh)) sh))
  | (inr df, _) =>
      forall (g : globals) (a : filter_args),
        is_empty (passing g a source_order df) = false ->
        df_tampil (passing g a source_order df) = Some (inl (KeyError "Kematangan"))
  end.
Proof.
  intros _ NE K.
  destruct (load_data (inr sh) w) as [[e|df] w'] eqn:L.
  { destruct (load_data_raises _ _ _ _ L) as (-> & sh' & E & _ & CF).
    injection E as <-. split; [reflexivity | exact CF]. }
  intros g a V.
  destruct (load_data_of_sheet _ _ _ _ L NE) as (d3 & C & ->).
  assert (H : has_column "Kematangan" (passing g a source_order (finish_load d3)) = false).
  { unfold passing, has_column. cbn [columns]. fold (has_column "Kematangan" (finish_load d3)).
    rewrite has_column_finish_load by discriminate.
    rewrite (has_column_coordinate_step "Kematangan" _ _ ltac:(discriminate)
               ltac:(discriminate) C).
    unfold has_column. rewrite columns_before_coordinates. exact K. }
  unfold df_tampil. rewrite V.
  unfold has_column at 1. cbn [getitem_cols columns].
  rewrite mem_filter_present, H, andb_false_r. reflexivity.
Qed.

(** ** The table to download *)

Lemma filter_absent (c : string) (l : list string) :
  PyStr.mem c l = false -> List.filter (fun c' => negb (String.eqb c' c)) l = l.
Proof.
  unfold PyStr.mem. induction l as [|x l IH]; simpl; [reflexivity|].
  intros H. apply orb_false_elim in H. destruct H as (H1 & H2).
  rewrite String.eqb_sym, H1. simpl. rewrite IH by exact H2. reflexivity.
Qed.

(** X15. The table shown and downloaded at the end of the page has the
    rows of the view in their order, relabelled 0, 1, ...; its first
    column is "No" and holds 1, 2, ...; the other columns are those of
    the view without any "No" it had, with their cells. *)
Theorem df_display_numbers (d : DataFrame) :
  columns (df_display d)
  = "No" :: List.filter (fun c => negb (String.eqb c "No")) (columns d)
  /\ length (rows (df_display d)) = length (rows d)
  /\ forall (i : nat) (r : Row),
       rows d !! i = Some r ->
       exists r',
         rows (df_display d) !! i = Some r'
         /\ label r' = i
         /\ get "No" r' = Num (inject_Z (Z.of_nat i + 1))
         /\ forall c, c <> "No" -> get c r' = get c r.
Proof.
  unfold df_display.
  set (d0 := mkFrame (columns d) (imap (fun i r => mkRow i (cells r)) (rows d))).
  change (has_column "No" d0) with (has_column "No" d).
  destruct (has_column "No" d) eqn:H.
  - split; [reflexivity|]. split.
    + cbn [rows drop_column d0]. rewrite length_imap, length_map, length_imap. reflexivity.
    + intros i r Hr. cbn [rows drop_column d0].
      rewrite list_lookup_imap, list_lookup_fmap, list_lookup_imap, Hr. cbn.
      eexists. split; [reflexivity|]. split; [reflexivity|]. split.
      * apply get_set_eq.
      * intros c N. rewrite get_set_ne by congruence. unfold get. cbn [cells].
        rewrite lookup_delete_ne by congruence. reflexivity.
  - split; [|split].
    + cbn [columns d0]. rewrite filter_absent by exact H. reflexivity.
    + cbn [rows d0]. rewrite !length_imap. reflexivity.
    + intros i r Hr. cbn [rows d0].
      rewrite !list_lookup_imap, Hr. cbn.
      eexists. split; [reflexivity|]. split; [reflexivity|]. split.
      * apply get_set_eq.
      * intros c N. rewrite get_set_ne by congruence. reflexivity.
Qed.

(** ** The metric *)

Lemma length_passing (g : globals) (a : filter_args) (order : list dimension)
    (d : DataFrame) :
  (length (rows (passing g a order d)) <= length (rows d))%nat.
Proof. rewrite rows_passing. apply filter_length_le. Qed.

(** X16. The value of [persentase], the share of the selected
    innovations before it is formatted to one decimal for the page, is
    between 0 and 100 whatever the filters are, above 0 when the view
    has a row, and 100 exactly when no row of the loaded frame is
    filtered out. *)
Theorem persentase_range (g : globals) (a : filter_args) (order : list dimension)
    (d : DataFrame) :
  let total_inovasi := length (rows d) in
  let jumlah_terpilih := length (rows (passing g a order d)) in
  (0 <= persentase total_inovasi jumlah_terpilih <= 100)%Q
  /\ ((0 < jumlah_terpilih)%nat -> (0 < persentase total_inovasi jumlah_terpilih)%Q)
  /\ ((persentase total_inovasi jumlah_terpilih == 100)%Q
      <-> (0 < total_inovasi)%nat /\ jumlah_terpilih = total_inovasi).
Proof.
  intros total sel. pose proof (length_passing g a order d) as L.
  fold total sel in L. clearbody total sel. unfold persentase.
  destruct total as [|n]; simpl.
  - split; [split; [apply Qle_refl | discriminate]|].
    split; [intros H; lia|]. split; [discriminate | intros [H _]; lia].
  - unfold Qle, Qlt, Qeq, Qdiv, Qmult, Qinv, inject_Z. simpl.
    split; [split; lia|]. split; [lia|]. split; intros H; [split; lia | lia].
Qed.


(** ** Filtering again, filtering more *)

Lemma filter_idem (p : Row -> bool) (l : list Row) :
  List.filter p (List.filter p l) = List.filter p l.
Proof.
  rewrite filter_twice. apply filter_ext. intros r. apply andb_diag.
Qed.

Lemma passing_idem g a order d :
  passing g a order (passing g a order d) = passing g a order d.
Proof.
  unfold passing. cbn [columns rows]. rewrite filter_idem. reflexivity.
Qed.

Lemma filter_sublist_impl (p q : Row -> bool) (l : list Row) :
  (forall r, In r l -> p r = true -> q r = true) ->
  sublist (List.filter p l) (List.filter q l).
Proof.
  induction l as [|r l IH]; intros H; simpl; [constructor|].
  assert (IH' : sublist (List.filter p l) (List.filter q l)).
  { apply IH. intros r' Hr'. apply H. right. exact Hr'. }
  destruct (p r) eqn:P.
  - rewrite (H r (or_introl eq_refl) P). apply sublist_skip, IH'.
  - destruct (q r); [apply sublist_cons, IH' | exact IH'].
Qed.

Lemma mem_in (s : string) (l : list string) : PyStr.mem s l = true <-> In s l.
Proof.
  unfold PyStr.mem. rewrite existsb_exists. split.
  - intros (x & Hx & E). apply String.eqb_eq in E. subst x. exact Hx.
  - intros H. exists s. split; [exact H | apply String.eqb_refl].
Qed.

Lemma cell_isin_narrower (sel sel' : list string) (c : cell) :
  narrower sel sel' ->
  (if selected sel' then cell_isin sel' c else true) = true ->
  (if selected sel then cell_isin sel c else true) = true.
Proof.
  intros [N | (S' & Sub)] H.
  - rewrite N. reflexivity.
  - rewrite S' in H. destruct (selected sel); [|reflexivity].
    destruct c; try discriminate H. simpl in *.
    apply mem_in, Sub, mem_in, H.
Qed.

Lemma maturity_ge_le (t t' : Z) (c : cell) :
  (t <= t')%Z -> maturity_ge t' c = true -> maturity_ge t c = true.
Proof.
  intros L. destruct c; simpl; try discriminate.
  rewrite !Qle_bool_iff. intros H.
  apply Qle_trans with (inject_Z t'); [|exact H].
  rewrite <- Zle_Qle. exact L.
Qed.

Lemma passes_stricter g a a' cols dim r :
  stricter a a' -> passes g a' cols dim r = true -> passes g a cols dim r = true.
Proof.
  intros (T & J & O & K & U). destruct dim; simpl; try (intros H; exact H).
  - destruct (has "Kematangan" cols); [apply maturity_ge_le, T | reflexivity].
  - destruct (has "Jenis" cols); cbn [andb]; [apply cell_isin_narrower, J | reflexivity].
  - destruct (has "Admin OPD Grouped" cols); cbn [andb];
      [apply cell_isin_narrower, O | reflexivity].
  - rewrite !(andb_comm _ (has "Kategori Admin OPD" cols)).
    destruct (has "Kategori Admin OPD" cols); cbn [andb];
      [apply cell_isin_narrower, K | reflexivity].
  - rewrite !(andb_comm _ (has "Urusan Utama" cols)).
    destruct (has "Urusan Utama" cols); cbn [andb];
      [apply cell_isin_narrower, U | reflexivity].
Qed.

Lemma passing_equally_strict g a a' order d :
  stricter a a' -> stricter a' a -> passing g a' order d = passing g a order d.
Proof.
  intros S S'. unfold passing. f_equal. apply filter_ext. intros r.
  induction order as [|dim order IH]; [reflexivity|].
  cbn [forallb]. rewrite IH. f_equal.
  pose proof (passes_stricter g a a' (columns d) dim r S) as P1.
  pose proof (passes_stricter g a' a (columns d) dim r S') as P2.
  revert P1 P2.
  destruct (passes g a' (columns d) dim r), (passes g a (columns d) dim r);
    intros P1 P2; try reflexivity; [symmetry; apply P1 | apply P2]; reflexivity.
Qed.

(** X17. Filtering the view again with the same settings gives the view
    back: on a frame with a float maturity column, when [apply_filters]
    returns, a second call on its result returns a frame equal to that
    result. *)
Theorem apply_filters_idempotent g a w df d df_filtered w' :
  heap w !! df = Some d ->
  numeric_column "Kematangan" d ->
  apply_filters g df a w = (inr df_filtered, w') ->
  view (apply_filters g df_filtered a w') = heap w' !! df_filtered
  /\ heap w' !! df_filtered = Some (passing g a source_order d).
Proof.
  intros H N R.
  destruct (apply_filters_in_returns _ _ _ _ _ _ _ _ H R) as (H1 & _ & _).
  pose proof (apply_filters_in_view source_order g a w df d H N) as V.
  fold (apply_filters g df a w) in V. rewrite R in V. cbn [view] in V.
  rewrite H1 in V.
  destruct (blocked g (columns d) source_order) eqn:B; [discriminate V|].
  split; [|exact H1].
  unfold apply_filters.
  rewrite (apply_filters_in_view source_order g a w' df_filtered _ H1
             (numeric_column_filter _ _ _ _ N)).
  cbn [passing columns]. rewrite B, H1. f_equal. apply passing_idem.
Qed.

(** X18. A stricter setting of the sidebar never adds a record: when the
    minimum maturity is raised and every multiselect is left as it is,
    narrowed, or switched from filtering nothing (empty, or with "All"
    among its values) to filtering, the rows of the new view are a
    sublist of the rows of the old one.  Two settings each as strict as
    the other give the same view: so a multiselect with "All" among its
    values filters as one set to "All" alone does, that is not at all,
    whatever else is selected with it. *)
Theorem stricter_filters_shrink_view g a a' w df d v v' :
  heap w !! df = Some d ->
  stricter a a' ->
  view (apply_filters g df a w) = Some v ->
  view (apply_filters g df a' w) = Some v' ->
  sublist (rows v') (rows v)
  /\ (stricter a' a -> v' = v).
Proof.
  intros H S V V'.
  destruct (view_returns _ _ V) as (l & w1 & R & H1).
  destruct (view_returns _ _ V') as (l' & w1' & R' & H1').
  destruct (apply_filters_in_returns _ _ _ _ _ _ _ _ H R) as (E & _).
  destruct (apply_filters_in_returns _ _ _ _ _ _ _ _ H R') as (E' & _).
  rewrite H1 in E. rewrite H1' in E'. injection E as ->. injection E' as ->.
  split.
  - rewrite !rows_passing. apply filter_sublist_impl.
    intros r _ P. rewrite forallb_forall in *. intros dim Hd.
    apply (passes_stricter g a a' _ dim r S), P, Hd.
  - intros S'. apply passing_equally_strict; assumption.
Qed.


(** ** The types of the loaded columns *)

Lemma column_kept_finish_load (P : cell -> Prop) (c : string) (d : DataFrame) :
  ~ In c cat_cols -> c <> "Admin OPD Grouped" ->
  Forall (fun r => P (get c r)) (rows d) ->
  Forall (fun r => P (get c r)) (rows (finish_load d)).
Proof.
  intros H1 H2 N. unfold finish_load, cat_cols in *. cbn [fold_left].
  assert (K : Forall (fun r => P (get c r))
                (rows (coerce_column "Daerah" normalize_text
                  (coerce_column "Asta Cipta" normalize_text
                    (coerce_column "Urusan Utama" normalize_text
                      (coerce_column "Kategori Admin OPD" normalize_text
                        (coerce_column "Admin OPD" normalize_text
                          (coerce_column "Bentuk Inovasi" normalize_text
                            (coerce_column "Jenis" normalize_text d))))))))).
  { repeat (apply column_kept_coerce; [intros <-; apply H1; simpl; auto 10|]).
    exact N. }
  destruct (has_column "Admin OPD" _); [|exact K].
  apply column_kept_assign; [congruence | exact K].
Qed.

Lemma column_kept_coordinate_step (P : cell -> Prop) (c : string) (d d3 : DataFrame) :
  c <> "lat" -> c <> "lon" ->
  coordinate_step d = inr d3 ->
  Forall (fun r => P (get c r)) (rows d) ->
  Forall (fun r => P (get c r)) (rows d3).
Proof.
  intros H1 H2. unfold coordinate_step, split_coordinates.
  destruct (has_column "Koordinat" d).
  - destruct (1 <=? coords_width d)%nat; [|discriminate].
    destruct (2 <=? coords_width d)%nat; [|discriminate].
    intros E. apply (f_equal (fun x => match x with inr y => y | inl _ => d end)) in E.
    cbv beta iota in E. subst d3. intros N.
    repeat (apply column_kept_assign; [congruence|]). exact N.
  - intros E. injection E as <-. intros N.
    repeat (apply column_kept_coerce; [congruence|]). exact N.
Qed.

Lemma coordinate_step_numeric (c : string) (d d3 : DataFrame) :
  coordinate_step d = inr d3 ->
  In c ["lat"; "lon"] -> has_column c d3 = true -> numeric_column c d3.
Proof.
  unfold coordinate_step, split_coordinates.
  destruct (has_column "Koordinat" d).
  - destruct (1 <=? coords_width d)%nat; [|discriminate].
    destruct (2 <=? coords_width d)%nat; [|discriminate].
    intros E. apply (f_equal (fun x => match x with inr y => y | inl _ => d end)) in E.
    cbv beta iota in E. subst d3. intros [<-|[<-|[]]] _.
    + apply numeric_column_assign_ne; [discriminate|].
      apply (column_assigned numeric_cell). intros r. apply numeric_cell_to_numeric.
    + apply (column_assigned numeric_cell). intros r. apply numeric_cell_to_numeric.
  - intros E. injection E as <-. intros [<-|[<-|[]]] H.
    + apply numeric_column_coerce_ne; [discriminate|].
      rewrite !has_column_coerce in H.
      apply (column_coerced numeric_cell); [apply numeric_cell_to_numeric | exact H].
    + rewrite has_column_coerce in H.
      apply (column_coerced numeric_cell); [apply numeric_cell_to_numeric | exact H].
Qed.

Lemma date_not_categorical (c : string) :
  In c date_cols -> ~ In c cat_cols /\ c <> "Admin OPD Grouped" /\ c <> "lat" /\ c <> "lon".
Proof.
  unfold date_cols, cat_cols. simpl. intros [<-|[<-|[<-|[]]]];
    (split; [intros H; repeat (destruct H as [H|H]; [discriminate H|]); exact H|]);
    repeat split; discriminate.
Qed.

Lemma maturity_not_categorical :
  ~ In "Kematangan" cat_cols /\ "Kematangan" <> "Admin OPD Grouped".
Proof.
  split; [|discriminate]. unfold cat_cols. simpl. intros H.
  repeat (destruct H as [H|H]; [discriminate H|]). exact H.
Qed.

Lemma zip_names (names : list string) : forall (cs : list cell) (c : string),
  In c (map fst (zip names cs)) -> In c names.
Proof.
  induction names as [|n names IH]; intros [|x cs] c H; simpl in H;
    try (destruct H).
  - left. assumption.
  - right. eapply IH. eassumption.
Qed.

Lemma frame_of_sheet_missing (names : list string) (sh : Sheet) (c : string) :
  has_column c (frame_of_sheet names sh) = false ->
  Forall (fun r => numeric_cell (get c r)) (rows (frame_of_sheet names sh)).
Proof.
  unfold has_column. simpl. intros H. apply mem_false_not_in in H.
  apply List.Forall_forall. intros r Hr.
  apply list_elem_of_In, elem_of_lookup_imap in Hr.
  destruct Hr as (i & cs & -> & _). unfold get. simpl.
  rewrite not_elem_of_list_to_map_1; [exact I|].
  intros Hc. apply H. apply (zip_names names cs). apply list_elem_of_In.
  exact Hc.
Qed.

Lemma numeric_maturity_before_coordinates (sh : Sheet) :
  numeric_column "Kematangan" (loaded_before_coordinates sh).
Proof.
  unfold loaded_before_coordinates, date_cols. cbn [fold_left].
  repeat (apply numeric_column_coerce_ne; [discriminate|]).
  apply numeric_column_coerced. rewrite has_column_drop_duplicates.
  intros A. apply numeric_column_drop_duplicates.
  apply (frame_of_sheet_missing _ _ _ A).
Qed.

(** The date columns of every frame [load_data] returns are typed. *)
Lemma loaded_dates_typed (read : string + Sheet) (w w' : world) (df : DataFrame) :
  load_data read w = (inr df, w') -> dates_typed df.
Proof.
  intros L.
  destruct (load_data_returns _ _ _ _ L) as [-> | (sh & d3 & _ & _ & C & ->)].
  { intros c _ _. constructor. }
  clear L.
  intros c Hc H. destruct (date_not_categorical c Hc) as (N1 & N2 & N3 & N4).
  rewrite has_column_finish_load in H by exact N2.
  rewrite (has_column_coordinate_step c _ _ N3 N4 C) in H.
  apply (column_kept_finish_load timestamp_cell c); [exact N1 | exact N2 |].
  apply (column_kept_coordinate_step timestamp_cell c _ _ N3 N4 C).
  revert H. clear C. unfold loaded_before_coordinates, date_cols in *.
  cbn [fold_left]. rewrite !has_column_coerce. intros H.
  simpl in Hc.
  repeat (destruct Hc as [<-|Hc];
          [repeat (apply (column_kept_coerce timestamp_cell); [discriminate|]);
           apply (column_coerced timestamp_cell);
           [apply to_datetime_shape|];
           rewrite ?has_column_coerce; exact H|]).
  destruct Hc.
Qed.

(** They stay typed under the filters and under the two columns of
    section 2: the Gantt block reads typed dates on every page. *)
Lemma page_dates_typed (read : string + Sheet) (w w' : world) (df : DataFrame)
    (g : globals) (a : filter_args) (order : list dimension) :
  load_data read w = (inr df, w') ->
  dates_typed (passing g a order df)
  /\ dates_typed (with_short_names (passing g a order df)).
Proof.
  intros L. pose proof (loaded_dates_typed _ _ _ _ L) as T.
  assert (P : dates_typed (passing g a order df)).
  { intros c Hc H. change (has_column c (passing g a order df)) with (has_column c df) in H.
    specialize (T c Hc H). rewrite rows_passing.
    rewrite List.Forall_forall in *. intros r Hr. apply filter_In in Hr. apply T, Hr. }
  split; [exact P|].
  unfold with_short_names.
  destruct (has_column "Admin OPD" (passing g a order df)); [|exact P].
  intros c Hc H.
  assert (N : c <> "Kategori Admin OPD" /\ c <> "Nama Pendek OPD").
  { simpl in Hc. destruct Hc as [<-|[<-|[<-|[]]]]; split; discriminate. }
  destruct N as (N1 & N2).
  rewrite !has_column_assign_ne in H by assumption.
  apply (column_kept_assign timestamp_cell); [congruence|].
  apply (column_kept_assign timestamp_cell); [congruence|].
  apply P; assumption.
Qed.

(** X19. The types of the columns of every frame [load_data] returns:
    "Kematangan" holds numbers or missing values only, so the comparison
    with the minimum maturity is one of numbers; each of the three date
    columns that is present holds timestamps or [NaT]; and "lat" and
    "lon", when present, hold numbers or missing values. *)
Theorem load_data_column_types (read : string + Sheet) (w w' : world) (df : DataFrame) :
  load_data read w = (inr df, w') ->
  numeric_column "Kematangan" df
  /\ (forall c, In c date_cols -> has_column c df = true ->
        Forall (fun r => get c r = NaT \/ exists t, get c r = Date t) (rows df))
  /\ (forall c, In c ["lat"; "lon"] -> has_column c df = true -> numeric_column c df).
Proof.
  intros L. pose proof (loaded_dates_typed _ _ _ _ L) as T.
  destruct (load_data_returns _ _ _ _ L) as [-> | (sh & d3 & _ & _ & C & ->)].
  { split; [constructor|]. split; intros c _ _; constructor. }
  clear L. split; [|split].
  - apply numeric_column_finish_load;
      [exact (proj1 (maturity_not_categorical)) | discriminate |].
    apply (column_kept_coordinate_step numeric_cell "Kematangan" _ _
             ltac:(discriminate) ltac:(discriminate) C).
    apply numeric_maturity_before_coordinates.
  - exact T.
  - intros c Hc H.
    assert (N : ~ In c cat_cols /\ c <> "Admin OPD Grouped").
    { unfold cat_cols. simpl. destruct Hc as [<-|[<-|[]]];
        (split; [intros K; repeat (destruct K as [K|K]; [discriminate K|]); exact K
                | discriminate]). }
    destruct N as (N1 & N2).
    rewrite has_column_finish_load in H by exact N2.
    apply numeric_column_finish_load; [exact N1 | exact N2 |].
    apply (coordinate_step_numeric c _ _ C Hc H).
Qed.

End Dashboard.

(** * The development at concrete inputs *)

(** The view of the example frame under {minimum maturity 50, kind
    "Digital"}: the record of maturity 80 alone. *)
Example apply_filters_example :
  view (apply_filters Standin.repr Standin.re_compile globals_at_call 0 args_digital_50
          (world_of frame_maturity))
  = Some (mkFrame ["Kematangan"; "Jenis"]
            [row_of 0 [("Kematangan", Num (80 # 1)); ("Jenis", Str "Digital")]]).
Proof. reflexivity. Qed.

(** At the default threshold the record with no maturity is dropped. *)
Example apply_filters_default_example :
  option_map (fun d => map label (rows d))
    (view (apply_filters Standin.repr Standin.re_compile globals_at_call 0 args_default
             (world_of frame_maturity)))
  = Some [0%nat; 2%nat].
Proof. reflexivity. Qed.

Lemma apply_filters_order_independent_witness :
  view (apply_filters_in Standin.repr Standin.re_compile [Jenis; Kematangan]
          globals_at_call 0 args_digital_50 (world_of frame_maturity))
  = view (apply_filters_in Standin.repr Standin.re_compile [Kematangan; Jenis]
            globals_at_call 0 args_digital_50 (world_of frame_maturity)).
Proof.
  refine (proj1 (apply_filters_order_independent Standin.repr Standin.re_compile
                   globals_at_call args_digital_50 (world_of frame_maturity) 0%nat
                   frame_maturity eq_refl _) _ _ _).
  - unfold numeric_column. simpl. repeat constructor.
  - apply perm_swap.
Defined.

Lemma apply_filters_selects_rows_witness :
  heap (snd (apply_filters Standin.repr Standin.re_compile globals_at_call 0
               args_digital_50 (world_of frame_maturity))) !! 0%nat
  = Some frame_maturity.
Proof.
  apply (proj1 (proj2 (apply_filters_selects_rows Standin.repr Standin.re_compile
                         globals_at_call args_digital_50 (world_of frame_maturity) 0%nat
                         frame_maturity eq_refl))).
Defined.

Lemma maturity_filter_exact_witness :
  view (apply_filters Standin.repr Standin.re_compile globals_at_call 0
          (mkArgs 50 ["All"] ["All"] (Some ["All"]) (Some ["All"]))
          (world_of frame_maturity))
  = Some (mkFrame (columns frame_maturity)
            (List.filter (fun r => maturity_ge 50 (get "Kematangan" r))
                         (rows frame_maturity))).
Proof.
  refine (proj1 (proj2 (maturity_filter_exact Standin.repr Standin.re_compile
                          globals_at_call
                          (mkArgs 50 ["All"] ["All"] (Some ["All"]) (Some ["All"]))
                          (world_of frame_maturity) 0%nat frame_maturity
                          eq_refl eq_refl _)) eq_refl eq_refl eq_refl eq_refl).
  unfold numeric_column. simpl. repeat constructor.
Defined.

Lemma null_maturity_never_in_view_witness :
  exists d',
    view (apply_filters Standin.repr Standin.re_compile globals_at_call 0 args_default
            (world_of frame_maturity)) = Some d'
    /\ forall r, In r (rows frame_maturity) -> isna (get "Kematangan" r) = true ->
                 ~ In r (rows d').
Proof.
  apply (proj2 (null_maturity_never_in_view Standin.repr Standin.re_compile
                  globals_at_call args_default (world_of frame_maturity) 0%nat
                  frame_maturity eq_refl eq_refl)).
  unfold numeric_column. simpl. repeat constructor.
Defined.

(** The group of a null organisation is the text "Lainnya", not "Other". *)
Lemma categorize_admin_null_is_not_other :
  ~ (forall (repr : cell -> string) (admin : cell),
       isna admin = true -> categorize_admin repr admin = "Other").
Proof.
  intros H. specialize (H Standin.repr NaN eq_refl). discriminate H.
Qed.

(** A text of blanks is not null: its group is the empty text. *)
Example categorize_admin_blank_text :
  categorize_admin Standin.repr (Str "   ") = "".
Proof. reflexivity. Qed.

(** A school is grouped as "Dinas Pendidikan", not "Education Department". *)
Example categorize_admin_school :
  categorize_admin Standin.repr (Str "SMKN 1 Surabaya") = "Dinas Pendidikan"
  /\ categorize_admin Standin.repr (Str "SMKN 1 Surabaya") <> "Education Department".
Proof. split; [reflexivity | discriminate]. Qed.

Lemma categorize_admin_cases_witness :
  categorize_admin Standin.repr NaN = "Lainnya".
Proof.
  apply (proj1 (categorize_admin_cases Standin.repr NaN)). reflexivity.
Defined.

Lemma get_nearest_area_nearest_witness :
  get_nearest_area (-29 # 4) (451 # 4) gazetteer default_threshold
  = inr "Kota Surabaya".
Proof.
  apply (proj1 (proj2 (get_nearest_area_nearest (-29 # 4) (451 # 4) gazetteer
                         ltac:(discriminate)))
           0%nat (mkRef "Kota Surabaya" (-29 # 4) (451 # 4)));
    [reflexivity | reflexivity | reflexivity | intros k e' Hk; lia].
Defined.

Example get_nearest_area_far :
  get_nearest_area (-8 # 1) (114 # 1) gazetteer default_threshold = inr UNIDENTIFIED.
Proof. reflexivity. Qed.

Lemma load_failure_is_not_fatal_witness :
  script Standin.numeric_of Standin.datetime_of Standin.repr Standin.re_compile
         (inr (mkSheet ["Kematangan"] [])) args_default (mkWorld [] [])
  = (inr Stopped,
     mkWorld [empty_frame]
             [StWarning EmptyData; StInfo Tips; StWarning DataUnavailable;
              StInfo UploadHint]).
Proof.
  apply (proj2 (proj2 (load_failure_is_not_fatal Standin.numeric_of Standin.datetime_of
                         Standin.repr Standin.re_compile args_default (mkWorld [] []))
                      (mkSheet ["Kematangan"] []) eq_refl)).
Defined.

(** With a comma in the column, each half is read on its own. *)
Example load_data_coordinates :
  exists df,
    fst (load_data Standin.numeric_of Standin.datetime_of Standin.repr
           (inr sheet_of_coordinates) (mkWorld [] [])) = inr df
    /\ map (fun r => (get "lat" r, get "lon" r)) (rows df)
       = [(Num (-29 # 4), Num (451 # 4)); (NaN, Num (451 # 4)); (Num (-29 # 4), NaN)].
Proof. eexists. split; reflexivity. Qed.

(** The minus sign U+2212 is not a sign of the number syntax. *)
Example decimal_parse_signs :
  Decimal.parse "-7.25" = Some (-29 # 4)%Q /\ Decimal.parse "−7.25" = None.
Proof. split; reflexivity. Qed.

Example calendar_example :
  Calendar.timestamp 2024 1 10 = (1704844800 * 1000000000)%Z
  /\ Calendar.date_of (Calendar.timestamp 2024 1 10) = (2024, 1, 10)%Z
  /\ Calendar.date_of (Calendar.timestamp 2024 1 10 + Calendar.timedelta_days 30)
     = (2024, 2, 9)%Z.
Proof. repeat split; reflexivity. Qed.

Lemma gantt_ranges_witness :
  exists plot,
    gantt_plot_df Standin.numeric_of Standin.datetime_of Standin.repr frame_dates
    = Some (inr plot)
    /\ Forall (fun r' => label r' = 0%nat
                         /\ get "Start" r' = Date (Calendar.timestamp 2024 1 10)
                         /\ get "End" r' = Date (Calendar.timestamp 2024 2 9))
              (rows plot).
Proof.
  assert (T : dates_typed frame_dates).
  { intros c Hc H. simpl in Hc. destruct Hc as [<-|[<-|[<-|[]]]];
      try (vm_compute in H; discriminate H).
    constructor; [right; eexists; reflexivity|].
    constructor; [left; reflexivity | constructor]. }
  destruct (gantt_ranges Standin.numeric_of Standin.datetime_of Standin.repr
              frame_dates eq_refl T) as (_ & _ & P & Ex).
  destruct (Ex eq_refl eq_refl) as (plot & E). exists plot. split; [exact E|].
  destruct (P plot E) as (Rows & _). apply List.Forall_forall. intros r' Hr'.
  destruct (Rows r' Hr') as (r & s & e & Hr & L & I & S & RE & En & _).
  simpl in Hr. destruct Hr as [<-|[<-|[]]].
  - vm_compute in I. injection I as <-.
    vm_compute in RE. injection RE as <-.
    split; [exact L|]. split; [exact S | exact En].
  - vm_compute in I. discriminate I.
Defined.

(** The timeline of the example: the dated record, from 2024-01-10 to
    2024-02-09. *)
Example gantt_example :
  option_map
    (fun p => match p with
              | inr plot => map (fun r => (label r, get "Start" r, get "End" r)) (rows plot)
              | inl _ => []
              end)
    (gantt_plot_df Standin.numeric_of Standin.datetime_of Standin.repr frame_dates)
  = Some [(0%nat, Date (Calendar.timestamp 2024 1 10), Date (Calendar.timestamp 2024 2 9))].
Proof. reflexivity. Qed.

Lemma load_data_raises_without_comma_witness :
  fst (load_data Standin.numeric_of Standin.datetime_of Standin.repr
         (inr sheet_without_comma) (mkWorld [] []))
  = inl (KeyError "1").
Proof.
  apply (load_data_raises_without_comma Standin.numeric_of Standin.datetime_of
           Standin.repr sheet_without_comma (mkWorld [] []) eq_refl).
  split; [discriminate|]. split; [reflexivity|]. simpl. repeat constructor.
Defined.

Lemma search_keeps_null_rows_witness :
  exists d',
    map_df_filtered Standin.repr Standin.re_compile frame_on_map "nan" None "All" = inr d'
    /\ In (row_of 1 [("Urusan Utama", NaN); ("lat", Num (-7 # 1)); ("lon", Num (112 # 1))])
          (rows d').
Proof.
  apply (proj2 (search_keeps_null_rows Standin.repr Standin.re_compile "nan" frame_on_map
                  (row_of 1 [("Urusan Utama", NaN);
                             ("lat", Num (-7 # 1)); ("lon", Num (112 # 1))])
                  eq_refl eq_refl (or_intror (or_introl eq_refl)))
           "Urusan Utama");
    try reflexivity.
  right. left. reflexivity.
Defined.

(** With the query "nan", [apply_filters] keeps the row whose "Asta Cipta"
    is null and drops the row whose text does not contain the query; the
    map search does the same on "Urusan Utama". *)
Example search_null_rows_example :
  view (apply_filters Standin.repr Standin.re_compile
          (mkGlobals (Some "nan") None None) 0 (mkArgs 0 ["All"] ["All"] None None)
          (world_of frame_asta_cipta))
  = Some (mkFrame ["Asta Cipta"] [row_of 1 [("Asta Cipta", NaN)]])
  /\ (exists d', map_df Standin.repr Standin.re_compile frame_on_map "nan" None "All"
                 = inr d'
                 /\ map (fun r => (label r, get "Urusan Utama" r)) (rows d')
                    = [(1%nat, NaN)]).
Proof.
  split; [reflexivity|]. eexists. split; reflexivity.
Qed.

Lemma categorize_admin_case_insensitive_witness :
  categorize_admin Standin.repr (Str "SMKN 1 Surabaya")
  = categorize_admin Standin.repr (Str "smkn 1 surabaya").
Proof.
  apply categorize_admin_case_insensitive; reflexivity.
Defined.

Lemma kategori_mapping_case_insensitive_witness :
  kategori_mapping Standin.repr (Str "Admin.Jawa.Timur")
  = kategori_mapping Standin.repr (Str "admin.jawa.timur").
Proof.
  apply (proj1 (kategori_mapping_case_insensitive Standin.repr
                  "Admin.Jawa.Timur" "admin.jawa.timur"));
    reflexivity.
Defined.

Lemma nama_pendek_bracket_witness :
  nama_pendek Standin.repr (Str "Dinas Kesehatan (Jatimprov.dinkes.prov)") = "Dinkes Prov".
Proof.
  apply (proj1 (nama_pendek_bracket Standin.repr "Dinas Kesehatan " "dinkes.prov" ""
                  eq_refl eq_refl eq_refl eq_refl ltac:(discriminate) eq_refl)).
Defined.

Lemma drop_duplicates_distinct_witness :
  drop_duplicates (drop_duplicates frame_maturity) = drop_duplicates frame_maturity.
Proof.
  apply (proj2 (proj2 (proj2 (drop_duplicates_distinct frame_maturity)))).
Defined.

Lemma load_data_row_accounting_witness :
  heap (snd (load_data Standin.numeric_of Standin.datetime_of Standin.repr
                       (inr sheet_of_coordinates) (mkWorld [] []))) = []
  /\ (length (rows (frame_of (load_data Standin.numeric_of Standin.datetime_of
                                        Standin.repr (inr sheet_of_coordinates)
                                        (mkWorld [] []))))
      <= 3)%nat.
Proof.
  destruct (load_data_row_accounting Standin.numeric_of Standin.datetime_of Standin.repr
              sheet_of_coordinates (mkWorld [] [])
              (snd (load_data Standin.numeric_of Standin.datetime_of Standin.repr
                              (inr sheet_of_coordinates) (mkWorld [] [])))
              (frame_of (load_data Standin.numeric_of Standin.datetime_of Standin.repr
                                   (inr sheet_of_coordinates) (mkWorld [] [])))
              ltac:(vm_compute; reflexivity) eq_refl) as (H1 & H2 & _).
  split; [exact H1 | exact H2].
Defined.

Lemma load_data_categorical_columns_witness :
  has_column "Admin OPD Grouped"
             (frame_of (load_data Standin.numeric_of Standin.datetime_of Standin.repr
                                  (inr sheet_of_organisations) (mkWorld [] [])))
  = true.
Proof.
  apply (proj2 (load_data_categorical_columns Standin.numeric_of Standin.datetime_of
                  Standin.repr (inr sheet_of_organisations) (mkWorld [] [])
                  (snd (load_data Standin.numeric_of Standin.datetime_of Standin.repr
                                  (inr sheet_of_organisations) (mkWorld [] [])))
                  (frame_of (load_data Standin.numeric_of Standin.datetime_of
                                       Standin.repr (inr sheet_of_organisations)
                                       (mkWorld [] [])))
                  ltac:(vm_compute; reflexivity))).
  reflexivity.
Defined.

Lemma script_outcomes_witness :
  fst (script Standin.numeric_of Standin.datetime_of Standin.repr Standin.re_compile
              (inr sheet_without_comma) args_default (mkWorld [] []))
  = inl (KeyError "1").
Proof.
  assert (P : forall sh, (inr sheet_without_comma : string + Sheet) = inr sh ->
                         plain_header sh /\ grouped_by_loader sh).
  { intros sh E. injection E as <-. split; [split|].
    - repeat constructor.
    - vm_compute. repeat constructor; simpl; intuition discriminate.
    - intros H. vm_compute in H. discriminate H. }
  pose proof (script_outcomes Standin.numeric_of Standin.datetime_of Standin.repr
                Standin.re_compile (inr sheet_without_comma) args_default
                (mkWorld [] []) P) as H.
  destruct (script Standin.numeric_of Standin.datetime_of Standin.repr Standin.re_compile
                   (inr sheet_without_comma) args_default (mkWorld [] []))
    as [[e|out] w'] eqn:E.
  - destruct H as (-> & _). reflexivity.
  - exfalso. vm_compute in E. discriminate E.
Defined.

Lemma region_options_witness :
  exists df_geo,
    map_coordinates_to_region "lat" "lon" (dropna ["lat"; "lon"] frame_on_map) gazetteer
    = inr df_geo
    /\ List.NoDup (daerah_tersedia df_geo).
Proof.
  pose proof (region_options frame_on_map "lat" "lon" gazetteer
                ltac:(vm_compute; discriminate)) as H.
  destruct (map_coordinates_to_region "lat" "lon" (dropna ["lat"; "lon"] frame_on_map)
                                      gazetteer) as [e|df_geo] eqn:E.
  - exfalso. vm_compute in E. discriminate E.
  - exists df_geo. split; [reflexivity | apply H].
Defined.

(** The regions of the example: the record at Surabaya, and the record
    no entry of the table is near. *)
Example region_options_example :
  exists df_geo,
    map_coordinates_to_region "lat" "lon" (dropna ["lat"; "lon"] frame_on_map) gazetteer
    = inr df_geo
    /\ daerah_tersedia df_geo = ["Kota Surabaya"; UNIDENTIFIED].
Proof. eexists. split; reflexivity. Qed.

(** A view none of whose records is located: the naming of the
    regions raises. *)
Example regions_of_no_located_record :
  map_coordinates_to_region "lat" "lon"
    (dropna ["lat"; "lon"]
            (mkFrame ["lat"; "lon"] [row_of 0 [("lat", NaN); ("lon", NaN)]]))
    gazetteer
  = inl ValueError.
Proof. reflexivity. Qed.

Lemma loaded_coordinates_are_found_witness :
  let page :=
    with_short_names Standin.repr
      (passing Standin.repr Standin.re_compile globals_at_call args_default source_order
               (frame_of (load_data Standin.numeric_of Standin.datetime_of Standin.repr
                                    (inr sheet_of_coordinates) (mkWorld [] [])))) in
  lat_col page = Some "lat"
  /\ lon_col page = Some "lon"
  /\ exists df_geo,
       map_coordinates_to_region "lat" "lon" (dropna ["lat"; "lon"] page) gazetteer
       = inr df_geo.
Proof.
  assert (P : plain_header sheet_of_coordinates).
  { split; [repeat constructor|].
    vm_compute. repeat constructor; simpl; intuition discriminate. }
  pose proof (loaded_coordinates_are_found Standin.numeric_of Standin.datetime_of
                Standin.repr Standin.re_compile sheet_of_coordinates (mkWorld [] [])
                (snd (load_data Standin.numeric_of Standin.datetime_of Standin.repr
                                (inr sheet_of_coordinates) (mkWorld [] [])))
                (frame_of (load_data Standin.numeric_of Standin.datetime_of Standin.repr
                                     (inr sheet_of_coordinates) (mkWorld [] [])))
                globals_at_call args_default P
                ltac:(vm_compute; reflexivity) eq_refl eq_refl eq_refl eq_refl) as H.
  cbv zeta in H. destruct H as (Hlat & Hlon & _ & _ & Found & _).
  cbv zeta. split; [exact Hlat | split; [exact Hlon|]].
  apply Found; [discriminate | vm_compute; discriminate].
Defined.

Lemma map_df_shows_witness :
  exists m,
    map_df Standin.repr Standin.re_compile frame_on_map "kesehatan"
           (daerah_col_of frame_on_map) "All" = inr m
    /\ (length (rows m) <= 600)%nat.
Proof.
  pose proof (map_df_shows Standin.repr Standin.re_compile frame_on_map "kesehatan" "All")
    as H.
  destruct (map_df Standin.repr Standin.re_compile frame_on_map "kesehatan"
                   (daerah_col_of frame_on_map) "All") as [e|m] eqn:E.
  - exfalso. vm_compute in E. discriminate E.
  - exists m. split; [reflexivity | apply H].
Defined.

Lemma marker_color_cases_witness :
  marker_color Standin.repr frame_maturity
               (row_of 2 [("Kematangan", Num (30 # 1)); ("Jenis", Str "Non Digital")])
  = "green".
Proof.
  apply (proj2 (proj2 (proj2
           (marker_color_cases Standin.repr frame_maturity
              (row_of 2 [("Kematangan", Num (30 # 1)); ("Jenis", Str "Non Digital")]))))
           "Non Digital");
    reflexivity.
Defined.

Lemma collaborations_analysed_witness :
  exists sent,
    collaborations ["Inovasi A"; "Inovasi B"; "Inovasi C"] 3 = Analysed sent
    /\ (forall c, In c sent -> length c = 2%nat).
Proof.
  destruct (collaborations_analysed ["Inovasi A"; "Inovasi B"; "Inovasi C"] 3
              ltac:(simpl; lia)) as (sent & E & _ & _ & _ & P).
  exists sent. split; [exact E|]. apply P. simpl. lia.
Defined.

Lemma df_tampil_sorted_witness :
  exists t, df_tampil frame_maturity = Some (inr t)
            /\ map label (rows t) = [1; 2; 3]%nat
            /\ map (get "Kematangan") (rows t) = [Num (80 # 1); Num (30 # 1); NaN].
Proof.
  pose proof (df_tampil_sorted frame_maturity eq_refl) as H.
  destruct (df_tampil frame_maturity) as [[e|t]|] eqn:E.
  - exfalso. destruct H as (_ & H). discriminate H.
  - exists t. split; [reflexivity|]. split; [apply H|].
    vm_compute in E. injection E as <-. reflexivity.
  - destruct H.
Defined.

Lemma page_needs_maturity_column_witness :
  df_tampil (passing Standin.repr Standin.re_compile globals_at_call args_default
                     source_order
                     (frame_of (load_data Standin.numeric_of Standin.datetime_of
                                          Standin.repr (inr sheet_of_coordinates)
                                          (mkWorld [] []))))
  = Some (inl (KeyError "Kematangan")).
Proof.
  assert (P : plain_header sheet_of_coordinates).
  { split; [repeat constructor|].
    vm_compute. repeat constructor; simpl; intuition discriminate. }
  pose proof (page_needs_maturity_column Standin.numeric_of Standin.datetime_of
                Standin.repr Standin.re_compile sheet_of_coordinates (mkWorld [] [])
                P eq_refl eq_refl) as H.
  unfold frame_of.
  destruct (load_data Standin.numeric_of Standin.datetime_of Standin.repr
                      (inr sheet_of_coordinates) (mkWorld [] [])) as [[e|df] w'] eqn:E.
  - exfalso. vm_compute in E. discriminate E.
  - cbn [fst]. apply H.
    apply (f_equal fst) in E. vm_compute in E.
    apply (f_equal (fun x => match x with inr y => y | inl _ => df end)) in E.
    cbv beta iota in E. subst df. vm_compute. reflexivity.
Defined.

Lemma df_display_numbers_witness :
  length (rows (df_display frame_maturity)) = 3%nat.
Proof.
  apply (proj1 (proj2 (df_display_numbers frame_maturity))).
Defined.

Lemma persentase_range_witness :
  (0 < persentase 3 (length (rows (passing Standin.repr Standin.re_compile globals_at_call
                                           args_digital_50 source_order frame_maturity))))%Q.
Proof.
  apply (proj1 (proj2 (persentase_range Standin.repr Standin.re_compile globals_at_call
                         args_digital_50 source_order frame_maturity))).
  vm_compute. lia.
Defined.

Lemma apply_filters_idempotent_witness :
  view (apply_filters Standin.repr Standin.re_compile globals_at_call 3 args_digital_50
          (snd (apply_filters Standin.repr Standin.re_compile globals_at_call 0
                              args_digital_50 (world_of frame_maturity))))
  = heap (snd (apply_filters Standin.repr Standin.re_compile globals_at_call 0
                             args_digital_50 (world_of frame_maturity))) !! 3%nat.
Proof.
  refine (proj1 (apply_filters_idempotent Standin.repr Standin.re_compile globals_at_call
                   args_digital_50 (world_of frame_maturity) 0%nat frame_maturity 3%nat
                   (snd (apply_filters Standin.repr Standin.re_compile globals_at_call 0
                                       args_digital_50 (world_of frame_maturity)))
                   eq_refl _ ltac:(vm_compute; reflexivity))).
  unfold numeric_column. simpl. repeat constructor.
Defined.

Lemma stricter_filters_shrink_view_witness :
  passing Standin.repr Standin.re_compile globals_at_call args_default source_order
          frame_maturity
  = passing Standin.repr Standin.re_compile globals_at_call
            (mkArgs 0 ["All"; "Digital"] ["All"] (Some ["All"]) (Some ["All"]))
            source_order frame_maturity.
Proof.
  refine (proj2 (stricter_filters_shrink_view Standin.repr Standin.re_compile
                   globals_at_call
                   (mkArgs 0 ["All"; "Digital"] ["All"] (Some ["All"]) (Some ["All"]))
                   args_default (world_of frame_maturity) 0%nat frame_maturity _ _
                   eq_refl _ ltac:(vm_compute; reflexivity)
                   ltac:(vm_compute; reflexivity)) _);
    (split; [simpl; lia|]); repeat split; left; reflexivity.
Defined.

Lemma load_data_column_types_witness :
  numeric_column "lat"
    (frame_of (load_data Standin.numeric_of Standin.datetime_of Standin.repr
                         (inr sheet_of_coordinates) (mkWorld [] []))).
Proof.
  apply (proj2 (proj2 (load_data_column_types Standin.numeric_of Standin.datetime_of
                         Standin.repr (inr sheet_of_coordinates) (mkWorld [] [])
                         (snd (load_data Standin.numeric_of Standin.datetime_of
                                         Standin.repr (inr sheet_of_coordinates)
                                         (mkWorld [] [])))
                         (frame_of (load_data Standin.numeric_of Standin.datetime_of
                                              Standin.repr (inr sheet_of_coordinates)
                                              (mkWorld [] [])))
                         ltac:(vm_compute; reflexivity)))
           "lat");
    [left; reflexivity | reflexivity].
Defined.
